(** * Widget resizing: the resize context, the resizer and the resizer plugin

    A shallow embedding of [src/resizecontext.js], [src/widgetresizer.js] and
    [src/widgetresizer/resizer.js].  JavaScript objects are records, object
    references are identifiers into a store, methods are computations in a
    state monad whose result is either a normal completion or a thrown
    error (the state reached when the error is thrown is kept, as it is in
    JavaScript).

    Embedded are the methods that run once a widget is on the page: the
    handle and position helpers, [begin], [updateSize], [commit], [cancel],
    [destroy] and [redraw] of both classes, and the listeners that the
    plugin installs in [init].  Of the construction of the overlay the
    plain DOM code is embedded ([_appendShadowElement], [_appendResizers]);
    [attach], [apply] and the size label of the render callback are not: a
    state in which the overlay exists has [domResizeWrapper] and
    [domResizeShadow] set. *)

From Stdlib Require Import ZArith QArith.QArith_base QArith.Qabs QArith.Qround QArith.Qreduction.
From Stdlib Require Import String Ascii List Lia.
From stdpp Require Import base option gmap strings list.
Import ListNotations.

Local Open Scope string_scope.
Local Open Scope list_scope.

(** ** JavaScript values and control flow *)

Module Js.

(** The only error the embedded code can raise by itself is the
    [TypeError] of a property access on [null] or [undefined]. *)
Inductive Error : Type := TypeError.

Inductive Completion (A : Type) : Type :=
| Normal (a : A)
| Throw (e : Error).
Arguments Normal {A} a.
Arguments Throw {A} e.

(** A method body: reads and writes the state [S], and completes. *)
Definition M (S A : Type) : Type := S -> Completion A * S.

Definition ret {S A} (a : A) : M S A := fun s => (Normal a, s).

Definition bind {S A B} (m : M S A) (k : A -> M S B) : M S B :=
  fun s =>
    match m s with
    | (Normal a, s') => k a s'
    | (Throw e, s') => (Throw e, s')
    end.

Definition throw {S A} (e : Error) : M S A := fun s => (Throw e, s).
Definition get {S} : M S S := fun s => (Normal s, s).
Definition gets {S A} (f : S -> A) : M S A := fun s => (Normal (f s), s).
Definition modify {S} (f : S -> S) : M S unit := fun s => (Normal tt, f s).

(** [o.field] where [o] may be [null] or [undefined]. *)
Definition deref {S A} (o : option A) : M S A :=
  match o with
  | Some a => ret a
  | None => throw TypeError
  end.

(** Lifts a completion that does not touch the state. *)
Definition lift {S A} (c : Completion A) : M S A := fun s => (c, s).

(** [if ( c ) { m }] *)
Definition when {S} (c : bool) (m : M S unit) : M S unit :=
  if c then m else ret tt.

(** A JavaScript number.  Finite values are kept as exact rationals: the
    rounding of a finite quotient to the nearest double is not modelled,
    the special values of a division by zero are. *)
Inductive number : Type :=
| Finite (q : Q)
| PosInfinity
| NegInfinity
| NaN.

Definition of_Z (z : Z) : number := Finite (inject_Z z).

(** [a / b].  The sign of a zero is not tracked: a zero divisor is taken
    as [+0], as the zero of an element's [clientHeight] is. *)
Definition div (a b : number) : number :=
  match a, b with
  | NaN, _ | _, NaN => NaN
  | Finite p, Finite q =>
      if (Qnum q =? 0)%Z then
        match (Qnum p ?= 0)%Z with
        | Eq => NaN
        | Gt => PosInfinity
        | Lt => NegInfinity
        end
      else Finite (Qred (p / q))
  | Finite _, _ => Finite 0
  | PosInfinity, Finite q => if (Qnum q <? 0)%Z then NegInfinity else PosInfinity
  | NegInfinity, Finite q => if (Qnum q <? 0)%Z then PosInfinity else NegInfinity
  | _, _ => NaN
  end.

(** [Math.round]: the nearest integer, ties towards plus infinity. *)
Definition round (n : number) : number :=
  match n with
  | Finite q => of_Z (Qfloor (q + Qmake 1 2))
  | other => other
  end.

(** [s.split( sep )] for a one-character separator. *)
Fixpoint split (sep : ascii) (s : string) : list string :=
  match s with
  | EmptyString => [EmptyString]
  | String c rest =>
      if Ascii.eqb c sep then EmptyString :: split sep rest
      else match split sep rest with
           | [] => [String c EmptyString]
           | part :: parts => String c part :: parts
           end
  end.

(** How a template literal renders a string-or-undefined value. *)
Definition template (v : option string) : string :=
  match v with
  | Some s => s
  | None => "undefined"
  end.

(** The property key [array[ i ]] is converted to when it is used as one. *)
Definition to_property_key (v : option string) : string := template v.

End Js.

Notation "'do' x <- m ; k" := (Js.bind m (fun x => k))
  (at level 10, x name, m at level 100, k at level 200, only parsing).

(** ** The DOM, as far as the resizer touches it *)

Module Dom.

(** Node identity; [a.isSameNode( b )] compares identifiers. *)
Definition ElemId : Type := nat.

(** A length written as [n + 'px']. *)
Inductive CssValue : Type := Px (n : Js.number).

(** The inline style properties the resizer writes, each with the value
    last assigned to it.  (A browser keeps the previous value when the
    assigned text is not a length it accepts, as with a negative or a
    non-finite number; that filtering is not modelled.) *)
Module Style.
Record t : Type := mk
  { width : option CssValue;
    height : option CssValue;
    left : option CssValue;
    top : option CssValue }.
Definition empty : t := mk None None None None.
Definition set_width (v : CssValue) (s : t) : t :=
  mk (Some v) (height s) (left s) (top s).
Definition set_height (v : CssValue) (s : t) : t :=
  mk (width s) (Some v) (left s) (top s).
Definition set_left (v : CssValue) (s : t) : t :=
  mk (width s) (height s) (Some v) (top s).
Definition set_top (v : CssValue) (s : t) : t :=
  mk (width s) (height s) (left s) (Some v).
End Style.


Record Element : Type := mkElement
  { classList : list string;
    parentElement : option ElemId;
    style : Style.t;
    (* [el.ownerDocument && el.ownerDocument.contains( el )] *)
    inDocument : bool }.

Definition blank : Element := mkElement [] None Style.empty false.

(** The elements reachable from the code, by identity. *)
Abbreviation t := (gmap nat Element).

Definition elem (dom : t) (id : ElemId) : Element :=
  default blank (dom !! id).

Definition update (id : ElemId) (f : Element -> Element) (dom : t) : t :=
  <[id := f (elem dom id)]> dom.

Definition set_style (id : ElemId) (f : Style.t -> Style.t) (dom : t) : t :=
  update id (fun e => mkElement (classList e) (parentElement e) (f (style e)) (inDocument e)) dom.

Definition set_classList (id : ElemId) (f : list string -> list string) (dom : t) : t :=
  update id (fun e => mkElement (f (classList e)) (parentElement e) (style e) (inDocument e)) dom.

(** [classList.contains( token )] *)
Definition contains (tokens : list string) (token : string) : bool :=
  existsb (String.eqb token) tokens.

(** [classList.add( token )]: a token list holds a token once. *)
Definition add (token : string) (tokens : list string) : list string :=
  if contains tokens token then tokens else tokens ++ [token].

(** [classList.remove( token )] *)
Definition remove (token : string) (tokens : list string) : list string :=
  List.filter (fun t => negb (String.eqb token t)) tokens.

(** The token list of a [class] attribute. *)
Definition tokens_of_class (attr : string) : list string :=
  List.filter (fun t => negb (String.eqb t "")) (Js.split " "%char attr).

(** [getAncestors( node )] of ckeditor5-utils: the node and its ancestors,
    the top-most first.  [fuel] bounds the walk up the parent chain. *)
Fixpoint ancestors_from (fuel : nat) (dom : t) (node : ElemId) (nodes : list ElemId)
  : list ElemId :=
  match fuel with
  | O => nodes
  | S fuel' =>
      match parentElement (elem dom node) with
      | Some parent => ancestors_from fuel' dom parent (node :: nodes)
      | None => node :: nodes
      end
  end.

(** A parent chain without a cycle has at most [size dom] stored elements
    on it, after the node itself. *)
Definition getAncestors (dom : t) (node : ElemId) : list ElemId :=
  ancestors_from (S (size dom)) dom node [].

(** [document.createElement( 'div' )], or a rendered template: a new
    element, with no class, no parent and in no document. *)
Definition createElement (d : t) : ElemId * t :=
  let id := fresh (dom d) in
  (id, <[id := blank]> d).

(** [el.setAttribute( 'class', value )] *)
Definition setClass (id : ElemId) (value : string) (d : t) : t :=
  set_classList id (fun _ => tokens_of_class value) d.

(** [parent.appendChild( child )], for a child that has no descendants, as
    a newly created element has none: the child gets the parent, and is in
    the document when the parent is. *)
Definition appendChild (parent child : ElemId) (d : t) : t :=
  update child
         (fun e => mkElement (classList e) (Some parent) (style e) (inDocument (elem d parent))) d.

(** What the browser's layout reports for an element. *)
Record Box : Type := mkBox
  { clientWidth : Z;
    clientHeight : Z;
    offsetLeft : Z;
    offsetTop : Z;
    offsetWidth : Z;
    offsetHeight : Z;
    (* [new Rect( el ).width] and [.height] *)
    rectWidth : Js.number;
    rectHeight : Js.number }.

(** The browser: the layout it computes from the current DOM, and what a
    plain object inherits from [Object.prototype] (the rendering of the
    inherited property in a template literal, [None] when there is no such
    property). *)
Class Browser : Type := mkBrowser
  { layout : t -> ElemId -> Box;
    object_prototype : string -> option string }.

End Dom.

(** ** The editing engine, at the interface the resizer calls

    [@ckeditor/ckeditor5-engine] is another package: the mapper is a lookup
    and the model records the change blocks it is handed, each with the
    [writer.setAttribute] calls made inside it. *)

Module Engine.

Definition ViewElement : Type := nat.
Definition ModelElement : Type := nat.

Inductive AttributeValue : Type :=
| NumberValue (n : Z)          (* [newWidth] *)
| PxValue (n : Z).             (* [newWidth + 'px'] *)

(** One call [writer.setAttribute( key, value, item )]; [item] is [None]
    when the argument is [undefined]. *)
Record SetAttribute : Type := mkSetAttribute
  { key : string;
    value : AttributeValue;
    item : option ModelElement }.

Record Editor : Type := mkEditor
  { (* [editor.editing.mapper.toModelElement] *)
    toModelElement : ViewElement -> option ModelElement;
    (* the blocks passed to [editor.model.change], oldest first *)
    changes : list (list SetAttribute) }.

(** [editor.model.change( writer => { ... } )] *)
Definition change (block : list SetAttribute) (editor : Editor) : Editor :=
  mkEditor (toModelElement editor) (changes editor ++ [block]).

(** All [setAttribute] calls the model has received. *)
Definition writes (editor : Editor) : list SetAttribute := concat (changes editor).

End Engine.

Module Point.
Record t : Type := mk { x : Js.number; y : Js.number }.
End Point.

(** [domEventData] of a mouse event. *)
Record DomEventData : Type := mkDomEventData
  { target : Dom.ElemId;
    pageX : Js.number;
    pageY : Js.number }.

(** ** resizecontext.js *)

Module ResizeContext.
Import Js Dom.

Definition WIDTH_ATTRIBUTE_NAME : string := "width".

(** The resizer options a context reads.  A host callback is taken as a
    function of the element it is given. *)
Record Options : Type := mkOptions
  { getResizeHost : option (option ElemId -> option ElemId);
    getAspectRatio : option (ElemId -> number) }.

(** [ResizerTopBound] lives in [./resizertopbound], which is not among the
    sources.  The calls a context makes into its strategy are recorded, in
    order; what the strategy does with them is outside this model. *)
Inductive StrategyCall : Type :=
| StrategyBegin (domResizeHandler : ElemId)
| StrategyCommit
| StrategyCancel
| StrategyUpdateSize (domEventData : DomEventData).

(** The fields of a [ResizeContext].  [null] and [undefined] are both
    [None].  The field [wrapper], which only [destroy] writes and nothing
    reads, is left out. *)
Record t : Type := mk
  { resizeWrapperElement : option Engine.ViewElement;
    widgetWrapperElement : option Engine.ViewElement;
    resizeStrategy : list StrategyCall;
    domResizeWrapper : option ElemId;
    domResizeShadow : option ElemId;
    options : Options;
    referenceCoordinates : Point.t;
    originalSize : Point.t;
    referenceHandlerPosition : option string;
    aspectRatio : option number;
    (* observable properties *)
    proposedX : option number;
    proposedY : option number;
    orientation : option string }.

Definition set_resizeStrategy v (c : t) : t :=
  mk (resizeWrapperElement c) (widgetWrapperElement c) v (domResizeWrapper c)
     (domResizeShadow c) (options c) (referenceCoordinates c) (originalSize c)
     (referenceHandlerPosition c) (aspectRatio c) (proposedX c) (proposedY c) (orientation c).
Definition set_domResizeShadow v (c : t) : t :=
  mk (resizeWrapperElement c) (widgetWrapperElement c) (resizeStrategy c) (domResizeWrapper c)
     v (options c) (referenceCoordinates c) (originalSize c)
     (referenceHandlerPosition c) (aspectRatio c) (proposedX c) (proposedY c) (orientation c).
Definition set_referenceCoordinates v (c : t) : t :=
  mk (resizeWrapperElement c) (widgetWrapperElement c) (resizeStrategy c) (domResizeWrapper c)
     (domResizeShadow c) (options c) v (originalSize c)
     (referenceHandlerPosition c) (aspectRatio c) (proposedX c) (proposedY c) (orientation c).
Definition set_originalSize v (c : t) : t :=
  mk (resizeWrapperElement c) (widgetWrapperElement c) (resizeStrategy c) (domResizeWrapper c)
     (domResizeShadow c) (options c) (referenceCoordinates c) v
     (referenceHandlerPosition c) (aspectRatio c) (proposedX c) (proposedY c) (orientation c).
Definition set_referenceHandlerPosition v (c : t) : t :=
  mk (resizeWrapperElement c) (widgetWrapperElement c) (resizeStrategy c) (domResizeWrapper c)
     (domResizeShadow c) (options c) (referenceCoordinates c) (originalSize c)
     v (aspectRatio c) (proposedX c) (proposedY c) (orientation c).
Definition set_aspectRatio v (c : t) : t :=
  mk (resizeWrapperElement c) (widgetWrapperElement c) (resizeStrategy c) (domResizeWrapper c)
     (domResizeShadow c) (options c) (referenceCoordinates c) (originalSize c)
     (referenceHandlerPosition c) v (proposedX c) (proposedY c) (orientation c).
Definition set_proposed vx vy (c : t) : t :=
  mk (resizeWrapperElement c) (widgetWrapperElement c) (resizeStrategy c) (domResizeWrapper c)
     (domResizeShadow c) (options c) (referenceCoordinates c) (originalSize c)
     (referenceHandlerPosition c) (aspectRatio c) vx vy (orientation c).
Definition set_orientation v (c : t) : t :=
  mk (resizeWrapperElement c) (widgetWrapperElement c) (resizeStrategy c) (domResizeWrapper c)
     (domResizeShadow c) (options c) (referenceCoordinates c) (originalSize c)
     (referenceHandlerPosition c) (aspectRatio c) (proposedX c) (proposedY c) v.

(** What a method of a context can reach: the context itself, the DOM and
    the editor it is handed. *)
Record State : Type := mkState
  { this : t;
    dom : Dom.t;
    editor : Engine.Editor }.

Definition modify_this (f : t -> t) : M State unit :=
  modify (fun s => mkState (f (this s)) (dom s) (editor s)).
Definition modify_dom (f : Dom.t -> Dom.t) : M State unit :=
  modify (fun s => mkState (this s) (f (dom s)) (editor s)).
Definition modify_editor (f : Engine.Editor -> Engine.Editor) : M State unit :=
  modify (fun s => mkState (this s) (dom s) (f (editor s))).

(** What resizecontext.js imports from modules that are not among the
    sources: [getAbsoluteBoundaryPoint] of [./utils], and the size that
    the strategy's [updateSize] returns. *)
Class Imports : Type := mkImports
  { getAbsoluteBoundaryPoint : Dom.t -> ElemId -> string -> Point.t;
    strategy_updateSize : t -> Dom.t -> DomEventData -> Point.t }.

Definition resizerPositions : list string :=
  [ "top-left"; "top-right"; "bottom-right"; "bottom-left" ].

Definition _getResizerClass (resizerPosition : string) : string :=
  "ck-widget__resizer-" ++ resizerPosition.

(** The [class] attribute [_appendResizers] renders for a handle. *)
Definition resizer_class_attribute (currentPosition : string) : string :=
  "ck-widget__resizer " ++ _getResizerClass currentPosition.

(** The first position of the table whose class the handle carries;
    [None] is the [undefined] of falling off the loop. *)
Definition _getResizerPosition (domResizeHandler : Element) : option string :=
  List.find (fun position => contains (classList domResizeHandler) (_getResizerClass position))
            resizerPositions.

Definition _extractCoordinates (event : DomEventData) : Point.t :=
  Point.mk (pageX event) (pageY event).

(** The own properties of the [replacements] object literal. *)
Definition replacements_own (key : string) : option string :=
  if String.eqb key "top" then Some "bottom"
  else if String.eqb key "bottom" then Some "top"
  else if String.eqb key "left" then Some "right"
  else if String.eqb key "right" then Some "left"
  else None.

Section Methods.
Context {browser : Browser} {imports : Imports}.

(** [replacements[ part ]]: an own property, else what the object
    inherits, else [undefined]. *)
Definition replacements (part : option string) : option string :=
  let key := to_property_key part in
  match replacements_own key with
  | Some v => Some v
  | None => object_prototype key
  end.

Definition _invertPosition (position : option string) : Completion string :=
  match position with
  | None => Throw TypeError                     (* [position.split] *)
  | Some position =>
      let parts := split "-"%char position in
      Normal (template (replacements (nth_error parts 0)) ++ "-"
                ++ template (replacements (nth_error parts 1)))%string
  end.

Definition _cleanupContext : M State unit :=
  do _ <- modify_this (set_referenceHandlerPosition None);
  modify_this (fun c => set_orientation None (set_proposed None None c)).

(** [new ResizeContext( options )] *)
Definition create (opts : option Options) : t :=
  mk None None [] None None (default (mkOptions None None) opts)
     (Point.mk (of_Z 0) (of_Z 0)) (Point.mk (of_Z 0) (of_Z 0))
     None None None None None.

Definition _getResizeHost : M State (option ElemId) :=
  do wrapper <- (do c <- gets this; deref (domResizeWrapper c));
  do d <- gets dom;
  let widgetWrapper := parentElement (elem d wrapper) in
  do c <- gets this;
  ret (match getResizeHost (options c) with
       | Some f => f widgetWrapper
       | None => widgetWrapper
       end).

Definition strategy (call : StrategyCall) : M State unit :=
  modify_this (fun c => set_resizeStrategy (resizeStrategy c ++ [call]) c).

Definition begin (domResizeHandler : ElemId) : M State unit :=
  do resizeHost <- _getResizeHost;
  do shadow <- (do c <- gets this; deref (domResizeShadow c));
  do _ <- modify_dom (set_classList shadow (add "ck-widget__resizer-shadow-active"));
  do d <- gets dom;
  let position := _getResizerPosition (elem d domResizeHandler) in
  do _ <- modify_this (set_referenceHandlerPosition position);
  do _ <- modify_this (set_orientation position);
  do reversedPosition <- lift (_invertPosition position);
  (* the boundary point and the client size are read off the host *)
  do host <- deref resizeHost;
  do _ <- modify_this (set_referenceCoordinates (getAbsoluteBoundaryPoint d host reversedPosition));
  let size := Point.mk (of_Z (clientWidth (layout d host))) (of_Z (clientHeight (layout d host))) in
  do _ <- modify_this (set_originalSize size);
  do c <- gets this;
  do _ <- modify_this (set_aspectRatio (Some
            match getAspectRatio (options c) with
            | Some f => f host
            | None => div (Point.x size) (Point.y size)
            end));
  strategy (StrategyBegin domResizeHandler).

Definition _dismissShadow : M State unit :=
  do shadow <- (do c <- gets this; deref (domResizeShadow c));
  do _ <- modify_dom (set_classList shadow (remove "ck-widget__resizer-shadow-active"));
  modify_dom (set_style shadow (fun _ => Style.empty)).

Definition _getModel : M State (option Engine.ModelElement) :=
  do c <- gets this;
  do e <- gets editor;
  ret (match widgetWrapperElement c with
       | Some view => Engine.toModelElement e view
       | None => None
       end).

(** [a.isSameNode( b )], for [a] an element and [b] an element or [null]. *)
Definition isSameNode (a : ElemId) (b : option ElemId) : bool :=
  match b with
  | Some b => Nat.eqb a b
  | None => false
  end.

Definition redraw : M State unit :=
  do c <- gets this;
  match domResizeWrapper c with
  | None => ret tt
  | Some wrapper =>
      do d <- gets dom;
      let widgetWrapper := parentElement (elem d wrapper) in
      do resizingHost <- _getResizeHost;
      do widget <- deref widgetWrapper;        (* [widgetWrapper.isSameNode] *)
      if isSameNode widget resizingHost then ret tt
      else
        do host <- deref resizingHost;         (* [resizingHost.offsetLeft] *)
        do _ <- modify_dom (fun d =>
                  set_style wrapper (Style.set_left (Px (of_Z (offsetLeft (layout d host))))) d);
        do _ <- modify_dom (fun d =>
                  set_style wrapper (Style.set_top (Px (of_Z (offsetTop (layout d host))))) d);
        do _ <- modify_dom (fun d =>
                  set_style wrapper (Style.set_height (Px (of_Z (offsetHeight (layout d host))))) d);
        modify_dom (fun d =>
                  set_style wrapper (Style.set_width (Px (of_Z (offsetWidth (layout d host))))) d)
  end.

Definition commit : M State unit :=
  do modelEntry <- _getModel;
  do shadow <- (do c <- gets this; deref (domResizeShadow c));
  do newWidth <- gets (fun s => clientWidth (layout (dom s) shadow));
  do _ <- _dismissShadow;
  do _ <- redraw;
  do _ <- strategy StrategyCommit;
  do _ <- modify_editor (Engine.change
            [ Engine.mkSetAttribute WIDTH_ATTRIBUTE_NAME (Engine.NumberValue newWidth) modelEntry ]);
  _cleanupContext.

Definition cancel : M State unit :=
  do _ <- _dismissShadow;
  do _ <- strategy StrategyCancel;
  _cleanupContext.

Definition destroy : M State unit :=
  do _ <- cancel;
  modify_this (set_domResizeShadow None).

Definition updateSize (domEventData : DomEventData) : M State unit :=
  do s <- get;
  let proposedSize := strategy_updateSize (this s) (dom s) domEventData in
  do _ <- strategy (StrategyUpdateSize domEventData);
  do wrapper <- (do c <- gets this; deref (domResizeWrapper c));
  do _ <- modify_dom (set_style wrapper (Style.set_width (Px (Point.x proposedSize))));
  do _ <- modify_dom (set_style wrapper (Style.set_height (Px (Point.y proposedSize))));
  modify_this (set_proposed (Some (Point.x proposedSize)) (Some (Point.y proposedSize))).

(** [domDocument.createElement( 'div' )], and the [render()] of a template
    with a tag and attributes only. *)
Definition create_element : M State ElemId :=
  fun s =>
    let (id, d) := createElement (dom s) in
    (Normal id, mkState (this s) d (editor s)).

Definition _appendShadowElement (domElement : ElemId) : M State ElemId :=
  do shadowElement <- create_element;
  do _ <- modify_dom (setClass shadowElement "ck ck-widget__resizer-shadow");
  do _ <- modify_dom (appendChild domElement shadowElement);
  ret shadowElement.

(** The loop of [_appendResizers], over the positions still to render. *)
Fixpoint append_resizers (positions : list string) (domElement : ElemId) : M State unit :=
  match positions with
  | [] => ret tt
  | currentPosition :: rest =>
      do resizer <- create_element;
      do _ <- modify_dom (setClass resizer (resizer_class_attribute currentPosition));
      do _ <- modify_dom (appendChild domElement resizer);
      append_resizers rest domElement
  end.

Definition _appendResizers (domElement : ElemId) : M State unit :=
  append_resizers resizerPositions domElement.

End Methods.

End ResizeContext.

(** ** widgetresizer.js *)

Module WidgetResizer.
Import Js Dom.

(** The plugin after [init]: its contexts, the active one (a reference
    into [contexts], by index), how many times [mouseMoveListener] is
    subscribed to [mousemove], and the DOM and the editor its listeners
    reach. *)
Record t : Type := mk
  { contexts : list ResizeContext.t;
    activeContext : option nat;
    mouseMove : nat;
    dom : Dom.t;
    editor : Engine.Editor }.

Definition set_activeContext v (p : t) : t :=
  mk (contexts p) v (mouseMove p) (dom p) (editor p).
Definition set_mouseMove v (p : t) : t :=
  mk (contexts p) (activeContext p) v (dom p) (editor p).

(** [init], given the DOM and the editor of the page. *)
(** [_observers.mouseMove.listenTo( mouseObserverHost, 'mousemove',
    mouseMoveListener )] of the emitter mixin of ckeditor5-utils: the
    callback is added to the callbacks of the event, also when it is
    among them already. *)
Definition listenTo (p : t) : t := set_mouseMove (S (mouseMove p)) p.

(** [_observers.mouseMove.stopListening( mouseObserverHost, 'mousemove',
    mouseMoveListener )]: every subscription of the callback is removed. *)
Definition stopListening (p : t) : t := set_mouseMove 0 p.

(** [init], given the DOM and the editor of the page. *)
Definition init (d : Dom.t) (e : Engine.Editor) : t := mk [] None 0 d e.

Inductive Event : Type :=
| MouseDown (domEventData : DomEventData)
| MouseMove (domEventData : DomEventData)
| MouseUp
| LayoutChanged.

Definition isResizeHandler (element : Element) : bool :=
  contains (classList element) "ck-widget__resizer".

Section Listeners.
Context {browser : Browser} {imports : ResizeContext.Imports}.

(** Calls a method on the context that [ref] refers to. *)
Definition call {A} (ref : nat) (method : M ResizeContext.State A) : M t A :=
  fun p =>
    match contexts p !! ref with
    | None => (Throw TypeError, p)
    | Some context =>
        let (completion, s) := method (ResizeContext.mkState context (dom p) (editor p)) in
        (completion,
         mk (<[ref := ResizeContext.this s]> (contexts p)) (activeContext p) (mouseMove p)
            (ResizeContext.dom s) (ResizeContext.editor s))
    end.

(** The loop of [_getContextByWrapper] from the context at [index] on;
    [domResizeWrapper] is [None] when the caller found no wrapper. *)
Fixpoint context_by_wrapper (domResizeWrapper : option ElemId)
         (rest : list ResizeContext.t) (index : nat) : Completion (option nat) :=
  match rest with
  | [] => Normal None
  | context :: rest' =>
      match domResizeWrapper with
      | None => Throw TypeError                (* [domResizeWrapper.isSameNode] *)
      | Some wrapper =>
          if ResizeContext.isSameNode wrapper (ResizeContext.domResizeWrapper context)
          then Normal (Some index)
          else context_by_wrapper domResizeWrapper rest' (S index)
      end
  end.

Definition _getContextByWrapper (domResizeWrapper : option ElemId) : M t (option nat) :=
  do p <- get;
  lift (context_by_wrapper domResizeWrapper (contexts p) 0).

Definition _getContextByHandler (domResizeHandler : ElemId) : M t (option nat) :=
  do d <- gets dom;
  _getContextByWrapper
    (head (List.filter (fun element => contains (classList (elem d element)) "ck-widget__resizer-wrapper")
                       (getAncestors d domResizeHandler))).

Definition mouseMoveListener (domEventData : DomEventData) : M t unit :=
  do active <- gets activeContext;
  match active with
  | Some context => call context (ResizeContext.updateSize domEventData)
  | None => ret tt
  end.

(** The handle a [mousedown] on [target] is taken to hit. *)
Definition resizeHandler_of (d : Dom.t) (target : ElemId) : option ElemId :=
  if isResizeHandler (elem d target) then Some target
  else head (List.filter (fun element => isResizeHandler (elem d element)) (getAncestors d target)).

Definition mousedown (domEventData : DomEventData) : M t unit :=
  do d <- gets dom;
  match resizeHandler_of d (target domEventData) with
  | Some resizeHandler =>
      do _ <- modify listenTo;
      do found <- _getContextByHandler resizeHandler;
      do _ <- modify (set_activeContext found);
      match found with
      | Some context => call context (ResizeContext.begin resizeHandler)
      | None => ret tt
      end
  | None => ret tt
  end.

Definition finishResizing : M t unit :=
  do active <- gets activeContext;
  match active with
  | Some _ =>
      do _ <- modify stopListening;
      do active' <- gets activeContext;
      do _ <- match active' with
              | Some context => call context ResizeContext.commit
              | None => ret tt
              end;
      modify (set_activeContext None)
  | None => ret tt
  end.

(** The [layoutChanged] listener: the contexts from [index] on. *)
Fixpoint redraw_contexts (count index : nat) : M t unit :=
  match count with
  | O => ret tt
  | S count' =>
      do p <- get;
      let mounted :=
        match contexts p !! index with
        | Some context =>
            match ResizeContext.domResizeWrapper context with
            | Some wrapper => bool_decide (is_Some (parentElement (elem (dom p) wrapper)))
            | None => false
            end
        | None => false
        end in
      do _ <- when mounted (call index ResizeContext.redraw);
      redraw_contexts count' (S index)
  end.

Definition layoutChanged : M t unit :=
  do p <- get;
  redraw_contexts (length (contexts p)) 0.

(** The emitter fires an event: the callbacks subscribed to it are called
    one after the other, a callback as often as it is subscribed; an error
    thrown by a call ends the firing. *)
Fixpoint fire (subscriptions : nat) (callback : M t unit) : M t unit :=
  match subscriptions with
  | O => ret tt
  | S rest =>
      do _ <- callback;
      fire rest callback
  end.

Definition dispatch (event : Event) : M t unit :=
  match event with
  | MouseDown data => mousedown data
  | MouseMove data =>
      do subscriptions <- gets mouseMove;
      fire subscriptions (mouseMoveListener data)
  | MouseUp => finishResizing
  | LayoutChanged => layoutChanged
  end.

(** An error thrown by a listener is reported by the browser; the page
    goes on from the state the listener had reached. *)
Definition step (p : t) (event : Event) : t := snd (dispatch event p).

Definition run (p : t) (events : list Event) : t := fold_left step events p.

End Listeners.

End WidgetResizer.

(** ** widgetresizer/resizer.js *)

Module Resizer.
Import Js Dom.

(** The resizer options a [Resizer] reads ([downcastWriter] is used by
    [attach] only). *)
Record ResizerOptions : Type := mkOptions
  { viewElement : Engine.ViewElement;
    modelElement : option Engine.ModelElement;
    getResizeHost : option (option ElemId -> option ElemId) }.

Module ResizeState.
(** Modelled from the spec: [ResizeState] of [./resizerstate], which is
    not among the sources.  It holds the currently proposed size, [null]
    until a size is known, and the position of the dragged handle. *)
Record t : Type := mk
  { proposedWidth : option number;
    proposedHeight : option number;
    activeHandlePosition : option string }.

(** Modelled from the spec: [fetchSizeFromElement] of [./resizerstate],
    the re-read of the host's actual rendered size, which becomes the
    proposed size. *)
Definition fetchSizeFromElement (rect : Box) (state : t) : t :=
  mk (Some (rectWidth rect)) (Some (rectHeight rect)) (activeHandlePosition state).
End ResizeState.

(** The size [proposeNewSize] returns. *)
Record Size : Type := mkSize { width : number; height : number }.

(** [proposeNewSize] of [./resizerstate] is taken as it comes. *)
Class Imports : Type := mkImports
  { proposeNewSize : ResizeState.t -> Dom.t -> DomEventData -> Size }.

(** The text of the size label, [`${ w }x${ h }`]. *)
Record Label : Type := mkLabel { label_width : number; label_height : number }.

(** [Math.round( v )] for a number or [null]. *)
Definition round_or_null (v : option number) : number :=
  match v with
  | Some n => round n
  | None => of_Z 0
  end.

Module SizeView.
(** The size label.  While [bound], its [isVisible] and [label] follow
    the proposed size of the resize state ([bindResizer]). *)
Record t : Type := mk
  { isVisible : bool;
    label : option Label;
    bound : bool }.

Definition create : t := mk false None false.

(** The two bindings of [bindResizer], evaluated on a state. *)
Definition follow (state : ResizeState.t) (view : t) : t :=
  if bound view then
    mk (bool_decide (is_Some (ResizeState.proposedWidth state))
        && bool_decide (is_Some (ResizeState.proposedHeight state)))
       (Some (mkLabel (round_or_null (ResizeState.proposedWidth state))
                      (round_or_null (ResizeState.proposedHeight state))))
       true
  else view.

Definition bindResizer (observable : ResizeState.t) (view : t) : t :=
  follow observable (mk (isVisible view) (label view) true).

(** [dismiss]: [unbind], then [isVisible = false]. *)
Definition dismiss (view : t) : t := mk false (label view) false.

Definition set_isVisible (v : bool) (view : t) : t := mk v (label view) (bound view).
End SizeView.

Record t : Type := mk
  { _options : ResizerOptions;
    _domResizeWrapper : option ElemId;
    _domResizeShadow : option ElemId;
    state : option ResizeState.t;
    sizeUi : option SizeView.t }.

Definition set_state v (r : t) : t :=
  mk (_options r) (_domResizeWrapper r) (_domResizeShadow r) v (sizeUi r).
Definition set_sizeUi v (r : t) : t :=
  mk (_options r) (_domResizeWrapper r) (_domResizeShadow r) (state r) v.

Record State : Type := mkState
  { this : t;
    dom : Dom.t;
    editor : Engine.Editor }.

Definition modify_this (f : t -> t) : M State unit :=
  modify (fun s => mkState (f (this s)) (dom s) (editor s)).
Definition modify_dom (f : Dom.t -> Dom.t) : M State unit :=
  modify (fun s => mkState (this s) (f (dom s)) (editor s)).
Definition modify_editor (f : Engine.Editor -> Engine.Editor) : M State unit :=
  modify (fun s => mkState (this s) (dom s) (f (editor s))).

Definition resizerPositions : list string :=
  [ "top-left"; "top-right"; "bottom-right"; "bottom-left" ].

Definition getResizerClass (resizerPosition : string) : string :=
  "ck-widget__resizer-" ++ resizerPosition.

Definition _getHandlePosition (domHandle : Element) : option string :=
  List.find (fun position => contains (classList domHandle) (getResizerClass position))
            resizerPositions.

Definition isResizeHandle (domElement : Element) : bool :=
  contains (classList domElement) "ck-widget__resizer".

Section Methods.
Context {browser : Browser} {imports : Imports}.

Definition _getResizeHost : M State (option ElemId) :=
  do wrapper <- (do r <- gets this; deref (_domResizeWrapper r));
  do d <- gets dom;
  let widgetWrapper := parentElement (elem d wrapper) in
  do r <- gets this;
  ret (match getResizeHost (_options r) with
       | Some f => f widgetWrapper
       | None => widgetWrapper
       end).

(** Writes the resize state, and lets the bound size label follow it. *)
Definition set_resize_state (st : ResizeState.t) : M State unit :=
  modify_this (fun r => set_sizeUi (SizeView.follow st <$> sizeUi r) (set_state (Some st) r)).

Definition updateSize (domEventData : DomEventData) : M State unit :=
  do resizeHost <- _getResizeHost;
  do st <- (do r <- gets this; deref (state r));
  do d <- gets dom;
  let newSize := proposeNewSize st d domEventData in
  do host <- deref resizeHost;                 (* [resizeHost.style] *)
  do _ <- modify_dom (set_style host (Style.set_width (Px (width newSize))));
  do resizeHost' <- _getResizeHost;
  do host' <- deref resizeHost';               (* the size is read off the host *)
  do d' <- gets dom;
  do _ <- set_resize_state (ResizeState.fetchSizeFromElement (layout d' host') st);
  do wrapper <- (do r <- gets this; deref (_domResizeWrapper r));
  do st' <- (do r <- gets this; deref (state r));
  do _ <- match ResizeState.proposedWidth st' with
          | Some w => modify_dom (set_style wrapper (Style.set_width (Px w)))
          | None => ret tt                     (* ['nullpx'] is no length *)
          end;
  match ResizeState.proposedHeight st' with
  | Some h => modify_dom (set_style wrapper (Style.set_height (Px h)))
  | None => ret tt
  end.

Definition _dismissShadow : M State unit :=
  do shadow <- (do r <- gets this; deref (_domResizeShadow r));
  modify_dom (set_style shadow (fun _ => Style.empty)).

Definition _cleanup : M State unit :=
  do view <- (do r <- gets this; deref (sizeUi r));
  modify_this (set_sizeUi (Some (SizeView.set_isVisible false (SizeView.dismiss view)))).

Definition existsInDom (d : Dom.t) (element : option ElemId) : bool :=
  match element with
  | Some el => inDocument (elem d el)
  | None => false
  end.

Definition redraw : M State unit :=
  do r <- gets this;
  do d <- gets dom;
  let domWrapper := _domResizeWrapper r in
  if existsInDom d domWrapper then
    do wrapper <- deref domWrapper;
    let widgetWrapper := parentElement (elem d wrapper) in
    do resizingHost <- _getResizeHost;
    do host <- deref resizingHost;             (* [new Rect( resizingHost )] *)
    let clientRect := layout d host in
    do _ <- modify_dom (set_style wrapper (Style.set_width (Px (rectWidth clientRect))));
    do _ <- modify_dom (set_style wrapper (Style.set_height (Px (rectHeight clientRect))));
    do widget <- deref widgetWrapper;          (* [widgetWrapper.isSameNode] *)
    if ResizeContext.isSameNode widget resizingHost then ret tt
    else
      do _ <- modify_dom (fun d =>
                set_style wrapper (Style.set_left (Px (of_Z (offsetLeft (layout d host))))) d);
      do _ <- modify_dom (fun d =>
                set_style wrapper (Style.set_top (Px (of_Z (offsetTop (layout d host))))) d);
      do _ <- modify_dom (fun d =>
                set_style wrapper (Style.set_height (Px (of_Z (offsetHeight (layout d host))))) d);
      modify_dom (fun d =>
                set_style wrapper (Style.set_width (Px (of_Z (offsetWidth (layout d host))))) d)
  else ret tt.

Definition commit : M State unit :=
  do r <- gets this;
  let modelElement := modelElement (_options r) in
  do shadow <- deref (_domResizeShadow r);
  do newWidth <- gets (fun s => clientWidth (layout (dom s) shadow));
  do _ <- _dismissShadow;
  do _ <- redraw;
  do _ <- modify_editor (Engine.change
            [ Engine.mkSetAttribute "width" (Engine.PxValue newWidth) modelElement ]);
  _cleanup.

Definition cancel : M State unit :=
  do _ <- _dismissShadow;
  _cleanup.

Definition destroy : M State unit := cancel.

End Methods.

End Resizer.

(** ** The states the methods leave behind

    The vocabulary of the statements below: what a method has written once
    it has completed. *)

Section ContextOutcomes.
Context {browser : Dom.Browser} {imports : ResizeContext.Imports}.
Import Js Dom ResizeContext.

(** The context [begin] leaves behind. *)
Definition begun (c : ResizeContext.t) (d : Dom.t) (handler host : ElemId) (p q : string)
  : ResizeContext.t :=
  let size := Point.mk (of_Z (clientWidth (layout d host))) (of_Z (clientHeight (layout d host))) in
  mk (resizeWrapperElement c) (widgetWrapperElement c)
     (resizeStrategy c ++ [StrategyBegin handler])
     (domResizeWrapper c) (domResizeShadow c) (options c)
     (getAbsoluteBoundaryPoint d host q) size (Some p)
     (Some match getAspectRatio (options c) with
           | Some f => f host
           | None => div (Point.x size) (Point.y size)
           end)
     (proposedX c) (proposedY c) (Some p).

(** The style [redraw] leaves on the wrapper when the host is not the
    widget's wrapper: all four properties, from the host's offsets. *)
Definition hugging (box : Box) : Style.t :=
  Style.mk (Some (Px (of_Z (offsetWidth box)))) (Some (Px (of_Z (offsetHeight box))))
           (Some (Px (of_Z (offsetLeft box)))) (Some (Px (of_Z (offsetTop box)))).

(** The DOM once the shadow has been dismissed. *)
Definition dismissed (shadow : ElemId) (d : Dom.t) : Dom.t :=
  set_style shadow (fun _ => Style.empty)
            (set_classList shadow (remove "ck-widget__resizer-shadow-active") d).

(** The context [_cleanupContext] leaves behind. *)
Definition cleaned (c : ResizeContext.t) : ResizeContext.t :=
  set_orientation None (set_proposed None None (set_referenceHandlerPosition None c)).

(** The model element the widget's wrapper is mapped to, if any. *)
Definition model_entry (c : ResizeContext.t) (ed : Engine.Editor) : option Engine.ModelElement :=
  match widgetWrapperElement c with
  | Some view => Engine.toModelElement ed view
  | None => None
  end.

(** The [setAttribute] call of [commit]. *)
Definition width_write (c : ResizeContext.t) (d : Dom.t) (ed : Engine.Editor) (shadow : ElemId)
  : Engine.SetAttribute :=
  Engine.mkSetAttribute WIDTH_ATTRIBUTE_NAME
    (Engine.NumberValue (clientWidth (layout d shadow))) (model_entry c ed).

End ContextOutcomes.

Section PluginOutcomes.
Import Js Dom.

(** The wrapper [_getContextByHandler] looks the context up by. *)
Definition wrapper_of (d : Dom.t) (domResizeHandler : ElemId) : option ElemId :=
  head (List.filter (fun element => contains (classList (elem d element)) "ck-widget__resizer-wrapper")
                    (getAncestors d domResizeHandler)).

End PluginOutcomes.

Section ResizerOutcomes.
Context {browser : Dom.Browser} {imports : Resizer.Imports}.
Import Js Dom Resizer.

(** The DOM after the proposed width has been applied to the host. *)
Definition requested (st : ResizeState.t) (data : DomEventData) (host : ElemId) (d : Dom.t) : Dom.t :=
  set_style host (Style.set_width (Px (width (proposeNewSize st d data)))) d.

(** The style [redraw] leaves on the wrapper of a resizer. *)
Definition redrawn (widget host : ElemId) (box : Box) (st : Style.t) : Style.t :=
  if Nat.eqb widget host
  then Style.mk (Some (Px (rectWidth box))) (Some (Px (rectHeight box))) (Style.left st) (Style.top st)
  else Style.mk (Some (Px (of_Z (offsetWidth box)))) (Some (Px (of_Z (offsetHeight box))))
                (Some (Px (of_Z (offsetLeft box)))) (Some (Px (of_Z (offsetTop box)))).

(** The [setAttribute] call of a resizer's [commit]. *)
Definition resizer_width_write (r : Resizer.t) (d : Dom.t) (shadow : ElemId) : Engine.SetAttribute :=
  Engine.mkSetAttribute "width"
    (Engine.PxValue (clientWidth (layout d shadow))) (modelElement (_options r)).

End ResizerOutcomes.

(** ** The vocabulary of the further properties *)

Section Vocabulary.
Import Js Dom.

(** [frames R m]: whatever [m] does, and whether it completes or throws,
    the state it reaches is related by [R] to the state it started in. *)
Definition frames {S A : Type} (R : S -> S -> Prop) (m : M S A) : Prop :=
  forall s, R s (snd (m s)).

(** What makes a context the context of its widget: the view elements, the
    overlay elements and the options. *)
Definition identity (c : ResizeContext.t)
  : option Engine.ViewElement * option Engine.ViewElement * option ElemId * option ElemId
    * ResizeContext.Options :=
  (ResizeContext.resizeWrapperElement c, ResizeContext.widgetWrapperElement c,
   ResizeContext.domResizeWrapper c, ResizeContext.domResizeShadow c, ResizeContext.options c).

Definition same_identity (s s' : ResizeContext.State) : Prop :=
  identity (ResizeContext.this s') = identity (ResizeContext.this s).

Definition same_editor (s s' : ResizeContext.State) : Prop :=
  ResizeContext.editor s' = ResizeContext.editor s.

(** The contexts of a plugin, as registered. *)
Definition registry (p : WidgetResizer.t) :=
  identity <$> WidgetResizer.contexts p.

(** The active context, if any, is one of the plugin's contexts. *)
Definition active_registered (p : WidgetResizer.t) : Prop :=
  match WidgetResizer.activeContext p with
  | Some i => i < length (WidgetResizer.contexts p)
  | None => True
  end.

Definition is_mouseup (event : WidgetResizer.Event) : bool :=
  match event with
  | WidgetResizer.MouseUp => true
  | _ => false
  end.

(** The number of [mouseup] events among [events]. *)
Definition mouseups (events : list WidgetResizer.Event) : nat :=
  length (List.filter is_mouseup events).

(** A change block that holds one [setAttribute] call, of a width. *)
Definition width_block (block : list Engine.SetAttribute) : Prop :=
  exists w item, block = [Engine.mkSetAttribute "width" (Engine.NumberValue w) item].

(** [Lineage d node l]: [l] lists [node] and its ancestors in [d], the
    top-most first, up to an element without a parent. *)
Inductive Lineage (d : Dom.t) : ElemId -> list ElemId -> Prop :=
| Lineage_root (node : ElemId) :
    parentElement (elem d node) = None -> Lineage d node [node]
| Lineage_child (node parent : ElemId) (l : list ElemId) :
    parentElement (elem d node) = Some parent ->
    Lineage d parent l -> Lineage d node (l ++ [node]).

End Vocabulary.

(** ** A page with two resizable image widgets

    The concrete browser, imports and DOM against which the statements
    below are exercised. *)

Module Page.
Import Js Dom.

(** The properties a plain object inherits that the examples look up. *)
Definition object_prototype (key : string) : option string :=
  if String.eqb key "constructor" then Some "function Object() { [native code] }"
  else if String.eqb key "toString" then Some "function toString() { [native code] }"
  else if String.eqb key "valueOf" then Some "function valueOf() { [native code] }"
  else None.

(** The rendered width of an element: the width its inline style asks for,
    capped by a [max-width] of 400 pixels; 100 pixels without one. *)
Definition rendered_width (e : Element) : Q :=
  match Style.width (style e) with
  | Some (Px (Finite q)) => if Qle_bool q (400 # 1) then q else 400 # 1
  | _ => 100 # 1
  end.

(** A box is twice as wide as high, unless the element is collapsed to no
    height at all. *)
Definition rendered_height (e : Element) : Q :=
  if contains (classList e) "collapsed" then 0 # 1
  else Qred (rendered_width e / (2 # 1)).

(** Every box sits 10 pixels right of and 20 pixels below its offset
    parent. *)
Definition layout (d : Dom.t) (id : ElemId) : Box :=
  let w := rendered_width (elem d id) in
  let h := rendered_height (elem d id) in
  mkBox (Qfloor w) (Qfloor h) 10 20 (Qfloor w) (Qfloor h) (Finite w) (Finite h).

#[export] Instance browser : Browser := mkBrowser layout object_prototype.

(** A box corner from the offsets of the box. *)
Definition boundary_point (d : Dom.t) (host : ElemId) (position : string) : Point.t :=
  let box := layout d host in
  let parts := split "-"%char position in
  Point.mk
    (of_Z (if bool_decide (nth_error parts 1 = Some "right")
           then offsetLeft box + offsetWidth box else offsetLeft box))
    (of_Z (if bool_decide (nth_error parts 0 = Some "bottom")
           then offsetTop box + offsetHeight box else offsetTop box)).

(** A strategy that proposes the pointer's distance to the reference
    corner as the width and half of it as the height. *)
Definition proposed (reference : Point.t) (data : DomEventData) : Point.t :=
  match pageX data, Point.x reference with
  | Finite px, Finite rx =>
      let w := Qred (Qabs (px - rx)) in
      Point.mk (Finite w) (Finite (Qred (w / (2 # 1))))
  | _, _ => Point.mk NaN NaN
  end.

#[export] Instance context_imports : ResizeContext.Imports :=
  ResizeContext.mkImports boundary_point
    (fun c _ data => proposed (ResizeContext.referenceCoordinates c) data).

#[export] Instance resizer_imports : Resizer.Imports :=
  Resizer.mkImports
    (fun _ _ data =>
       let p := proposed (Point.mk (of_Z 10) (of_Z 20)) data in
       Resizer.mkSize (Point.x p) (Point.y p)).

(** The handle [_appendResizers] renders for a position, under [shadow]. *)
Definition handle (position : string) (shadow : ElemId) : Element :=
  mkElement (tokens_of_class (ResizeContext.resizer_class_attribute position))
            (Some shadow) Style.empty true.

(** A widget: [figure] holding [img] and the resizer wrapper; the wrapper
    holds the shadow; the shadow holds the four handles. *)
Definition widget (figure : ElemId) : list (ElemId * Element) :=
  [ (figure, mkElement ["image"; "ck-widget"; "ck-widget_with-resizer"] None Style.empty true);
    (figure + 1, mkElement [] (Some figure) Style.empty true);
    (figure + 2, mkElement ["ck"; "ck-widget__resizer-wrapper"] (Some figure) Style.empty true);
    (figure + 3, mkElement ["ck"; "ck-widget__resizer-shadow"] (Some (figure + 2)) Style.empty true);
    (figure + 4, handle "top-left" (figure + 3));
    (figure + 5, handle "top-right" (figure + 3));
    (figure + 6, handle "bottom-right" (figure + 3));
    (figure + 7, handle "bottom-left" (figure + 3)) ].

Definition document : Dom.t := list_to_map (widget 10 ++ widget 20).

(** The first image is mapped to model element 1; the second has lost its
    model element. *)
Definition editor : Engine.Editor :=
  Engine.mkEditor (fun view => if Nat.eqb view 100 then Some 1 else None) [].

(** The context of the widget at [figure], once rendered; the image is the
    resize host. *)
Definition context (figure : ElemId) (view : Engine.ViewElement) : ResizeContext.t :=
  ResizeContext.mk (Some (view + 1)) (Some view) []
    (Some (figure + 2)) (Some (figure + 3))
    (ResizeContext.mkOptions (Some (fun wrapper => (fun w => w + 1) <$> wrapper)) None)
    (Point.mk (of_Z 0) (of_Z 0)) (Point.mk (of_Z 0) (of_Z 0))
    None None None None None.

Definition plugin : WidgetResizer.t :=
  WidgetResizer.mk [context 10 100; context 20 200] None 0 document editor.

Definition mouse (target : ElemId) (x y : Z) : DomEventData :=
  mkDomEventData target (of_Z x) (of_Z y).

(** The same page with the first image collapsed: 100 pixels wide, 0 high. *)
Definition collapsed : Dom.t := set_classList 11 (add "collapsed") document.

Definition collapsed_plugin : WidgetResizer.t :=
  WidgetResizer.mk [context 10 100; context 20 200] None 0 collapsed editor.

(** A resizer of the first widget in the middle of a drag. *)
Definition resizer : Resizer.t :=
  let state := Resizer.ResizeState.mk None None (Some "bottom-right") in
  Resizer.mk
    (Resizer.mkOptions 100 (Some 1) (Some (fun wrapper => (fun w => w + 1) <$> wrapper)))
    (Some 12) (Some 13) (Some state)
    (Some (Resizer.SizeView.bindResizer state Resizer.SizeView.create)).

End Page.

(** * Properties *)

(** ** Handle positions *)

Section Positions.
Context {browser : Dom.Browser}.
Import Js Dom.

Lemma getResizerPosition_unfold (el : Element) :
  ResizeContext._getResizerPosition el =
    if contains (classList el) (ResizeContext._getResizerClass "top-left") then Some "top-left"
    else if contains (classList el) (ResizeContext._getResizerClass "top-right") then Some "top-right"
    else if contains (classList el) (ResizeContext._getResizerClass "bottom-right") then Some "bottom-right"
    else if contains (classList el) (ResizeContext._getResizerClass "bottom-left") then Some "bottom-left"
    else None.
Proof. reflexivity. Qed.

Lemma getResizerClass_eq (p : string) :
  Resizer.getResizerClass p = ResizeContext._getResizerClass p.
Proof. reflexivity. Qed.

Lemma getHandlePosition_eq (el : Element) :
  Resizer._getHandlePosition el = ResizeContext._getResizerPosition el.
Proof. reflexivity. Qed.

Lemma getResizerPosition_valid (el : Element) (p : string) :
  ResizeContext._getResizerPosition el = Some p -> In p ResizeContext.resizerPositions.
Proof.
  unfold ResizeContext._getResizerPosition. intros H.
  apply List.find_some in H. tauto.
Qed.

(** Each of the four positions has an inverse, which inverts back to it. *)
Lemma invertPosition_of_valid (p : string) :
  In p ResizeContext.resizerPositions ->
  exists q, ResizeContext._invertPosition (Some p) = Normal q
            /\ ResizeContext._invertPosition (Some q) = Normal p.
Proof.
  intros Hin. cbn in Hin.
  destruct Hin as [<- | [<- | [<- | [<- | []]]]];
    [ exists "bottom-right" | exists "bottom-left" | exists "top-left" | exists "top-right" ];
    split; reflexivity.
Qed.

(** C5: on the four handle positions inversion is an involution; it pairs
    top-left with bottom-right and top-right with bottom-left; and it maps
    the two axes independently, the vertical part by top/bottom and the
    horizontal part by left/right. *)
Theorem invertPosition_involution :
  Forall (fun p => exists q,
            In q ResizeContext.resizerPositions
            /\ ResizeContext._invertPosition (Some p) = Normal q
            /\ ResizeContext._invertPosition (Some q) = Normal p)
         ResizeContext.resizerPositions
  /\ ResizeContext._invertPosition (Some "top-left") = Normal "bottom-right"
  /\ ResizeContext._invertPosition (Some "bottom-right") = Normal "top-left"
  /\ ResizeContext._invertPosition (Some "top-right") = Normal "bottom-left"
  /\ ResizeContext._invertPosition (Some "bottom-left") = Normal "top-right"
  /\ Forall (fun v => Forall (fun h =>
        ResizeContext._invertPosition (Some (v ++ "-" ++ h)%string)
        = Normal (template (ResizeContext.replacements_own v) ++ "-"
                    ++ template (ResizeContext.replacements_own h))%string)
        ["left"; "right"]) ["top"; "bottom"].
Proof.
  split.
  - unfold ResizeContext.resizerPositions.
    repeat (apply List.Forall_cons || apply List.Forall_nil).
    + exists "bottom-right". cbn. intuition.
    + exists "bottom-left". cbn. intuition.
    + exists "top-left". cbn. intuition.
    + exists "top-right". cbn. intuition.
  - repeat split; try reflexivity.
    repeat (apply List.Forall_cons || apply List.Forall_nil); reflexivity.
Qed.

(** C9, as the code has it: inversion fails, with the [TypeError] of
    [position.split], exactly when it is handed [undefined] or [null]; handed
    any string, one of the four labels or not, it returns a string. *)
Theorem invertPosition_throws_iff_nullish (position : option string) :
  (exists e, ResizeContext._invertPosition position = Throw e) <-> position = None.
Proof.
  split.
  - intros [e H]. destruct position as [s|]; [discriminate H | reflexivity].
  - intros ->. exists TypeError. reflexivity.
Qed.

(** C10: the handle rendered with the class generated for one of the four
    positions is recognised as that position, by the lookups of both
    classes; so is any element that carries the class generated for the
    position and the class of no other position; an element that carries
    none of the four classes gives [undefined], and no error. *)
Theorem resizer_class_position_roundtrip (el : Element) :
  Forall (fun p =>
            forall parent inline connected,
              let rendered := mkElement (tokens_of_class (ResizeContext.resizer_class_attribute p))
                                        parent inline connected in
              ResizeContext._getResizerPosition rendered = Some p
              /\ Resizer._getHandlePosition rendered = Some p)
         ResizeContext.resizerPositions
  /\ (forall p,
      In p ResizeContext.resizerPositions ->
      contains (classList el) (ResizeContext._getResizerClass p) = true ->
      (forall q, In q ResizeContext.resizerPositions -> q <> p ->
                 contains (classList el) (ResizeContext._getResizerClass q) = false) ->
      ResizeContext._getResizerPosition el = Some p
      /\ Resizer._getHandlePosition el = Some p)
  /\ ((forall q, In q ResizeContext.resizerPositions ->
                 contains (classList el) (ResizeContext._getResizerClass q) = false) ->
      ResizeContext._getResizerPosition el = None
      /\ Resizer._getHandlePosition el = None).
Proof.
  assert (Hin : forall q, q = "top-left" \/ q = "top-right" \/ q = "bottom-right"
                          \/ q = "bottom-left" -> In q ResizeContext.resizerPositions).
  { intros q Hq. unfold ResizeContext.resizerPositions. cbn. intuition. }
  split; [ | split ].
  - unfold ResizeContext.resizerPositions.
    repeat (apply List.Forall_cons || apply List.Forall_nil);
      intros parent inline connected; split; reflexivity.
  - intros p Hp Hc Hothers.
    change (Resizer._getHandlePosition el) with (ResizeContext._getResizerPosition el).
    rewrite !(getResizerPosition_unfold el).
    cbn in Hp.
    destruct Hp as [<- | [<- | [<- | [<- | []]]]];
      rewrite ?Hc;
      repeat (rewrite Hothers; [ | apply Hin; tauto | discriminate ]);
      rewrite ?Hc; split; reflexivity.
  - intros Hnone.
    change (Resizer._getHandlePosition el) with (ResizeContext._getResizerPosition el).
    rewrite !(getResizerPosition_unfold el).
    rewrite !Hnone by (apply Hin; tauto).
    split; reflexivity.
Qed.

End Positions.

(** C9, as stated, fails: the string "center" is none of the four labels,
    and inversion returns a value for it. *)
Lemma invertPosition_center_returns :
  ~ In "center" ResizeContext.resizerPositions
  /\ @ResizeContext._invertPosition Page.browser (Some "center") = Js.Normal "undefined-undefined".
Proof.
  split; [ | reflexivity ].
  cbn. intros [H | [H | [H | [H | []]]]]; discriminate H.
Qed.

(** On the page: handed [undefined], inversion throws. *)
Lemma invertPosition_throws_iff_nullish_witness :
  (exists e, @ResizeContext._invertPosition Page.browser None = Js.Throw e)
  /\ @ResizeContext._invertPosition Page.browser None = Js.Throw Js.TypeError.
Proof.
  split.
  - apply (@invertPosition_throws_iff_nullish Page.browser None). reflexivity.
  - reflexivity.
Defined.

(** On the page: the bottom-right handle is recognised, the shadow is not
    a handle of any position. *)
Lemma resizer_class_position_roundtrip_witness :
  ResizeContext._getResizerPosition (Page.handle "bottom-right" 13) = Some "bottom-right"
  /\ Resizer._getHandlePosition (Dom.elem Page.document 13) = None.
Proof.
  split.
  - apply (proj1 (proj2 (resizer_class_position_roundtrip (Page.handle "bottom-right" 13)))).
    + cbn. tauto.
    + reflexivity.
    + intros q Hq Hne. cbn in Hq.
      destruct Hq as [<- | [<- | [<- | [<- | []]]]]; try reflexivity.
      exfalso. apply Hne. reflexivity.
  - apply (proj2 (proj2 (resizer_class_position_roundtrip (Dom.elem Page.document 13)))).
    intros q Hq. cbn in Hq.
    destruct Hq as [<- | [<- | [<- | [<- | []]]]]; vm_compute; reflexivity.
Defined.

(** ** The DOM store *)

Section DomStore.
Import Js Dom.

Lemma elem_update_eq (id : ElemId) (f : Element -> Element) (d : Dom.t) :
  elem (update id f d) id = f (elem d id).
Proof. unfold elem at 1, update. rewrite lookup_insert_eq. reflexivity. Qed.

Lemma elem_update_ne (id other : ElemId) (f : Element -> Element) (d : Dom.t) :
  id <> other -> elem (update id f d) other = elem d other.
Proof. intros Hne. unfold elem, update. rewrite lookup_insert_ne by exact Hne. reflexivity. Qed.

Lemma elem_set_style_ne (id other : ElemId) (f : Style.t -> Style.t) (d : Dom.t) :
  id <> other -> elem (set_style id f d) other = elem d other.
Proof. intros Hne. unfold set_style. apply elem_update_ne. exact Hne. Qed.

Lemma parentElement_set_style (id other : ElemId) (f : Style.t -> Style.t) (d : Dom.t) :
  parentElement (elem (set_style id f d) other) = parentElement (elem d other).
Proof.
  unfold set_style. destruct (decide (id = other)) as [<- | Hne].
  - rewrite elem_update_eq. reflexivity.
  - rewrite elem_update_ne by exact Hne. reflexivity.
Qed.

Lemma inDocument_set_style (id other : ElemId) (f : Style.t -> Style.t) (d : Dom.t) :
  inDocument (elem (set_style id f d) other) = inDocument (elem d other).
Proof.
  unfold set_style. destruct (decide (id = other)) as [<- | Hne].
  - rewrite elem_update_eq. reflexivity.
  - rewrite elem_update_ne by exact Hne. reflexivity.
Qed.

Lemma style_set_style_eq (id : ElemId) (f : Style.t -> Style.t) (d : Dom.t) :
  style (elem (set_style id f d) id) = f (style (elem d id)).
Proof. unfold set_style. rewrite elem_update_eq. reflexivity. Qed.

Lemma parentElement_set_classList (id other : ElemId) (f : list string -> list string) (d : Dom.t) :
  parentElement (elem (set_classList id f d) other) = parentElement (elem d other).
Proof.
  unfold set_classList. destruct (decide (id = other)) as [<- | Hne].
  - rewrite elem_update_eq. reflexivity.
  - rewrite elem_update_ne by exact Hne. reflexivity.
Qed.

Lemma classList_set_classList (id other : ElemId) (f : list string -> list string) (d : Dom.t) :
  classList (elem (set_classList id f d) other)
  = if decide (id = other) then f (classList (elem d other)) else classList (elem d other).
Proof.
  unfold set_classList. destruct (decide (id = other)) as [<- | Hne].
  - rewrite elem_update_eq. reflexivity.
  - rewrite elem_update_ne by exact Hne. reflexivity.
Qed.

(** Two writes to the style of one element are one write. *)
Lemma set_style_set_style (id : ElemId) (f g : Style.t -> Style.t) (d : Dom.t) :
  set_style id g (set_style id f d) = set_style id (fun s => g (f s)) d.
Proof.
  unfold set_style, update at 1. rewrite elem_update_eq. cbn.
  unfold update. rewrite insert_insert_eq. reflexivity.
Qed.

Lemma set_style_ext (id : ElemId) (f g : Style.t -> Style.t) (d : Dom.t) :
  f (style (elem d id)) = g (style (elem d id)) -> set_style id f d = set_style id g d.
Proof. intros H. unfold set_style, update. rewrite H. reflexivity. Qed.

Lemma contains_app (l1 l2 : list string) (token : string) :
  contains (l1 ++ l2) token = contains l1 token || contains l2 token.
Proof. unfold contains. apply existsb_app. Qed.

Lemma contains_add (token other : string) (tokens : list string) :
  contains (add token tokens) other = contains tokens other || String.eqb other token.
Proof.
  unfold add. destruct (contains tokens token) eqn:Hc.
  - destruct (String.eqb_spec other token) as [-> | Hne].
    + rewrite Hc. reflexivity.
    + rewrite orb_false_r. reflexivity.
  - rewrite contains_app. cbn. rewrite orb_false_r. reflexivity.
Qed.

(** A walk up the parent chain either ends at an element without a parent,
    or uses up its fuel on elements of the store. *)
Lemma ancestors_from_cases (d : Dom.t) (fuel : nat) (node : ElemId) (nodes : list ElemId) :
  (exists top rest,
      ancestors_from fuel d node nodes = top :: rest
      /\ parentElement (elem d top) = None)
  \/ (length (ancestors_from fuel d node nodes) = fuel + length nodes
      /\ forall x, x ∈ ancestors_from fuel d node nodes -> x ∈ nodes \/ is_Some (d !! x)).
Proof.
  revert node nodes. induction fuel as [| fuel IH]; intros node nodes; cbn [ancestors_from].
  - right. split; [ reflexivity | ]. intros x Hx. left. exact Hx.
  - destruct (parentElement (elem d node)) as [parent|] eqn:Hparent.
    + destruct (IH parent (node :: nodes)) as [Hdone | [Hlen Hin]].
      * left. exact Hdone.
      * right. split; [ rewrite Hlen; cbn; lia | ].
        intros x Hx. destruct (Hin x Hx) as [Hacc | Hstored]; [ | right; exact Hstored ].
        apply elem_of_cons in Hacc as [-> | Hacc]; [ | left; exact Hacc ].
        right. unfold elem in Hparent.
        destruct (d !! node); [ eauto | discriminate Hparent ].
    + left. exists node, nodes. split; [ reflexivity | exact Hparent ].
Qed.

(** The fuel of [getAncestors] is enough for a DOM without a cycle: a walk
    that visits no element twice ends at an element without a parent. *)
Lemma getAncestors_complete (d : Dom.t) (node : ElemId) :
  NoDup (getAncestors d node) ->
  exists top rest,
    getAncestors d node = top :: rest /\ parentElement (elem d top) = None.
Proof.
  intros Hnodup. unfold getAncestors in *.
  destruct (ancestors_from_cases d (S (size d)) node []) as [Hdone | [Hlen Hin]];
    [ exact Hdone | exfalso ].
  assert (Hsub : ancestors_from (S (size d)) d node [] ⊆+ elements (dom d)).
  { apply NoDup_submseteq; [ exact Hnodup | ].
    intros x Hx. apply elem_of_elements, elem_of_dom.
    destruct (Hin x Hx) as [Hnil | Hstored]; [ | exact Hstored ].
    apply elem_of_nil in Hnil. destruct Hnil. }
  apply submseteq_length in Hsub.
  change (length (elements (dom d))) with (size (dom d)) in Hsub.
  rewrite size_dom in Hsub. rewrite Hlen in Hsub. cbn in Hsub. lia.
Qed.
End DomStore.

(** ** Beginning a drag *)

Section Begin.
Context {browser : Dom.Browser} {imports : ResizeContext.Imports}.
Import Js Dom ResizeContext.

(** Reads the fields of a context that has been written to. *)
Ltac context_fields :=
  unfold set_resizeStrategy, set_domResizeShadow, set_referenceCoordinates, set_originalSize,
    set_referenceHandlerPosition, set_aspectRatio, set_proposed, set_orientation;
  cbn [set_resizeStrategy set_domResizeShadow set_referenceCoordinates set_originalSize
       set_referenceHandlerPosition set_aspectRatio set_proposed set_orientation
       resizeWrapperElement widgetWrapperElement resizeStrategy domResizeWrapper
       domResizeShadow options referenceCoordinates originalSize referenceHandlerPosition
       aspectRatio proposedX proposedY orientation this dom editor fst snd].

(** The element the context resizes, given the parent of its wrapper. *)
Lemma getResizeHost_run (c : ResizeContext.t) (d : Dom.t) (ed : Engine.Editor) (wrapper : ElemId) :
  domResizeWrapper c = Some wrapper ->
  _getResizeHost (mkState c d ed)
  = (Normal (match getResizeHost (options c) with
             | Some f => f (parentElement (elem d wrapper))
             | None => parentElement (elem d wrapper)
             end), mkState c d ed).
Proof. intros Hw. unfold _getResizeHost. cbv [bind gets deref ret this dom]. rewrite Hw. reflexivity. Qed.

Lemma getResizeHost_null (c : ResizeContext.t) (d : Dom.t) (ed : Engine.Editor) :
  domResizeWrapper c = None ->
  _getResizeHost (mkState c d ed) = (Throw TypeError, mkState c d ed).
Proof. intros Hw. unfold _getResizeHost. cbv [bind gets deref ret throw this dom]. rewrite Hw. reflexivity. Qed.

(** Marking the shadow as active does not change which handle is which. *)
Lemma getResizerPosition_shadow_active (d : Dom.t) (shadow handler : ElemId) :
  _getResizerPosition (elem (set_classList shadow (add "ck-widget__resizer-shadow-active") d) handler)
  = _getResizerPosition (elem d handler).
Proof.
  rewrite !getResizerPosition_unfold, classList_set_classList.
  destruct (decide (shadow = handler)) as [_ | _]; [ | reflexivity ].
  rewrite !contains_add. cbn [String.eqb Ascii.eqb Bool.eqb].
  rewrite !orb_false_r. reflexivity.
Qed.

Lemma begin_run (c : ResizeContext.t) (d : Dom.t) (ed : Engine.Editor)
      (handler wrapper shadow host : ElemId) (p q : string) :
  domResizeWrapper c = Some wrapper ->
  domResizeShadow c = Some shadow ->
  match getResizeHost (options c) with
  | Some f => f (parentElement (elem d wrapper))
  | None => parentElement (elem d wrapper)
  end = Some host ->
  _getResizerPosition (elem d handler) = Some p ->
  _invertPosition (Some p) = Normal q ->
  let d' := set_classList shadow (add "ck-widget__resizer-shadow-active") d in
  begin handler (mkState c d ed) = (Normal tt, mkState (begun c d' handler host p q) d' ed).
Proof.
  intros Hw Hs Hh Hp Hq d'.
  unfold begin.
  unfold bind at 1. rewrite (getResizeHost_run c d ed wrapper Hw), Hh.
  cbv [bind gets deref ret this dom modify_dom modify_this modify lift strategy editor].
  rewrite Hs. cbv [this dom editor].
  subst d'. rewrite !getResizerPosition_shadow_active, Hp, Hq.
  context_fields. reflexivity.
Qed.

(** Without a position class on the handle, [begin] throws out of
    [_invertPosition], after it has marked the shadow as active. *)
Lemma begin_unknown_handle (c : ResizeContext.t) (d : Dom.t) (ed : Engine.Editor)
      (handler wrapper shadow : ElemId) :
  domResizeWrapper c = Some wrapper ->
  domResizeShadow c = Some shadow ->
  _getResizerPosition (elem d handler) = None ->
  fst (begin handler (mkState c d ed)) = Throw TypeError.
Proof.
  intros Hw Hs Hp.
  unfold begin.
  unfold bind at 1. rewrite (getResizeHost_run c d ed wrapper Hw).
  cbv [bind gets deref ret this dom modify_dom modify_this modify lift strategy editor].
  rewrite Hs. cbv [this dom editor].
  rewrite getResizerPosition_shadow_active, Hp. reflexivity.
Qed.

(** C7: [begin] takes the reference coordinates at the corner that is the
    inverse of the dragged handle's position, the original size from the
    host's client box, and the aspect ratio from the override when the
    options have one and from width / height of the original size
    otherwise. *)
Theorem begin_captures_reference_geometry
      (c : ResizeContext.t) (d : Dom.t) (ed : Engine.Editor)
      (handler wrapper shadow host : ElemId) (p : string) :
  domResizeWrapper c = Some wrapper ->
  domResizeShadow c = Some shadow ->
  match getResizeHost (options c) with
  | Some f => f (parentElement (elem d wrapper))
  | None => parentElement (elem d wrapper)
  end = Some host ->
  _getResizerPosition (elem d handler) = Some p ->
  let d' := set_classList shadow (add "ck-widget__resizer-shadow-active") d in
  exists (q : string) (c' : ResizeContext.t),
    begin handler (mkState c d ed) = (Normal tt, mkState c' d' ed)
    /\ _invertPosition (Some p) = Normal q
    /\ _invertPosition (Some q) = Normal p
    /\ referenceCoordinates c' = getAbsoluteBoundaryPoint d' host q
    /\ originalSize c'
       = Point.mk (of_Z (clientWidth (layout d' host))) (of_Z (clientHeight (layout d' host)))
    /\ aspectRatio c'
       = Some match getAspectRatio (options c) with
              | Some f => f host
              | None => div (Point.x (originalSize c')) (Point.y (originalSize c'))
              end.
Proof.
  intros Hw Hs Hh Hp d'.
  destruct (invertPosition_of_valid p (getResizerPosition_valid _ _ Hp)) as (q & Hq & Hq').
  exists q, (begun c d' handler host p q).
  split; [ exact (begin_run c d ed handler wrapper shadow host p q Hw Hs Hh Hp Hq) | ].
  repeat split; assumption || reflexivity.
Qed.

(** C4, as the code has it: with a host of height 0 and no aspect-ratio
    override [begin] does not fail.  The aspect ratio becomes the quotient
    by zero of JavaScript (NaN for a zero width, an infinity otherwise), the
    strategy's [begin] is called and [begin] completes. *)
Theorem begin_zero_height_completes
      (c : ResizeContext.t) (d : Dom.t) (ed : Engine.Editor)
      (handler wrapper shadow host : ElemId) (p : string) :
  domResizeWrapper c = Some wrapper ->
  domResizeShadow c = Some shadow ->
  match getResizeHost (options c) with
  | Some f => f (parentElement (elem d wrapper))
  | None => parentElement (elem d wrapper)
  end = Some host ->
  _getResizerPosition (elem d handler) = Some p ->
  getAspectRatio (options c) = None ->
  let d' := set_classList shadow (add "ck-widget__resizer-shadow-active") d in
  clientHeight (layout d' host) = 0%Z ->
  exists c' : ResizeContext.t,
    begin handler (mkState c d ed) = (Normal tt, mkState c' d' ed)
    /\ aspectRatio c'
       = Some match (clientWidth (layout d' host) ?= 0)%Z with
              | Eq => NaN
              | Gt => PosInfinity
              | Lt => NegInfinity
              end
    /\ resizeStrategy c' = resizeStrategy c ++ [StrategyBegin handler].
Proof.
  intros Hw Hs Hh Hp Hratio d' Hheight.
  destruct (invertPosition_of_valid p (getResizerPosition_valid _ _ Hp)) as (q & Hq & _).
  exists (begun c d' handler host p q).
  split; [ exact (begin_run c d ed handler wrapper shadow host p q Hw Hs Hh Hp Hq) | ].
  split; [ | reflexivity ].
  unfold begun. cbn [aspectRatio]. rewrite Hratio, Hheight.
  reflexivity.
Qed.

End Begin.

(** ** Redrawing the overlay of a context *)

Section Redraw.
Context {browser : Dom.Browser} {imports : ResizeContext.Imports}.
Import Js Dom ResizeContext.

Lemma redraw_unrendered (c : ResizeContext.t) (d : Dom.t) (ed : Engine.Editor) :
  domResizeWrapper c = None ->
  redraw (mkState c d ed) = (Normal tt, mkState c d ed).
Proof.
  intros Hw. unfold redraw. cbv [bind gets ret this]. rewrite Hw. reflexivity.
Qed.

Lemma redraw_run (c : ResizeContext.t) (d : Dom.t) (ed : Engine.Editor)
      (wrapper widget host : ElemId) :
  domResizeWrapper c = Some wrapper ->
  parentElement (elem d wrapper) = Some widget ->
  match getResizeHost (options c) with
  | Some f => f (parentElement (elem d wrapper))
  | None => parentElement (elem d wrapper)
  end = Some host ->
  (forall f, layout (set_style wrapper f d) host = layout d host) ->
  redraw (mkState c d ed)
  = (Normal tt,
     mkState c (if Nat.eqb widget host then d
                else set_style wrapper (fun _ => hugging (layout d host)) d) ed).
Proof.
  intros Hw Hparent Hhost Hstable.
  unfold redraw. cbv [bind gets ret this dom]. rewrite Hw.
  rewrite (getResizeHost_run c d ed wrapper Hw), Hhost, Hparent.
  cbv [deref ret isSameNode].
  destruct (Nat.eqb widget host); [ reflexivity | ].
  cbv [modify_dom modify this dom editor].
  rewrite !set_style_set_style, !Hstable.
  reflexivity.
Qed.

(** [redraw] touches the DOM only, whether it completes or throws. *)
Lemma redraw_frame (s : State) :
  this (snd (redraw s)) = this s /\ editor (snd (redraw s)) = editor s.
Proof.
  destruct s as [c d ed]. unfold redraw. cbv [bind gets ret this dom].
  destruct (domResizeWrapper c) as [wrapper|] eqn:Hw; [ | split; reflexivity ].
  rewrite (getResizeHost_run c d ed wrapper Hw).
  cbv [deref ret throw].
  destruct (parentElement (elem d wrapper)) as [widget|]; [ | split; reflexivity ].
  destruct (isSameNode widget _); [ split; reflexivity | ].
  destruct (match getResizeHost (options c) with
            | Some f => f (Some widget)
            | None => Some widget
            end) as [host|]; split; reflexivity.
Qed.

(** The overlay is redrawn to the same geometry by a second [redraw]. *)
Lemma context_redraw_twice (s : State) (wrapper widget host : ElemId) :
  domResizeWrapper (this s) = Some wrapper ->
  parentElement (elem (dom s) wrapper) = Some widget ->
  match getResizeHost (options (this s)) with
  | Some f => f (parentElement (elem (dom s) wrapper))
  | None => parentElement (elem (dom s) wrapper)
  end = Some host ->
  (forall f, layout (set_style wrapper f (dom s)) host = layout (dom s) host) ->
  exists s1, redraw s = (Normal tt, s1) /\ redraw s1 = (Normal tt, s1).
Proof.
  destruct s as [c d ed]. cbn [this dom]. intros Hw Hparent Hhost Hstable.
  eexists. split; [ exact (redraw_run c d ed wrapper widget host Hw Hparent Hhost Hstable) | ].
  destruct (Nat.eqb widget host) eqn:Hsame.
  - rewrite (redraw_run c d ed wrapper widget host Hw Hparent Hhost Hstable), Hsame.
    reflexivity.
  - rewrite (redraw_run c _ ed wrapper widget host Hw).
    + rewrite Hsame, set_style_set_style, Hstable. reflexivity.
    + rewrite parentElement_set_style. exact Hparent.
    + rewrite parentElement_set_style. exact Hhost.
    + intros f. rewrite set_style_set_style, !Hstable. reflexivity.
Qed.

End Redraw.

(** ** Committing and cancelling on a context *)

Section Commit.
Context {browser : Dom.Browser} {imports : ResizeContext.Imports}.
Import Js Dom ResizeContext.

Lemma commit_unrendered (c : ResizeContext.t) (d : Dom.t) (ed : Engine.Editor) :
  domResizeShadow c = None ->
  commit (mkState c d ed) = (Throw TypeError, mkState c d ed).
Proof.
  intros Hs. unfold commit, _getModel.
  cbv [bind gets deref ret throw this dom editor]. rewrite Hs. reflexivity.
Qed.

(** [commit], up to what [redraw] does. *)
Lemma commit_run (c : ResizeContext.t) (d : Dom.t) (ed : Engine.Editor) (shadow : ElemId) :
  domResizeShadow c = Some shadow ->
  commit (mkState c d ed)
  = match redraw (mkState c (dismissed shadow d) ed) with
    | (Normal _, s2) =>
        (Normal tt,
         mkState (cleaned (set_resizeStrategy (resizeStrategy (this s2) ++ [StrategyCommit]) (this s2)))
                 (dom s2)
                 (Engine.change [width_write c d ed shadow] (editor s2)))
    | (Throw e, s2) => (Throw e, s2)
    end.
Proof.
  intros Hs. unfold commit, _getModel, _dismissShadow, strategy, _cleanupContext.
  cbv [bind gets deref ret throw modify_dom modify_this modify_editor modify].
  cbn [this dom editor]. rewrite Hs. cbn [this dom editor]. rewrite Hs. cbn [this dom editor].
  fold (dismissed shadow d).
  destruct (redraw (mkState c (dismissed shadow d) ed)) as [[[] | e] s2]; reflexivity.
Qed.

Lemma cancel_unrendered (c : ResizeContext.t) (d : Dom.t) (ed : Engine.Editor) :
  domResizeShadow c = None ->
  cancel (mkState c d ed) = (Throw TypeError, mkState c d ed).
Proof.
  intros Hs. unfold cancel, _dismissShadow.
  cbv [bind gets deref ret throw this dom editor]. rewrite Hs. reflexivity.
Qed.

Lemma cancel_run (c : ResizeContext.t) (d : Dom.t) (ed : Engine.Editor) (shadow : ElemId) :
  domResizeShadow c = Some shadow ->
  cancel (mkState c d ed)
  = (Normal tt,
     mkState (cleaned (set_resizeStrategy (resizeStrategy c ++ [StrategyCancel]) c))
             (dismissed shadow d) ed).
Proof.
  intros Hs. unfold cancel, _dismissShadow, strategy, _cleanupContext.
  cbv [bind gets deref ret throw modify_dom modify_this modify].
  cbn [this dom editor]. rewrite Hs. reflexivity.
Qed.

(** A [commit] that completes has handed the model one change block with
    one [setAttribute] call, whose item is whatever the mapper returned. *)
Lemma context_commit_writes_once (s : State) :
  fst (commit s) = Normal tt ->
  exists shadow,
    domResizeShadow (this s) = Some shadow
    /\ Engine.changes (editor (snd (commit s)))
       = Engine.changes (editor s) ++ [[width_write (this s) (dom s) (editor s) shadow]].
Proof.
  destruct s as [c d ed]. cbn [this dom editor].
  destruct (domResizeShadow c) as [shadow|] eqn:Hs.
  - rewrite (commit_run c d ed shadow Hs).
    pose proof (redraw_frame (mkState c (dismissed shadow d) ed)) as [_ Hed].
    destruct (redraw (mkState c (dismissed shadow d) ed)) as [[[] | e] s2]; cbn in *.
    + intros _. exists shadow. rewrite Hed. split; reflexivity.
    + discriminate.
  - rewrite (commit_unrendered c d ed Hs). discriminate.
Qed.

(** Where the overlay exists and is mounted, [commit] completes. *)
Lemma commit_completes (c : ResizeContext.t) (d : Dom.t) (ed : Engine.Editor)
      (shadow wrapper widget host : ElemId) :
  domResizeShadow c = Some shadow ->
  domResizeWrapper c = Some wrapper ->
  parentElement (elem d wrapper) = Some widget ->
  match getResizeHost (options c) with
  | Some f => f (parentElement (elem d wrapper))
  | None => parentElement (elem d wrapper)
  end = Some host ->
  (forall f, layout (set_style wrapper f (dismissed shadow d)) host
             = layout (dismissed shadow d) host) ->
  fst (commit (mkState c d ed)) = Normal tt.
Proof.
  intros Hs Hw Hparent Hhost Hstable.
  rewrite (commit_run c d ed shadow Hs).
  rewrite (redraw_run c (dismissed shadow d) ed wrapper widget host Hw); [ reflexivity | | | exact Hstable ].
  - unfold dismissed. rewrite parentElement_set_style, parentElement_set_classList. exact Hparent.
  - unfold dismissed. rewrite parentElement_set_style, parentElement_set_classList. exact Hhost.
Qed.

(** A [commit] that throws does so before it reaches the model. *)
Lemma context_commit_throw_writes_nothing (s : State) :
  fst (commit s) <> Normal tt -> editor (snd (commit s)) = editor s.
Proof.
  destruct s as [c d ed]. cbn [this dom editor].
  destruct (domResizeShadow c) as [shadow|] eqn:Hs.
  - rewrite (commit_run c d ed shadow Hs).
    pose proof (redraw_frame (mkState c (dismissed shadow d) ed)) as [_ Hed].
    destruct (redraw (mkState c (dismissed shadow d) ed)) as [[[] | e] s2]; cbn in *.
    + intros H. exfalso. apply H. reflexivity.
    + intros _. exact Hed.
  - rewrite (commit_unrendered c d ed Hs). reflexivity.
Qed.

Lemma context_cancel_writes_nothing (s : State) :
  editor (snd (cancel s)) = editor s.
Proof.
  destruct s as [c d ed].
  destruct (domResizeShadow c) as [shadow|] eqn:Hs.
  - rewrite (cancel_run c d ed shadow Hs). reflexivity.
  - rewrite (cancel_unrendered c d ed Hs). reflexivity.
Qed.

(** [commit] calls the strategy's [commit] once, and nothing else of it. *)
Lemma context_commit_strategy (s : State) :
  fst (commit s) = Normal tt ->
  resizeStrategy (this (snd (commit s))) = resizeStrategy (this s) ++ [StrategyCommit].
Proof.
  destruct s as [c d ed]. cbn [this dom editor].
  destruct (domResizeShadow c) as [shadow|] eqn:Hs.
  - rewrite (commit_run c d ed shadow Hs).
    pose proof (redraw_frame (mkState c (dismissed shadow d) ed)) as [Hthis _].
    destruct (redraw (mkState c (dismissed shadow d) ed)) as [[[] | e] s2]; cbn in *.
    + intros _. rewrite Hthis. reflexivity.
    + discriminate.
  - rewrite (commit_unrendered c d ed Hs). discriminate.
Qed.

End Commit.

(** ** The plugin's mouse listeners *)

Section Listeners.
Context {browser : Dom.Browser} {imports : ResizeContext.Imports}.
Import Js Dom WidgetResizer.

Lemma call_run {A} (ref : nat) (method : M ResizeContext.State A) (p : WidgetResizer.t)
      (context : ResizeContext.t) :
  contexts p !! ref = Some context ->
  call ref method p
  = (fst (method (ResizeContext.mkState context (dom p) (editor p))),
     let s := snd (method (ResizeContext.mkState context (dom p) (editor p))) in
     mk (<[ref := ResizeContext.this s]> (contexts p)) (activeContext p) (mouseMove p)
        (ResizeContext.dom s) (ResizeContext.editor s)).
Proof.
  intros H. unfold call. rewrite H.
  destruct (method _) as [completion s]. reflexivity.
Qed.

(** A method call on a context leaves the plugin's own fields alone. *)
Lemma call_frame {A} (ref : nat) (method : M ResizeContext.State A) (p : WidgetResizer.t) :
  activeContext (snd (call ref method p)) = activeContext p
  /\ mouseMove (snd (call ref method p)) = mouseMove p.
Proof.
  unfold call. destruct (contexts p !! ref) as [context|]; [ | split; reflexivity ].
  destruct (method _) as [completion s]. split; reflexivity.
Qed.

Lemma getContextByHandler_run (handler : ElemId) (p : WidgetResizer.t) :
  _getContextByHandler handler p
  = (context_by_wrapper (wrapper_of (dom p) handler) (contexts p) 0, p).
Proof. reflexivity. Qed.

(** The context found is one of the plugin's. *)
Lemma context_by_wrapper_bound (wrapper : option ElemId) (rest : list ResizeContext.t)
      (index found : nat) :
  context_by_wrapper wrapper rest index = Normal (Some found) ->
  index <= found < index + length rest.
Proof.
  revert index. induction rest as [| context rest IH]; intros index H; cbn in H.
  - discriminate H.
  - destruct wrapper as [w|]; [ | discriminate H ].
    destruct (ResizeContext.isSameNode w (ResizeContext.domResizeWrapper context)).
    + injection H as <-. cbn. lia.
    + apply IH in H. cbn. lia.
Qed.

Lemma mousedown_miss (data : DomEventData) (p : WidgetResizer.t) :
  resizeHandler_of (dom p) (target data) = None ->
  mousedown data p = (Normal tt, p).
Proof.
  intros H. unfold mousedown. cbv [bind gets]. rewrite H. reflexivity.
Qed.

(** [mousedown] on a handle, whatever [activeContext] was. *)
Lemma mousedown_hit (data : DomEventData) (p : WidgetResizer.t) (handler : ElemId)
      (found : option nat) :
  resizeHandler_of (dom p) (target data) = Some handler ->
  context_by_wrapper (wrapper_of (dom p) handler) (contexts p) 0 = Normal found ->
  mousedown data p
  = match found with
    | Some context =>
        call context (ResizeContext.begin handler)
             (set_activeContext found (listenTo p))
    | None => (Normal tt, set_activeContext None (listenTo p))
    end.
Proof.
  intros Hh Hfound. unfold mousedown. cbv [bind gets modify]. rewrite Hh.
  rewrite getContextByHandler_run. cbn [dom contexts set_mouseMove listenTo stopListening].
  rewrite Hfound. destruct found; reflexivity.
Qed.

Lemma mousedown_lookup_throws (data : DomEventData) (p : WidgetResizer.t) (handler : ElemId)
      (e : Error) :
  resizeHandler_of (dom p) (target data) = Some handler ->
  context_by_wrapper (wrapper_of (dom p) handler) (contexts p) 0 = Throw e ->
  mousedown data p = (Throw e, listenTo p).
Proof.
  intros Hh Hfound. unfold mousedown. cbv [bind gets modify]. rewrite Hh.
  rewrite getContextByHandler_run. cbn [dom contexts set_mouseMove listenTo stopListening].
  rewrite Hfound. reflexivity.
Qed.

(** C1, as the code has it: the [mousedown] listener does not look at
    [activeContext].  Off a resize handle it changes nothing.  On a resize
    handle it subscribes the [mousemove] listener and stores, in the one
    [activeContext] slot, the context that owns the handle, in place of
    whichever context was active; [begin] is then called on that context. *)
Theorem mousedown_replaces_active_context (data : DomEventData) (p : WidgetResizer.t) :
  (resizeHandler_of (dom p) (target data) = None ->
   mousedown data p = (Normal tt, p))
  /\ (forall (handler : ElemId) (found : option nat),
         resizeHandler_of (dom p) (target data) = Some handler ->
         fst (_getContextByHandler handler p) = Normal found ->
         activeContext (snd (mousedown data p)) = found
         /\ mouseMove (snd (mousedown data p)) = S (mouseMove p)
         /\ forall (i : nat) (c : ResizeContext.t),
             found = Some i ->
             contexts p !! i = Some c ->
             contexts (snd (mousedown data p)) !! i
             = Some (ResizeContext.this
                       (snd (ResizeContext.begin handler
                               (ResizeContext.mkState c (dom p) (editor p)))))).
Proof.
  split; [ apply mousedown_miss | ].
  intros handler found Hh Hfound.
  rewrite getContextByHandler_run in Hfound. cbn [fst] in Hfound.
  rewrite (mousedown_hit data p handler found Hh Hfound).
  destruct found as [i|].
  - pose proof (call_frame i (ResizeContext.begin handler)
                           (set_activeContext (Some i) (listenTo p))) as [Ha Hm].
    rewrite Ha, Hm. repeat split.
    intros i' c [= <-] Hc.
    rewrite (call_run i _ _ c) by exact Hc.
    cbn [snd contexts dom editor set_activeContext set_mouseMove listenTo stopListening].
    apply list_lookup_insert_eq. apply lookup_lt_Some in Hc. exact Hc.
  - repeat split. intros i c [=].
Qed.

Lemma finishResizing_idle (p : WidgetResizer.t) :
  activeContext p = None -> finishResizing p = (Normal tt, p).
Proof.
  intros H. unfold finishResizing. cbv [bind gets]. rewrite H. reflexivity.
Qed.

Lemma finishResizing_run (p : WidgetResizer.t) (i : nat) :
  activeContext p = Some i ->
  finishResizing p
  = match call i ResizeContext.commit (stopListening p) with
    | (Normal _, p') => (Normal tt, set_activeContext None p')
    | (Throw e, p') => (Throw e, p')
    end.
Proof.
  intros H. unfold finishResizing. cbv [bind gets modify]. rewrite H.
  cbn [activeContext set_mouseMove listenTo stopListening]. rewrite H.
  destruct (call i ResizeContext.commit _) as [[[] | e] p']; reflexivity.
Qed.

(** When the active context's [commit] throws, the listener is gone but
    [activeContext] is left as it was. *)
Lemma finishResizing_commit_throws (p : WidgetResizer.t) (i : nat) (c : ResizeContext.t)
      (e : Error) :
  activeContext p = Some i ->
  contexts p !! i = Some c ->
  fst (ResizeContext.commit (ResizeContext.mkState c (dom p) (editor p))) = Throw e ->
  fst (finishResizing p) = Throw e
  /\ activeContext (snd (finishResizing p)) = Some i
  /\ mouseMove (snd (finishResizing p)) = 0.
Proof.
  intros Hactive Hc Hthrow.
  rewrite (finishResizing_run p i Hactive).
  rewrite (call_run i _ _ c) by exact Hc.
  cbn [dom editor contexts set_mouseMove listenTo stopListening]. rewrite Hthrow.
  cbn [fst snd activeContext mouseMove]. repeat split. exact Hactive.
Qed.

(** C6, as the code has it: with an active context, [finishResizing]
    unsubscribes the [mousemove] listener and has that context commit,
    once.  When the commit completes, [activeContext] is cleared; when it
    throws, the error leaves the listener with it and [activeContext] keeps
    referring to the context.  Without an active context [finishResizing]
    does nothing. *)
Theorem finishResizing_commits_once (p : WidgetResizer.t) :
  (activeContext p = None -> finishResizing p = (Normal tt, p))
  /\ (forall (i : nat) (c : ResizeContext.t),
         activeContext p = Some i ->
         contexts p !! i = Some c ->
         let committed := ResizeContext.commit (ResizeContext.mkState c (dom p) (editor p)) in
         let s' := snd committed in
         finishResizing p
         = (fst committed,
            mk (<[i := ResizeContext.this s']> (contexts p))
               match fst committed with
               | Normal _ => None
               | Throw _ => Some i
               end
               0 (ResizeContext.dom s') (ResizeContext.editor s'))
         /\ (fst committed = Normal tt ->
             ResizeContext.resizeStrategy (ResizeContext.this s')
             = ResizeContext.resizeStrategy c ++ [ResizeContext.StrategyCommit]
             /\ exists shadow,
                 Engine.changes (ResizeContext.editor s')
                 = Engine.changes (editor p) ++ [[width_write c (dom p) (editor p) shadow]])).
Proof.
  split; [ apply finishResizing_idle | ].
  intros i c Hactive Hc committed s'.
  split.
  - rewrite (finishResizing_run p i Hactive).
    rewrite (call_run i _ _ c) by exact Hc.
    cbn [dom editor contexts activeContext mouseMove set_mouseMove listenTo stopListening].
    fold committed. fold s'.
    destruct (fst committed) as [[] | e]; cbn [set_activeContext contexts mouseMove dom editor].
    + reflexivity.
    + rewrite Hactive. reflexivity.
  - intros Hdone. split.
    + pose proof (context_commit_strategy (ResizeContext.mkState c (dom p) (editor p))) as H.
      apply H. exact Hdone.
    + destruct (context_commit_writes_once (ResizeContext.mkState c (dom p) (editor p)) Hdone)
        as (shadow & _ & H).
      exists shadow. exact H.
Qed.

End Listeners.

(** ** The resizer of widgetresizer/resizer.js *)

Section ResizerMethods.
Context {browser : Dom.Browser} {imports : Resizer.Imports}.
Import Js Dom Resizer.

Lemma resizer_getResizeHost_run (r : Resizer.t) (d : Dom.t) (ed : Engine.Editor) (wrapper : ElemId) :
  _domResizeWrapper r = Some wrapper ->
  _getResizeHost (mkState r d ed)
  = (Normal (match getResizeHost (_options r) with
             | Some f => f (parentElement (elem d wrapper))
             | None => parentElement (elem d wrapper)
             end), mkState r d ed).
Proof.
  intros Hw. unfold _getResizeHost. cbv [bind gets deref ret].
  cbn [this dom]. rewrite Hw. reflexivity.
Qed.

Lemma updateSize_run (r : Resizer.t) (d : Dom.t) (ed : Engine.Editor) (data : DomEventData)
      (wrapper host : ElemId) (st : ResizeState.t) :
  _domResizeWrapper r = Some wrapper ->
  match getResizeHost (_options r) with
  | Some f => f (parentElement (elem d wrapper))
  | None => parentElement (elem d wrapper)
  end = Some host ->
  state r = Some st ->
  let d1 := requested st data host d in
  let box := layout d1 host in
  let st' := ResizeState.fetchSizeFromElement box st in
  updateSize data (mkState r d ed)
  = (Normal tt,
     mkState (set_sizeUi (SizeView.follow st' <$> sizeUi r) (set_state (Some st') r))
             (set_style wrapper (Style.set_height (Px (rectHeight box)))
                (set_style wrapper (Style.set_width (Px (rectWidth box))) d1))
             ed).
Proof.
  intros Hw Hhost Hst d1 box st'. subst st' box d1.
  unfold updateSize.
  unfold bind at 1. rewrite (resizer_getResizeHost_run r d ed wrapper Hw), Hhost.
  cbv [bind gets deref ret modify_dom modify]. cbn [this dom editor]. rewrite Hst.
  cbn [this dom editor]. fold (requested st data host d).
  rewrite (resizer_getResizeHost_run r _ ed wrapper Hw).
  unfold requested at 1 2. rewrite !parentElement_set_style, Hhost.
  fold (requested st data host d).
  unfold set_resize_state. cbv [modify_this modify]. cbn [this dom editor].
  unfold set_sizeUi at 1 2, set_state at 1 2. cbn [_domResizeWrapper state].
  rewrite Hw. reflexivity.
Qed.

Lemma resizer_redraw_detached (r : Resizer.t) (d : Dom.t) (ed : Engine.Editor) :
  existsInDom d (_domResizeWrapper r) = false ->
  redraw (mkState r d ed) = (Normal tt, mkState r d ed).
Proof.
  intros H. unfold redraw. cbv [bind gets ret]. cbn [this dom]. rewrite H. reflexivity.
Qed.

Lemma resizer_redraw_run (r : Resizer.t) (d : Dom.t) (ed : Engine.Editor)
      (wrapper widget host : ElemId) :
  _domResizeWrapper r = Some wrapper ->
  inDocument (elem d wrapper) = true ->
  parentElement (elem d wrapper) = Some widget ->
  match getResizeHost (_options r) with
  | Some f => f (parentElement (elem d wrapper))
  | None => parentElement (elem d wrapper)
  end = Some host ->
  (forall f, layout (set_style wrapper f d) host = layout d host) ->
  redraw (mkState r d ed)
  = (Normal tt, mkState r (set_style wrapper (redrawn widget host (layout d host)) d) ed).
Proof.
  intros Hw Hin Hparent Hhost Hstable.
  unfold redraw. cbv [bind gets ret]. cbn [this dom]. rewrite Hw. cbn [existsInDom]. rewrite Hin.
  cbv [deref ret].
  rewrite (resizer_getResizeHost_run r d ed wrapper Hw), Hhost, Hparent.
  cbv [modify_dom modify ResizeContext.isSameNode]. cbn [this dom editor].
  unfold redrawn.
  destruct (Nat.eqb widget host); cbn [this dom editor].
  - rewrite !set_style_set_style. reflexivity.
  - rewrite !set_style_set_style, !Hstable. reflexivity.
Qed.

Lemma resizer_redraw_frame (s : State) :
  this (snd (redraw s)) = this s /\ editor (snd (redraw s)) = editor s.
Proof.
  destruct s as [r d ed]. unfold redraw. cbv [bind gets ret]. cbn [this dom].
  destruct (existsInDom d (_domResizeWrapper r)); [ | split; reflexivity ].
  destruct (_domResizeWrapper r) as [wrapper|] eqn:Hw; cbv [deref ret throw];
    [ | split; reflexivity ].
  rewrite (resizer_getResizeHost_run r d ed wrapper Hw).
  destruct (match getResizeHost (_options r) with
            | Some f => f (parentElement (elem d wrapper))
            | None => parentElement (elem d wrapper)
            end) as [host|]; [ | split; reflexivity ].
  cbv [modify_dom modify]. cbn [this dom editor].
  destruct (parentElement (elem d wrapper)) as [widget|]; [ | split; reflexivity ].
  destruct (ResizeContext.isSameNode widget (Some host)); split; reflexivity.
Qed.

Lemma resizer_redraw_twice (s : State) (wrapper widget host : ElemId) :
  _domResizeWrapper (this s) = Some wrapper ->
  parentElement (elem (dom s) wrapper) = Some widget ->
  match getResizeHost (_options (this s)) with
  | Some f => f (parentElement (elem (dom s) wrapper))
  | None => parentElement (elem (dom s) wrapper)
  end = Some host ->
  (forall f, layout (set_style wrapper f (dom s)) host = layout (dom s) host) ->
  exists s1, redraw s = (Normal tt, s1) /\ redraw s1 = (Normal tt, s1).
Proof.
  destruct s as [r d ed]. cbn [this dom]. intros Hw Hparent Hhost Hstable.
  destruct (inDocument (elem d wrapper)) eqn:Hin.
  - eexists. split;
      [ exact (resizer_redraw_run r d ed wrapper widget host Hw Hin Hparent Hhost Hstable) | ].
    rewrite (resizer_redraw_run r _ ed wrapper widget host Hw).
    + rewrite set_style_set_style, Hstable. f_equal. f_equal.
      apply set_style_ext. unfold redrawn. destruct (Nat.eqb widget host); reflexivity.
    + rewrite inDocument_set_style. exact Hin.
    + rewrite parentElement_set_style. exact Hparent.
    + rewrite parentElement_set_style. exact Hhost.
    + intros f. rewrite set_style_set_style, !Hstable. reflexivity.
  - assert (Hout : existsInDom d (_domResizeWrapper r) = false).
    { rewrite Hw. exact Hin. }
    exists (mkState r d ed). split; apply resizer_redraw_detached; exact Hout.
Qed.

End ResizerMethods.

Section ResizerCommit.
Context {browser : Dom.Browser} {imports : Resizer.Imports}.
Import Js Dom Resizer.

Lemma resizer_commit_unrendered (r : Resizer.t) (d : Dom.t) (ed : Engine.Editor) :
  _domResizeShadow r = None ->
  commit (mkState r d ed) = (Throw TypeError, mkState r d ed).
Proof.
  intros Hs. unfold commit. cbv [bind gets deref ret throw]. cbn [this dom editor].
  rewrite Hs. reflexivity.
Qed.

(** [commit], up to what [redraw] does. *)
Lemma resizer_commit_run (r : Resizer.t) (d : Dom.t) (ed : Engine.Editor) (shadow : ElemId) :
  _domResizeShadow r = Some shadow ->
  commit (mkState r d ed)
  = match redraw (mkState r (set_style shadow (fun _ => Style.empty) d) ed) with
    | (Normal _, s2) =>
        let written := Engine.change [resizer_width_write r d shadow] (editor s2) in
        match sizeUi (this s2) with
        | Some view =>
            (Normal tt,
             mkState (set_sizeUi (Some (SizeView.set_isVisible false (SizeView.dismiss view))) (this s2))
                     (dom s2) written)
        | None => (Throw TypeError, mkState (this s2) (dom s2) written)
        end
    | (Throw e, s2) => (Throw e, s2)
    end.
Proof.
  intros Hs. unfold commit, _dismissShadow, _cleanup.
  cbv [bind gets deref ret throw modify_dom modify_this modify_editor modify].
  cbn [this dom editor]. rewrite Hs. cbn [this dom editor]. rewrite Hs. cbn [this dom editor].
  destruct (redraw _) as [[[] | e] s2]; [ | reflexivity ].
  cbn [this dom editor]. destruct (sizeUi (this s2)); reflexivity.
Qed.

Lemma resizer_commit_writes_once (s : State) :
  fst (commit s) = Normal tt ->
  exists shadow,
    _domResizeShadow (this s) = Some shadow
    /\ Engine.changes (editor (snd (commit s)))
       = Engine.changes (editor s) ++ [[resizer_width_write (this s) (dom s) shadow]].
Proof.
  destruct s as [r d ed]. cbn [this dom editor].
  destruct (_domResizeShadow r) as [shadow|] eqn:Hs.
  - rewrite (resizer_commit_run r d ed shadow Hs).
    pose proof (resizer_redraw_frame (mkState r (set_style shadow (fun _ => Style.empty) d) ed))
      as [_ Hed].
    destruct (redraw _) as [[[] | e] s2]; cbn in *.
    + destruct (sizeUi (this s2)); cbn; [ | discriminate ].
      intros _. exists shadow. rewrite Hed. split; reflexivity.
    + discriminate.
  - rewrite (resizer_commit_unrendered r d ed Hs). discriminate.
Qed.

Lemma resizer_cancel_writes_nothing (s : State) :
  editor (snd (cancel s)) = editor s.
Proof.
  destruct s as [r d ed]. unfold cancel, _dismissShadow, _cleanup.
  cbv [bind gets deref ret throw modify_dom modify_this modify]. cbn [this dom editor].
  destruct (_domResizeShadow r); cbn [this dom editor]; [ | reflexivity ].
  destruct (sizeUi r); reflexivity.
Qed.

End ResizerCommit.

(** ** Writes to the model, and redrawing, over both classes *)

Section BothClasses.
Context {browser : Dom.Browser}
        {context_imports : ResizeContext.Imports} {resizer_imports : Resizer.Imports}.
Import Js Dom.

Lemma context_updateSize_run (c : ResizeContext.t) (d : Dom.t) (ed : Engine.Editor)
      (data : DomEventData) (wrapper : ElemId) :
  ResizeContext.domResizeWrapper c = Some wrapper ->
  let size := ResizeContext.strategy_updateSize c d data in
  ResizeContext.updateSize data (ResizeContext.mkState c d ed)
  = (Normal tt,
     ResizeContext.mkState
       (ResizeContext.set_proposed (Some (Point.x size)) (Some (Point.y size))
          (ResizeContext.set_resizeStrategy
             (ResizeContext.resizeStrategy c ++ [ResizeContext.StrategyUpdateSize data]) c))
       (set_style wrapper (Style.set_height (Px (Point.y size)))
          (set_style wrapper (Style.set_width (Px (Point.x size))) d))
       ed).
Proof.
  intros Hw size. unfold ResizeContext.updateSize, ResizeContext.strategy.
  cbv [bind get gets deref ret ResizeContext.modify_this ResizeContext.modify_dom modify].
  cbn [ResizeContext.this ResizeContext.dom ResizeContext.editor
       ResizeContext.set_resizeStrategy ResizeContext.domResizeWrapper].
  rewrite Hw. reflexivity.
Qed.


(** C2, as the code has it: a [commit] that completes has handed the model
    exactly one change block with exactly one [setAttribute] call, for the
    width read off the shadow.  The item of the call is what the lookup of
    the model element gave, [undefined] included: the call is not skipped
    when there is no model element.  [cancel] hands the model nothing. *)
Theorem commit_writes_once_cancel_never (s : ResizeContext.State) (r : Resizer.State) :
  (fst (ResizeContext.commit s) = Normal tt ->
   exists shadow,
     ResizeContext.domResizeShadow (ResizeContext.this s) = Some shadow
     /\ Engine.changes (ResizeContext.editor (snd (ResizeContext.commit s)))
        = Engine.changes (ResizeContext.editor s)
          ++ [[Engine.mkSetAttribute "width"
                 (Engine.NumberValue (clientWidth (layout (ResizeContext.dom s) shadow)))
                 (model_entry (ResizeContext.this s) (ResizeContext.editor s))]])
  /\ ResizeContext.editor (snd (ResizeContext.cancel s)) = ResizeContext.editor s
  /\ (fst (Resizer.commit r) = Normal tt ->
      exists shadow,
        Resizer._domResizeShadow (Resizer.this r) = Some shadow
        /\ Engine.changes (Resizer.editor (snd (Resizer.commit r)))
           = Engine.changes (Resizer.editor r)
             ++ [[Engine.mkSetAttribute "width"
                    (Engine.PxValue (clientWidth (layout (Resizer.dom r) shadow)))
                    (Resizer.modelElement (Resizer._options (Resizer.this r)))]])
  /\ Resizer.editor (snd (Resizer.cancel r)) = Resizer.editor r.
Proof.
  split; [ | split; [ | split ] ].
  - apply context_commit_writes_once.
  - apply context_cancel_writes_nothing.
  - apply resizer_commit_writes_once.
  - apply resizer_cancel_writes_nothing.
Qed.

(** C8: where the overlay exists, under the widget's wrapper and with a
    resize host, and the host's box does not depend on the inline style of
    the overlay, [redraw] completes, and a second [redraw] right after it
    leaves everything, the left, top, width and height of the overlay
    included, as the first one left it. *)
Theorem redraw_idempotent (s : ResizeContext.State) (r : Resizer.State) :
  (forall wrapper widget host : ElemId,
      ResizeContext.domResizeWrapper (ResizeContext.this s) = Some wrapper ->
      parentElement (elem (ResizeContext.dom s) wrapper) = Some widget ->
      match ResizeContext.getResizeHost (ResizeContext.options (ResizeContext.this s)) with
      | Some f => f (parentElement (elem (ResizeContext.dom s) wrapper))
      | None => parentElement (elem (ResizeContext.dom s) wrapper)
      end = Some host ->
      (forall f, layout (set_style wrapper f (ResizeContext.dom s)) host
                 = layout (ResizeContext.dom s) host) ->
      exists s1,
        ResizeContext.redraw s = (Normal tt, s1)
        /\ ResizeContext.redraw s1 = (Normal tt, s1))
  /\ (forall wrapper widget host : ElemId,
      Resizer._domResizeWrapper (Resizer.this r) = Some wrapper ->
      parentElement (elem (Resizer.dom r) wrapper) = Some widget ->
      match Resizer.getResizeHost (Resizer._options (Resizer.this r)) with
      | Some f => f (parentElement (elem (Resizer.dom r) wrapper))
      | None => parentElement (elem (Resizer.dom r) wrapper)
      end = Some host ->
      (forall f, layout (set_style wrapper f (Resizer.dom r)) host
                 = layout (Resizer.dom r) host) ->
      exists r1,
        Resizer.redraw r = (Normal tt, r1)
        /\ Resizer.redraw r1 = (Normal tt, r1)).
Proof.
  split.
  - intros wrapper widget host. apply context_redraw_twice.
  - intros wrapper widget host. apply resizer_redraw_twice.
Qed.

End BothClasses.

(** ** The statements on the page *)

Section OnThePage.
Import Js Dom Page.

(** On the page the box of an element depends on that element only. *)
Lemma page_layout_stable (wrapper host : ElemId) (f : Style.t -> Style.t) (d : Dom.t) :
  wrapper <> host -> layout (set_style wrapper f d) host = layout d host.
Proof.
  intros Hne. unfold layout. cbn [Dom.layout browser]. unfold Page.layout, set_style.
  rewrite elem_update_ne by exact Hne. reflexivity.
Qed.

(** C1, as stated, fails: a drag on the first widget is in progress when a
    second [mousedown] hits a handle of the second widget; the active
    context changes and [begin] is called on the second context. *)
Lemma second_mousedown_switches_context :
  let p1 := WidgetResizer.step plugin (WidgetResizer.MouseDown (mouse 16 0 0)) in
  let p2 := WidgetResizer.step p1 (WidgetResizer.MouseDown (mouse 24 0 0)) in
  WidgetResizer.activeContext p1 = Some 0
  /\ WidgetResizer.activeContext p2 = Some 1
  /\ ResizeContext.resizeStrategy <$> WidgetResizer.contexts p2 !! 1
     = Some [ResizeContext.StrategyBegin 24]
  /\ ResizeContext.referenceHandlerPosition <$> WidgetResizer.contexts p2 !! 1
     = Some (Some "top-left").
Proof. vm_compute. repeat split; reflexivity. Qed.

(** On the page: during a drag on the first widget, a [mousedown] on a
    handle of the second widget makes the second context the active one;
    a [mousedown] on the image changes nothing. *)
Lemma mousedown_replaces_active_context_witness :
  let p1 := WidgetResizer.step plugin (WidgetResizer.MouseDown (mouse 16 0 0)) in
  WidgetResizer.activeContext p1 = Some 0
  /\ WidgetResizer.activeContext (snd (WidgetResizer.mousedown (mouse 24 0 0) p1)) = Some 1
  /\ WidgetResizer.mousedown (mouse 11 0 0) p1 = (Normal tt, p1).
Proof.
  intros p1.
  destruct (mousedown_replaces_active_context (mouse 24 0 0) p1) as [_ Hhit].
  destruct (mousedown_replaces_active_context (mouse 11 0 0) p1) as [Hmiss _].
  split; [ vm_compute; reflexivity | split ].
  - apply (Hhit 24 (Some 1)); vm_compute; reflexivity.
  - apply Hmiss. vm_compute. reflexivity.
Defined.

(** C2, as stated, fails: the second image has no model element, and the
    [commit] of its context still hands the model a [setAttribute] call. *)
Lemma commit_unmapped_still_writes :
  let s := ResizeContext.mkState (context 20 200) document editor in
  model_entry (ResizeContext.this s) (ResizeContext.editor s) = None
  /\ fst (ResizeContext.commit s) = Normal tt
  /\ Engine.writes (ResizeContext.editor (snd (ResizeContext.commit s)))
     = [Engine.mkSetAttribute "width" (Engine.NumberValue 100) None]
  /\ Engine.writes
       (WidgetResizer.editor
          (WidgetResizer.run plugin
             [WidgetResizer.MouseDown (mouse 26 0 0); WidgetResizer.MouseUp]))
     = [Engine.mkSetAttribute "width" (Engine.NumberValue 100) None].
Proof. vm_compute. repeat split; reflexivity. Qed.

(** On the page: the context and the resizer of the first widget commit,
    and the model has one change block each time. *)
Lemma commit_writes_once_cancel_never_witness :
  let s := ResizeContext.mkState (context 10 100) document editor in
  let r := Resizer.mkState resizer document editor in
  length (Engine.changes (ResizeContext.editor (snd (ResizeContext.commit s)))) = 1
  /\ length (Engine.changes (Resizer.editor (snd (Resizer.commit r)))) = 1.
Proof.
  intros s r.
  destruct (commit_writes_once_cancel_never s r) as (Hcontext & _ & Hresizer & _).
  split.
  - destruct Hcontext as (shadow & _ & ->); [ vm_compute; reflexivity | ]. reflexivity.
  - destruct Hresizer as (shadow & _ & ->); [ vm_compute; reflexivity | ]. reflexivity.
Defined.



(** C4, as stated, fails: the first image is 100 pixels wide and 0 high and
    its context has no aspect-ratio override; [begin] completes with an
    infinite aspect ratio, the drag starts and [mouseup] commits. *)
Lemma begin_zero_height_starts_drag :
  let s := ResizeContext.mkState (context 10 100) collapsed editor in
  clientHeight (layout collapsed 11) = 0%Z
  /\ ResizeContext.getAspectRatio (ResizeContext.options (context 10 100)) = None
  /\ fst (ResizeContext.begin 16 s) = Normal tt
  /\ ResizeContext.aspectRatio (ResizeContext.this (snd (ResizeContext.begin 16 s)))
     = Some PosInfinity
  /\ WidgetResizer.activeContext
       (WidgetResizer.run collapsed_plugin [WidgetResizer.MouseDown (mouse 16 0 0)]) = Some 0
  /\ Engine.writes
       (WidgetResizer.editor
          (WidgetResizer.run collapsed_plugin
             [WidgetResizer.MouseDown (mouse 16 0 0); WidgetResizer.MouseUp]))
     = [Engine.mkSetAttribute "width" (Engine.NumberValue 100) (Some 1)].
Proof. vm_compute. repeat split; reflexivity. Qed.

(** On the page: [begin] on the collapsed image. *)
Lemma begin_zero_height_completes_witness :
  exists c',
    ResizeContext.begin 16 (ResizeContext.mkState (context 10 100) collapsed editor)
    = (Normal tt,
       ResizeContext.mkState c'
         (set_classList 13 (add "ck-widget__resizer-shadow-active") collapsed) editor)
    /\ ResizeContext.aspectRatio c' = Some PosInfinity.
Proof.
  destruct (begin_zero_height_completes (context 10 100) collapsed editor 16 12 13 11
              "bottom-right")
    as (c' & Hrun & Hratio & _);
    [ reflexivity | reflexivity | reflexivity | reflexivity | reflexivity | reflexivity | ].
  exists c'. split; [ exact Hrun | ]. rewrite Hratio. vm_compute. reflexivity.
Defined.

(** On the page: dragging the bottom-right handle of the first image keeps
    its top-left corner, at (10, 20), as the reference; the image is 100 by
    50, of ratio 2. *)
Lemma begin_captures_reference_geometry_witness :
  exists c',
    ResizeContext.begin 16 (ResizeContext.mkState (context 10 100) document editor)
    = (Normal tt,
       ResizeContext.mkState c'
         (set_classList 13 (add "ck-widget__resizer-shadow-active") document) editor)
    /\ ResizeContext.referenceCoordinates c' = Point.mk (of_Z 10) (of_Z 20)
    /\ ResizeContext.originalSize c' = Point.mk (of_Z 100) (of_Z 50)
    /\ ResizeContext.aspectRatio c' = Some (of_Z 2).
Proof.
  destruct (begin_captures_reference_geometry (context 10 100) document editor 16 12 13 11
              "bottom-right")
    as (q & c' & Hrun & Hq & _ & Hreference & Hsize & Hratio);
    [ reflexivity | reflexivity | reflexivity | reflexivity | ].
  exists c'. split; [ exact Hrun | ].
  injection Hq as <-.
  rewrite Hratio, Hsize, Hreference. vm_compute. repeat split; reflexivity.
Defined.

(** C6, as stated, fails: the context of the first widget is destroyed
    during its drag; at [mouseup] the [commit] throws, and [activeContext]
    is not cleared. *)
Lemma mouseup_after_destroy_keeps_active_context :
  let p1 := WidgetResizer.step plugin (WidgetResizer.MouseDown (mouse 16 0 0)) in
  let p2 := snd (WidgetResizer.call 0 ResizeContext.destroy p1) in
  WidgetResizer.activeContext p2 = Some 0
  /\ fst (WidgetResizer.finishResizing p2) = Throw TypeError
  /\ WidgetResizer.activeContext (snd (WidgetResizer.finishResizing p2)) = Some 0
  /\ WidgetResizer.activeContext (WidgetResizer.step p2 WidgetResizer.MouseUp) <> None.
Proof. vm_compute. repeat split; discriminate. Qed.

(** On the page: [mouseup] after a [mousedown] on a handle, and [mouseup]
    with no drag in progress. *)
Lemma finishResizing_commits_once_witness :
  let p1 := WidgetResizer.step plugin (WidgetResizer.MouseDown (mouse 16 0 0)) in
  WidgetResizer.activeContext p1 = Some 0
  /\ WidgetResizer.activeContext (snd (WidgetResizer.finishResizing p1)) = None
  /\ WidgetResizer.mouseMove (snd (WidgetResizer.finishResizing p1)) = 0
  /\ WidgetResizer.finishResizing plugin = (Normal tt, plugin).
Proof.
  intros p1.
  destruct (finishResizing_commits_once plugin) as [Hidle _].
  destruct (finishResizing_commits_once p1) as [_ Hactive].
  destruct (Hactive 0 (begun (context 10 100) document 16 11 "bottom-right" "top-left"))
    as (Hrun & _); [ vm_compute; reflexivity | vm_compute; reflexivity | ].
  split; [ vm_compute; reflexivity | ].
  rewrite Hrun.
  split; [ vm_compute; reflexivity | split; [ reflexivity | apply Hidle; reflexivity ] ].
Defined.

(** On the page: the overlay of the first widget, redrawn twice. *)
Lemma redraw_idempotent_witness :
  let s := ResizeContext.mkState (context 10 100) document editor in
  let r := Resizer.mkState resizer document editor in
  (exists s1, ResizeContext.redraw s = (Normal tt, s1)
              /\ ResizeContext.redraw s1 = (Normal tt, s1))
  /\ (exists r1, Resizer.redraw r = (Normal tt, r1) /\ Resizer.redraw r1 = (Normal tt, r1)).
Proof.
  intros s r.
  destruct (redraw_idempotent s r) as [Hcontext Hresizer].
  split.
  - apply (Hcontext 12 10 11);
      [ reflexivity | reflexivity | reflexivity | intros f; apply page_layout_stable; lia ].
  - apply (Hresizer 12 10 11);
      [ reflexivity | reflexivity | reflexivity | intros f; apply page_layout_stable; lia ].
Defined.

End OnThePage.

(** * Further properties *)

(** ** What a computation leaves alone *)

Section Frames.
Import Js.
Context {S : Type} (R : S -> S -> Prop) `{!PreOrder R}.

Lemma frames_ret {A} (a : A) : frames R (ret a).
Proof. intros s. reflexivity. Qed.

Lemma frames_throw {A} (e : Error) : frames R (@throw S A e).
Proof. intros s. reflexivity. Qed.

Lemma frames_gets {A} (f : S -> A) : frames R (gets f).
Proof. intros s. reflexivity. Qed.

Lemma frames_get : frames R (@get S).
Proof. intros s. reflexivity. Qed.

Lemma frames_deref {A} (o : option A) : frames R (@deref S A o).
Proof. destruct o; [ apply frames_ret | apply frames_throw ]. Qed.

Lemma frames_lift {A} (c : Completion A) : frames R (@lift S A c).
Proof. intros s. reflexivity. Qed.

Lemma frames_modify (f : S -> S) : (forall s, R s (f s)) -> frames R (modify f).
Proof. intros H s. apply H. Qed.

Lemma frames_bind {A B} (m : M S A) (k : A -> M S B) :
  frames R m -> (forall a, frames R (k a)) -> frames R (bind m k).
Proof.
  intros Hm Hk s. unfold bind. specialize (Hm s).
  destruct (m s) as [[a | e] s']; cbn in *.
  - transitivity s'; [ exact Hm | apply Hk ].
  - exact Hm.
Qed.

Lemma frames_when (c : bool) (m : M S unit) : frames R m -> frames R (when c m).
Proof. intros H. destruct c; [ exact H | apply frames_ret ]. Qed.

End Frames.

(** Splits a method body into its steps. *)
Ltac frames_steps :=
  repeat first
    [ apply frames_bind; [ typeclasses eauto | | intros ? ]
    | first [ apply frames_ret | apply frames_throw | apply frames_gets | apply frames_get
            | apply frames_deref | apply frames_lift ]; typeclasses eauto
    | match goal with |- frames _ (match ?x with _ => _ end) => destruct x end
    | match goal with |- frames _ (if ?x then _ else _) => destruct x end ].

Section ContextFrames.
Context {browser : Dom.Browser} {imports : ResizeContext.Imports}.
Import Js Dom ResizeContext.

#[local] Instance same_identity_preorder : PreOrder same_identity.
Proof.
  split.
  - intros s. reflexivity.
  - intros s1 s2 s3 H12 H23. unfold same_identity in *. congruence.
Qed.

#[local] Instance same_editor_preorder : PreOrder same_editor.
Proof.
  split.
  - intros s. reflexivity.
  - intros s1 s2 s3 H12 H23. unfold same_editor in *. congruence.
Qed.

Lemma getResizeHost_frames (R : State -> State -> Prop) `{!PreOrder R} :
  frames R _getResizeHost.
Proof. unfold _getResizeHost. frames_steps. Qed.

Lemma redraw_frames_identity : frames same_identity redraw.
Proof.
  unfold redraw. frames_steps; try (apply getResizeHost_frames; typeclasses eauto);
    apply frames_modify; intros s; reflexivity.
Qed.

Lemma begin_frames_editor (handler : ElemId) : frames same_editor (begin handler).
Proof.
  unfold begin, strategy. frames_steps; try (apply getResizeHost_frames; typeclasses eauto);
    apply frames_modify; intros s; reflexivity.
Qed.

Lemma begin_frames_identity (handler : ElemId) : frames same_identity (begin handler).
Proof.
  unfold begin, strategy. frames_steps; try (apply getResizeHost_frames; typeclasses eauto);
    apply frames_modify; intros s; reflexivity.
Qed.

Lemma updateSize_frames_editor (data : DomEventData) : frames same_editor (updateSize data).
Proof.
  unfold updateSize, strategy. frames_steps; apply frames_modify; intros s; reflexivity.
Qed.

Lemma updateSize_frames_identity (data : DomEventData) : frames same_identity (updateSize data).
Proof.
  unfold updateSize, strategy. frames_steps; apply frames_modify; intros s; reflexivity.
Qed.

Lemma commit_frames_identity : frames same_identity commit.
Proof.
  unfold commit, _getModel, _dismissShadow, strategy, _cleanupContext.
  frames_steps; try apply redraw_frames_identity;
    apply frames_modify; intros s; reflexivity.
Qed.

Lemma cancel_frames_identity : frames same_identity cancel.
Proof.
  unfold cancel, _dismissShadow, strategy, _cleanupContext.
  frames_steps; apply frames_modify; intros s; reflexivity.
Qed.

End ContextFrames.

(** ** What the plugin's listeners keep *)

Section PluginInvariants.
Context {browser : Dom.Browser} {imports : ResizeContext.Imports}.
Import Js Dom WidgetResizer.

Lemma call_keeps_registry {A} (ref : nat) (method : M ResizeContext.State A) (p : WidgetResizer.t) :
  frames same_identity method -> registry (snd (call ref method p)) = registry p.
Proof.
  intros Hframe. unfold call.
  destruct (contexts p !! ref) as [context|] eqn:Hc; [ | reflexivity ].
  specialize (Hframe (ResizeContext.mkState context (dom p) (editor p))).
  destruct (method _) as [completion s]. cbn in *.
  unfold registry. cbn [contexts].
  rewrite list_fmap_insert. unfold same_identity in Hframe. cbn in Hframe. rewrite Hframe.
  apply list_insert_id. rewrite list_lookup_fmap, Hc. reflexivity.
Qed.

Lemma call_keeps_editor {A} (ref : nat) (method : M ResizeContext.State A) (p : WidgetResizer.t) :
  frames same_editor method -> editor (snd (call ref method p)) = editor p.
Proof.
  intros Hframe. unfold call.
  destruct (contexts p !! ref) as [context|]; [ | reflexivity ].
  specialize (Hframe (ResizeContext.mkState context (dom p) (editor p))).
  destruct (method _) as [completion s]. exact Hframe.
Qed.

Lemma registry_length (p p' : WidgetResizer.t) :
  registry p' = registry p -> length (contexts p') = length (contexts p).
Proof.
  unfold registry. intros H. apply (f_equal length) in H.
  rewrite !length_fmap in H. exact H.
Qed.

(** The [layoutChanged] loop. *)
Lemma redraw_contexts_keeps (count index : nat) (p : WidgetResizer.t) :
  registry (snd (redraw_contexts count index p)) = registry p
  /\ activeContext (snd (redraw_contexts count index p)) = activeContext p
  /\ mouseMove (snd (redraw_contexts count index p)) = mouseMove p
  /\ editor (snd (redraw_contexts count index p)) = editor p.
Proof.
  revert index p. induction count as [| count IH]; intros index p; cbn [redraw_contexts].
  - repeat split.
  - cbv [bind get]. unfold when.
    destruct (match contexts p !! index with
              | Some context =>
                  match ResizeContext.domResizeWrapper context with
                  | Some wrapper => bool_decide (is_Some (parentElement (elem (dom p) wrapper)))
                  | None => false
                  end
              | None => false
              end); [ | apply IH ].
    pose proof (call_keeps_registry index ResizeContext.redraw p redraw_frames_identity) as Hreg.
    pose proof (call_frame index ResizeContext.redraw p) as [Hactive Hmove].
    assert (Hed : editor (snd (call index ResizeContext.redraw p)) = editor p).
    { unfold call. destruct (contexts p !! index) as [context|]; [ | reflexivity ].
      pose proof (redraw_frame (ResizeContext.mkState context (dom p) (editor p))) as [_ H].
      destruct (ResizeContext.redraw _) as [completion s]. exact H. }
    destruct (call index ResizeContext.redraw p) as [[[] | e] p'] eqn:Hcall; cbn in *.
    + destruct (IH (S index) p') as (H1 & H2 & H3 & H4).
      rewrite H1, H2, H3, H4. repeat split; assumption.
    + repeat split; assumption.
Qed.

Lemma commit_editor_cases (s : ResizeContext.State) :
  ResizeContext.editor (snd (ResizeContext.commit s)) = ResizeContext.editor s
  \/ exists block,
      width_block block
      /\ ResizeContext.editor (snd (ResizeContext.commit s))
         = Engine.change block (ResizeContext.editor s).
Proof.
  destruct s as [c d ed]. cbn [ResizeContext.editor].
  destruct (ResizeContext.domResizeShadow c) as [shadow|] eqn:Hs.
  - rewrite (commit_run c d ed shadow Hs).
    pose proof (redraw_frame (ResizeContext.mkState c (dismissed shadow d) ed)) as [_ Hed].
    destruct (ResizeContext.redraw _) as [[[] | e] s2]; cbn in *.
    + right. eexists. split; [ | rewrite Hed; reflexivity ].
      eexists _, _. reflexivity.
    + left. exact Hed.
  - rewrite (commit_unrendered c d ed Hs). left. reflexivity.
Qed.

(** One call of the [mousemove] listener. *)
Lemma mouseMoveListener_keeps (data : DomEventData) (p : WidgetResizer.t) :
  registry (snd (mouseMoveListener data p)) = registry p
  /\ activeContext (snd (mouseMoveListener data p)) = activeContext p
  /\ mouseMove (snd (mouseMoveListener data p)) = mouseMove p
  /\ editor (snd (mouseMoveListener data p)) = editor p.
Proof.
  unfold mouseMoveListener. cbv [bind gets].
  destruct (activeContext p) as [i|] eqn:Hactive; [ | cbn; rewrite Hactive; tauto ].
  pose proof (call_keeps_registry i (ResizeContext.updateSize data) p
                (updateSize_frames_identity data)) as Hreg.
  pose proof (call_frame i (ResizeContext.updateSize data) p) as [Ha Hm].
  pose proof (call_keeps_editor i (ResizeContext.updateSize data) p
                (updateSize_frames_editor data)) as Hed.
  rewrite Ha, Hactive. tauto.
Qed.

(** A firing of the [mousemove] event, however often the listener is
    subscribed. *)
Lemma fire_mouseMoveListener_keeps (subscriptions : nat) (data : DomEventData)
      (p : WidgetResizer.t) :
  registry (snd (fire subscriptions (mouseMoveListener data) p)) = registry p
  /\ activeContext (snd (fire subscriptions (mouseMoveListener data) p)) = activeContext p
  /\ mouseMove (snd (fire subscriptions (mouseMoveListener data) p)) = mouseMove p
  /\ editor (snd (fire subscriptions (mouseMoveListener data) p)) = editor p.
Proof.
  revert p. induction subscriptions as [| n IH]; intros p; cbn [fire]; [ cbn; tauto | ].
  pose proof (mouseMoveListener_keeps data p) as Hone.
  unfold bind. destruct (mouseMoveListener data p) as [[[] | e] p1]; cbn [snd] in Hone |- *.
  - destruct (IH p1) as (H1 & H2 & H3 & H4). destruct Hone as (K1 & K2 & K3 & K4).
    rewrite H1, H2, H3, H4. tauto.
  - exact Hone.
Qed.

(** One event: the contexts stay the contexts they were, the active one
    stays among them, and only a [mouseup] reaches the model. *)
Lemma step_keeps (p : WidgetResizer.t) (event : Event) :
  registry (step p event) = registry p
  /\ (active_registered p -> active_registered (step p event))
  /\ (editor (step p event) = editor p
      \/ event = MouseUp
         /\ exists block, width_block block /\ editor (step p event) = Engine.change block (editor p)).
Proof.
  unfold step. destruct event as [data | data | | ]; cbn [dispatch].
  - (* mousedown *)
    destruct (resizeHandler_of (dom p) (target data)) as [handler|] eqn:Hh.
    + destruct (context_by_wrapper (wrapper_of (dom p) handler) (contexts p) 0)
        as [found | e] eqn:Hfound.
      * rewrite (mousedown_hit data p handler found Hh Hfound).
        destruct found as [i|].
        -- pose proof (call_keeps_registry i (ResizeContext.begin handler)
                         (set_activeContext (Some i) (listenTo p))
                         (begin_frames_identity handler)) as Hreg.
           pose proof (call_frame i (ResizeContext.begin handler)
                         (set_activeContext (Some i) (listenTo p))) as [Hactive _].
           pose proof (call_keeps_editor i (ResizeContext.begin handler)
                         (set_activeContext (Some i) (listenTo p))
                         (begin_frames_editor handler)) as Hed.
           split; [ exact Hreg | split; [ | left; exact Hed ] ].
           intros _. unfold active_registered. rewrite Hactive. cbn [activeContext set_activeContext].
           rewrite (registry_length _ _ Hreg). cbn [contexts set_activeContext set_mouseMove listenTo stopListening].
           apply context_by_wrapper_bound in Hfound. cbn in Hfound. lia.
        -- cbn. repeat split. left. reflexivity.
      * rewrite (mousedown_lookup_throws data p handler e Hh Hfound). cbn.
        split; [ reflexivity | split; [ intros H; exact H | left; reflexivity ] ].
    + rewrite (mousedown_miss data p Hh).
      split; [ reflexivity | split; [ intros H; exact H | left; reflexivity ] ].
  - (* mousemove *)
    cbv [bind gets].
    destruct (fire_mouseMoveListener_keeps (mouseMove p) data p) as (Hreg & Ha & _ & Hed).
    split; [ exact Hreg | split; [ | left; exact Hed ] ].
    unfold active_registered. rewrite Ha, (registry_length _ _ Hreg). tauto.
  - (* mouseup *)
    destruct (activeContext p) as [i|] eqn:Hactive.
    + rewrite (finishResizing_run p i Hactive).
      pose proof (call_keeps_registry i ResizeContext.commit (stopListening p)
                    commit_frames_identity) as Hreg.
      pose proof (call_frame i ResizeContext.commit (stopListening p)) as [Ha _].
      assert (Hed : editor (snd (call i ResizeContext.commit (stopListening p))) = editor p
                    \/ exists block,
                        width_block block
                        /\ editor (snd (call i ResizeContext.commit (stopListening p)))
                           = Engine.change block (editor p)).
      { unfold call. cbn [contexts dom editor set_mouseMove listenTo stopListening].
        destruct (contexts p !! i) as [context|]; [ | left; reflexivity ].
        pose proof (commit_editor_cases (ResizeContext.mkState context (dom p) (editor p))) as H.
        destruct (ResizeContext.commit _) as [completion s]. exact H. }
      destruct (call i ResizeContext.commit (stopListening p)) as [[[] | e] p'] eqn:Hcall;
        cbn in *.
      * split; [ exact Hreg | split; [ intros _; exact I | ] ].
        destruct Hed as [Hed | Hed]; [ left; exact Hed | right; split; [ reflexivity | exact Hed ] ].
      * split; [ exact Hreg | split ].
        -- unfold active_registered. rewrite Ha, (registry_length _ _ Hreg). cbn.
           rewrite Hactive. tauto.
        -- destruct Hed as [Hed | Hed]; [ left; exact Hed | right; split; [ reflexivity | exact Hed ] ].
    + rewrite (finishResizing_idle p Hactive).
      split; [ reflexivity | split; [ intros H; exact H | left; reflexivity ] ].
  - (* layoutChanged *)
    unfold layoutChanged. cbv [bind get].
    destruct (redraw_contexts_keeps (length (contexts p)) 0 p) as (Hreg & Ha & _ & Hed).
    split; [ exact Hreg | split; [ | left; exact Hed ] ].
    unfold active_registered. rewrite Ha, (registry_length _ _ Hreg). tauto.
Qed.

(** X1: over any sequence of mouse and layout events the listeners never
    add, drop or re-bind a context (each keeps its view elements, its
    overlay elements and its options), and the active context stays one of
    the plugin's contexts. *)
Theorem listeners_keep_registry (events : list Event) (p : WidgetResizer.t) :
  active_registered p ->
  registry (run p events) = registry p /\ active_registered (run p events).
Proof.
  unfold run. revert p. induction events as [| event events IH]; intros p Hactive; cbn [fold_left].
  - split; [ reflexivity | exact Hactive ].
  - destruct (step_keeps p event) as (Hreg & Hkeep & _).
    destruct (IH (step p event) (Hkeep Hactive)) as [Hreg' Hactive'].
    split; [ rewrite Hreg', Hreg; reflexivity | exact Hactive' ].
Qed.

(** X2: the listeners hand the model nothing except at [mouseup]: after any
    sequence of events the model has its earlier change blocks, followed by
    at most one new block per [mouseup], each one [setAttribute] call for
    the width; the mapper is untouched. *)
Theorem model_written_at_mouseup_only (events : list Event) (p : WidgetResizer.t) :
  exists blocks,
    editor (run p events)
    = Engine.mkEditor (Engine.toModelElement (editor p)) (Engine.changes (editor p) ++ blocks)
    /\ length blocks <= mouseups events
    /\ Forall width_block blocks.
Proof.
  unfold run. revert p. induction events as [| event events IH]; intros p; cbn [fold_left].
  - exists []. rewrite app_nil_r. destruct (editor p). repeat split; [ cbn; lia | constructor ].
  - destruct (IH (step p event)) as (blocks & Hed & Hlen & Hall).
    destruct (step_keeps p event) as (_ & _ & [Hsame | (-> & block & Hblock & Hchange)]).
    + exists blocks. rewrite Hed, Hsame. split; [ reflexivity | split; [ | exact Hall ] ].
      unfold mouseups in *. cbn [List.filter]. destruct (is_mouseup event); cbn; lia.
    + exists (block :: blocks). rewrite Hed, Hchange. cbn [Engine.change Engine.toModelElement Engine.changes].
      split; [ rewrite <- app_assoc; reflexivity | split ].
      * unfold mouseups in *. cbn. lia.
      * constructor; assumption.
Qed.

End PluginInvariants.

(** ** Routing a [mousedown] *)

Section Routing.
Context {browser : Dom.Browser} {imports : ResizeContext.Imports}.
Import Js Dom WidgetResizer.

Lemma isSameNode_spec (a : ElemId) (b : option ElemId) :
  ResizeContext.isSameNode a b = true <-> b = Some a.
Proof.
  unfold ResizeContext.isSameNode. destruct b as [b|]; [ | split; discriminate ].
  rewrite Nat.eqb_eq. split; congruence.
Qed.

Lemma context_by_wrapper_spec (wrapper : ElemId) (rest : list ResizeContext.t) (index : nat) :
  match context_by_wrapper (Some wrapper) rest index with
  | Normal (Some found) =>
      exists k c,
        found = index + k
        /\ rest !! k = Some c
        /\ ResizeContext.domResizeWrapper c = Some wrapper
        /\ forall j c', j < k -> rest !! j = Some c' ->
                        ResizeContext.domResizeWrapper c' <> Some wrapper
  | Normal None =>
      forall j c', rest !! j = Some c' -> ResizeContext.domResizeWrapper c' <> Some wrapper
  | Throw _ => False
  end.
Proof.
  revert index. induction rest as [| context rest IH]; intros index; cbn [context_by_wrapper].
  - intros j c' H. rewrite lookup_nil in H. discriminate H.
  - destruct (ResizeContext.isSameNode wrapper (ResizeContext.domResizeWrapper context)) eqn:Hsame.
    + apply isSameNode_spec in Hsame.
      exists 0, context. repeat split; [ lia | exact Hsame | intros j c' Hj; lia ].
    + assert (Hne : ResizeContext.domResizeWrapper context <> Some wrapper).
      { intros H. apply isSameNode_spec in H. congruence. }
      specialize (IH (S index)).
      destruct (context_by_wrapper (Some wrapper) rest (S index)) as [[found|] | e];
        [ | | exact IH ].
      * destruct IH as (k & c & -> & Hk & Hw & Hfirst).
        exists (S k), c. repeat split; [ lia | exact Hk | exact Hw | ].
        intros [| j] c' Hj Hc'; cbn in Hc'.
        -- injection Hc' as <-. exact Hne.
        -- apply (Hfirst j c'); [ lia | exact Hc' ].
      * intros [| j] c' Hc'; cbn in Hc'.
        -- injection Hc' as <-. exact Hne.
        -- exact (IH j c' Hc').
Qed.

(** X3: [_getContextByWrapper] returns the first of the plugin's contexts
    whose [domResizeWrapper] is the given element, [undefined] when no
    context has it, and never throws for an element; handed [undefined] it
    throws a [TypeError], unless there is no context at all to compare
    with. *)
Theorem getContextByWrapper_first_match (p : WidgetResizer.t) (wrapper : ElemId) :
  match fst (_getContextByWrapper (Some wrapper) p) with
  | Normal (Some i) =>
      (exists c, contexts p !! i = Some c /\ ResizeContext.domResizeWrapper c = Some wrapper)
      /\ forall j c', j < i -> contexts p !! j = Some c' ->
                      ResizeContext.domResizeWrapper c' <> Some wrapper
  | Normal None =>
      forall j c', contexts p !! j = Some c' -> ResizeContext.domResizeWrapper c' <> Some wrapper
  | Throw _ => False
  end
  /\ fst (_getContextByWrapper None p)
     = match contexts p with
       | [] => Normal None
       | _ :: _ => Throw TypeError
       end
  /\ snd (_getContextByWrapper (Some wrapper) p) = p
  /\ snd (_getContextByWrapper None p) = p.
Proof.
  unfold _getContextByWrapper. cbv [bind get lift]. cbn [fst snd].
  split; [ | split; [ destruct (contexts p); reflexivity | split; reflexivity ] ].
  pose proof (context_by_wrapper_spec wrapper (contexts p) 0) as H.
  destruct (context_by_wrapper (Some wrapper) (contexts p) 0) as [[found|] | e]; [ | exact H | exact H ].
  destruct H as (k & c & -> & Hk & Hw & Hfirst). cbn.
  split; [ exists c; split; assumption | exact Hfirst ].
Qed.

Lemma ancestors_from_keeps (d : Dom.t) (fuel : nat) (node : ElemId) (nodes : list ElemId) (x : ElemId) :
  In x nodes -> In x (ancestors_from fuel d node nodes).
Proof.
  revert node nodes. induction fuel as [| fuel IH]; intros node nodes Hx; cbn [ancestors_from].
  - exact Hx.
  - destruct (parentElement (elem d node)) as [parent|].
    + apply IH. right. exact Hx.
    + right. exact Hx.
Qed.

(** A node is among its own ancestors, as [getAncestors] lists them. *)
Lemma getAncestors_self (d : Dom.t) (node : ElemId) : In node (getAncestors d node).
Proof.
  unfold getAncestors. cbn [ancestors_from].
  destruct (parentElement (elem d node)) as [parent|].
  - apply ancestors_from_keeps. left. reflexivity.
  - left. reflexivity.
Qed.

Lemma head_filter_Some {A} (f : A -> bool) (l : list A) (x : A) :
  head (List.filter f l) = Some x -> In x l /\ f x = true.
Proof.
  intros H. destruct (List.filter f l) as [| y rest] eqn:Hf; [ discriminate H | ].
  injection H as ->. apply filter_In. rewrite Hf. left. reflexivity.
Qed.

Lemma head_filter_None {A} (f : A -> bool) (l : list A) :
  head (List.filter f l) = None <-> forall x, In x l -> f x = false.
Proof.
  split.
  - intros H x Hx. destruct (f x) eqn:Hfx; [ | reflexivity ].
    assert (Hin : In x (List.filter f l)) by (apply filter_In; split; assumption).
    destruct (List.filter f l); [ destruct Hin | discriminate H ].
  - intros H. destruct (List.filter f l) as [| y rest] eqn:Hf; [ reflexivity | ].
    assert (Hy : In y (List.filter f l)) by (rewrite Hf; left; reflexivity).
    apply filter_In in Hy as [Hy Hfy]. rewrite (H y Hy) in Hfy. discriminate Hfy.
Qed.

(** X4: the element a [mousedown] is taken to hit is a resize handle, and
    is the target itself or one of its ancestors; there is no hit exactly
    when neither the target nor any of its ancestors is a resize handle. *)
Theorem resizeHandler_hit_or_miss (d : Dom.t) (target : ElemId) :
  (forall handler,
      resizeHandler_of d target = Some handler ->
      isResizeHandler (elem d handler) = true /\ In handler (getAncestors d target))
  /\ (resizeHandler_of d target = None <->
      forall x, In x (getAncestors d target) -> isResizeHandler (elem d x) = false).
Proof.
  unfold resizeHandler_of. split.
  - intros handler H. destruct (isResizeHandler (elem d target)) eqn:Htarget.
    + injection H as <-. split; [ exact Htarget | apply getAncestors_self ].
    + apply head_filter_Some in H as [Hin Hf]. split; assumption.
  - destruct (isResizeHandler (elem d target)) eqn:Htarget.
    + split; [ discriminate | ].
      intros H. rewrite (H target (getAncestors_self d target)) in Htarget. discriminate Htarget.
    + apply (head_filter_None (fun element => isResizeHandler (elem d element))).
Qed.

(** With no context active, a [mousemove] does nothing, however often the
    listener is subscribed. *)
Lemma fire_idle (subscriptions : nat) (data : DomEventData) (p : WidgetResizer.t) :
  activeContext p = None ->
  fire subscriptions (mouseMoveListener data) p = (Normal tt, p).
Proof.
  intros Hidle.
  assert (Hone : mouseMoveListener data p = (Normal tt, p)).
  { unfold mouseMoveListener. cbv [bind gets]. rewrite Hidle. reflexivity. }
  induction subscriptions as [| n IH]; cbn [fire]; [ reflexivity | ].
  unfold bind. rewrite Hone. exact IH.
Qed.

(** X5: after a [mousedown] on a resize handle that belongs to none of the
    plugin's contexts, no context is active, yet the [mousemove] listener is
    subscribed once more; a following [mouseup] or [mousemove] changes
    nothing, so the listener stays subscribed. *)
Theorem orphan_handle_leaves_listener (p : WidgetResizer.t) (data : DomEventData)
      (handler : ElemId) :
  resizeHandler_of (dom p) (target data) = Some handler ->
  fst (_getContextByHandler handler p) = Normal None ->
  let p1 := step p (MouseDown data) in
  p1 = set_activeContext None (listenTo p)
  /\ step p1 MouseUp = p1
  /\ forall data', step p1 (MouseMove data') = p1.
Proof.
  intros Hh Hfound p1.
  rewrite getContextByHandler_run in Hfound. cbn [fst] in Hfound.
  assert (Hp1 : p1 = set_activeContext None (listenTo p)).
  { unfold p1, step. cbn [dispatch]. rewrite (mousedown_hit data p handler None Hh Hfound).
    reflexivity. }
  split; [ exact Hp1 | ].
  rewrite Hp1. split; [ reflexivity | ].
  intros data'. unfold step. cbn [dispatch]. cbv [bind gets].
  rewrite fire_idle by reflexivity. reflexivity.
Qed.

End Routing.

(** ** The life of a drag on a context *)

Section Lifecycle.
Context {browser : Dom.Browser} {imports : ResizeContext.Imports}.
Import Js Dom ResizeContext.

Lemma begin_no_wrapper (c : ResizeContext.t) (d : Dom.t) (ed : Engine.Editor) (handler : ElemId) :
  domResizeWrapper c = None ->
  begin handler (mkState c d ed) = (Throw TypeError, mkState c d ed).
Proof.
  intros Hw. unfold begin. unfold bind at 1. rewrite (getResizeHost_null c d ed Hw). reflexivity.
Qed.

Lemma begin_no_shadow (c : ResizeContext.t) (d : Dom.t) (ed : Engine.Editor) (handler : ElemId) :
  domResizeShadow c = None ->
  begin handler (mkState c d ed) = (Throw TypeError, mkState c d ed).
Proof.
  intros Hs. destruct (domResizeWrapper c) as [wrapper|] eqn:Hw.
  - unfold begin. unfold bind at 1. rewrite (getResizeHost_run c d ed wrapper Hw).
    cbv [bind gets deref throw]. cbn [this]. rewrite Hs. reflexivity.
  - apply begin_no_wrapper. exact Hw.
Qed.

Lemma begin_no_host (c : ResizeContext.t) (d : Dom.t) (ed : Engine.Editor)
      (handler wrapper shadow : ElemId) (p : string) :
  domResizeWrapper c = Some wrapper ->
  domResizeShadow c = Some shadow ->
  match getResizeHost (options c) with
  | Some f => f (parentElement (elem d wrapper))
  | None => parentElement (elem d wrapper)
  end = None ->
  _getResizerPosition (elem d handler) = Some p ->
  fst (begin handler (mkState c d ed)) = Throw TypeError.
Proof.
  intros Hw Hs Hh Hp.
  unfold begin. unfold bind at 1. rewrite (getResizeHost_run c d ed wrapper Hw), Hh.
  cbv [bind gets deref ret throw modify_dom modify_this modify lift strategy].
  cbn [this dom editor]. rewrite Hs. cbn [this dom editor].
  rewrite !getResizerPosition_shadow_active, Hp. reflexivity.
Qed.

(** X6: [begin] completes exactly when the overlay is there (wrapper and
    shadow), the wrapper's parent gives a resize host, and the handle
    carries the class of one of the four positions; in every other case it
    throws. *)
Theorem begin_completes_iff (c : ResizeContext.t) (d : Dom.t) (ed : Engine.Editor)
      (handler : ElemId) :
  fst (begin handler (mkState c d ed)) = Normal tt
  <-> exists wrapper shadow host p,
      domResizeWrapper c = Some wrapper
      /\ domResizeShadow c = Some shadow
      /\ match getResizeHost (options c) with
         | Some f => f (parentElement (elem d wrapper))
         | None => parentElement (elem d wrapper)
         end = Some host
      /\ _getResizerPosition (elem d handler) = Some p.
Proof.
  split.
  - intros Hrun.
    destruct (domResizeWrapper c) as [wrapper|] eqn:Hw;
      [ | rewrite (begin_no_wrapper c d ed handler Hw) in Hrun; discriminate Hrun ].
    destruct (domResizeShadow c) as [shadow|] eqn:Hs;
      [ | rewrite (begin_no_shadow c d ed handler Hs) in Hrun; discriminate Hrun ].
    destruct (_getResizerPosition (elem d handler)) as [p|] eqn:Hp;
      [ | rewrite (begin_unknown_handle c d ed handler wrapper shadow Hw Hs Hp) in Hrun;
          discriminate Hrun ].
    destruct (match getResizeHost (options c) with
              | Some f => f (parentElement (elem d wrapper))
              | None => parentElement (elem d wrapper)
              end) as [host|] eqn:Hh;
      [ | rewrite (begin_no_host c d ed handler wrapper shadow p Hw Hs Hh Hp) in Hrun;
          discriminate Hrun ].
    exists wrapper, shadow, host, p. repeat split; assumption || reflexivity.
  - intros (wrapper & shadow & host & p & Hw & Hs & Hh & Hp).
    destruct (invertPosition_of_valid p (getResizerPosition_valid _ _ Hp)) as (q & Hq & _).
    rewrite (begin_run c d ed handler wrapper shadow host p q Hw Hs Hh Hp Hq). reflexivity.
Qed.

Lemma remove_add_absent (token : string) (tokens : list string) :
  contains tokens token = false -> remove token (add token tokens) = tokens.
Proof.
  intros Habsent. unfold add. rewrite Habsent. unfold remove.
  rewrite List.filter_app. cbn. rewrite String.eqb_refl. cbn. rewrite app_nil_r.
  unfold contains in Habsent.
  induction tokens as [| t tokens IH]; [ reflexivity | ].
  cbn in Habsent. apply orb_false_elim in Habsent as [Ht Hrest].
  cbn. rewrite Ht. cbn. rewrite (IH Hrest). reflexivity.
Qed.

Lemma set_classList_set_classList (id : ElemId) (f g : list string -> list string) (d : Dom.t) :
  set_classList id g (set_classList id f d) = set_classList id (fun l => g (f l)) d.
Proof.
  unfold set_classList, update at 1. rewrite elem_update_eq.
  cbn [classList parentElement style inDocument].
  unfold update. rewrite insert_insert_eq. reflexivity.
Qed.

Lemma set_style_set_classList (id : ElemId) (f : list string -> list string)
      (g : Style.t -> Style.t) (d : Dom.t) :
  set_style id g (set_classList id f d)
  = update id (fun e => mkElement (f (classList e)) (parentElement e) (g (style e)) (inDocument e)) d.
Proof.
  unfold set_style, set_classList, update at 1. rewrite elem_update_eq.
  cbn [classList parentElement style inDocument].
  unfold update. rewrite insert_insert_eq. reflexivity.
Qed.

(** X7: a [begin] followed by a [cancel] leaves the page as it was before
    the drag, but for the inline style of the shadow, which is cleared: no
    other element has changed, the shadow has its classes back, nothing has
    been handed to the model, the observable properties are [null] again.
    The strategy has seen [begin] and [cancel]; the geometry captured by
    [begin] stays in the context. *)
Theorem begin_cancel_restores (c : ResizeContext.t) (d : Dom.t) (ed : Engine.Editor)
      (handler wrapper shadow host : ElemId) (p : string) :
  domResizeWrapper c = Some wrapper ->
  domResizeShadow c = Some shadow ->
  match getResizeHost (options c) with
  | Some f => f (parentElement (elem d wrapper))
  | None => parentElement (elem d wrapper)
  end = Some host ->
  _getResizerPosition (elem d handler) = Some p ->
  contains (classList (elem d shadow)) "ck-widget__resizer-shadow-active" = false ->
  exists s1 c2 d2,
    begin handler (mkState c d ed) = (Normal tt, s1)
    /\ cancel s1 = (Normal tt, mkState c2 d2 ed)
    /\ d2 = set_style shadow (fun _ => Style.empty) d
    /\ proposedX c2 = None /\ proposedY c2 = None
    /\ orientation c2 = None /\ referenceHandlerPosition c2 = None
    /\ resizeStrategy c2 = resizeStrategy c ++ [StrategyBegin handler; StrategyCancel]
    /\ identity c2 = identity c
    /\ referenceCoordinates c2 = referenceCoordinates (this s1)
    /\ originalSize c2 = originalSize (this s1)
    /\ aspectRatio c2 = aspectRatio (this s1).
Proof.
  intros Hw Hs Hh Hp Hidle.
  destruct (invertPosition_of_valid p (getResizerPosition_valid _ _ Hp)) as (q & Hq & _).
  pose proof (begin_run c d ed handler wrapper shadow host p q Hw Hs Hh Hp Hq) as Hbegin.
  cbv zeta in Hbegin.
  eexists _, _, _. split; [ exact Hbegin | ].
  split; [ apply cancel_run; exact Hs | ].
  split.
  - unfold dismissed. rewrite set_classList_set_classList, set_style_set_classList.
    unfold set_style, update. rewrite remove_add_absent by exact Hidle. reflexivity.
  - unfold cleaned, begun. cbn -[app]. rewrite <- app_assoc. repeat split.
Qed.

(** X8: [destroy] completes where the shadow exists, hands the model
    nothing and forgets the shadow but not the wrapper.  On the destroyed
    context [destroy], [cancel], [commit] and [begin] all throw and change
    nothing. *)
Theorem destroy_disables_context (c : ResizeContext.t) (d : Dom.t) (ed : Engine.Editor)
      (shadow : ElemId) :
  domResizeShadow c = Some shadow ->
  exists c1,
    destroy (mkState c d ed) = (Normal tt, mkState c1 (dismissed shadow d) ed)
    /\ domResizeShadow c1 = None
    /\ domResizeWrapper c1 = domResizeWrapper c
    /\ resizeStrategy c1 = resizeStrategy c ++ [StrategyCancel]
    /\ forall d1,
        let s1 := mkState c1 d1 ed in
        destroy s1 = (Throw TypeError, s1)
        /\ cancel s1 = (Throw TypeError, s1)
        /\ commit s1 = (Throw TypeError, s1)
        /\ forall handler, begin handler s1 = (Throw TypeError, s1).
Proof.
  intros Hs.
  exists (set_domResizeShadow None
            (cleaned (set_resizeStrategy (resizeStrategy c ++ [StrategyCancel]) c))).
  split.
  - unfold destroy. unfold bind. rewrite (cancel_run c d ed shadow Hs). reflexivity.
  - split; [ reflexivity | split; [ reflexivity | split; [ reflexivity | ] ] ].
    intros d1 s1.
    assert (Hnone : domResizeShadow (this s1) = None) by reflexivity.
    split; [ | split; [ | split ] ].
    + unfold destroy. unfold bind. unfold s1. rewrite cancel_unrendered by reflexivity. reflexivity.
    + apply cancel_unrendered. reflexivity.
    + apply commit_unrendered. reflexivity.
    + intros handler. apply begin_no_shadow. reflexivity.
Qed.

(** X9: a context that has just been constructed, before its overlay is
    rendered, has neither wrapper nor shadow: [redraw] does nothing on it,
    and [begin], [commit], [cancel] and [destroy] throw and change nothing;
    so does [updateSize], once it has called the strategy. *)
Theorem unrendered_context_is_inert (opts : option Options) (d : Dom.t) (ed : Engine.Editor)
      (handler : ElemId) (data : DomEventData) :
  let s := mkState (create opts) d ed in
  options (create opts) = default (mkOptions None None) opts
  /\ redraw s = (Normal tt, s)
  /\ begin handler s = (Throw TypeError, s)
  /\ commit s = (Throw TypeError, s)
  /\ cancel s = (Throw TypeError, s)
  /\ destroy s = (Throw TypeError, s)
  /\ updateSize data s
     = (Throw TypeError,
        mkState (set_resizeStrategy [StrategyUpdateSize data] (create opts)) d ed).
Proof.
  intros s. split; [ reflexivity | ].
  split; [ apply redraw_unrendered; reflexivity | ].
  split; [ apply begin_no_wrapper; reflexivity | ].
  split; [ apply commit_unrendered; reflexivity | ].
  split; [ apply cancel_unrendered; reflexivity | ].
  split; [ | reflexivity ].
  unfold destroy. unfold bind. unfold s. rewrite cancel_unrendered by reflexivity. reflexivity.
Qed.

Ltac unchanged :=
  split; [ intros _; reflexivity | split; [ reflexivity | split; [ reflexivity | left; reflexivity ] ] ].

(** X10: [redraw] writes nothing but the inline style of the overlay's
    wrapper, and writes it in full or not at all: when it throws, the state
    is the one it started in. *)
Theorem redraw_atomic_and_local (s : State) :
  (fst (redraw s) <> Normal tt -> snd (redraw s) = s)
  /\ this (snd (redraw s)) = this s
  /\ editor (snd (redraw s)) = editor s
  /\ (dom (snd (redraw s)) = dom s
      \/ exists wrapper f,
          domResizeWrapper (this s) = Some wrapper
          /\ dom (snd (redraw s)) = set_style wrapper f (dom s)).
Proof.
  destruct s as [c d ed]. unfold redraw. cbv [bind gets ret this dom].
  destruct (domResizeWrapper c) as [wrapper|] eqn:Hw; [ | cbn [fst snd this dom editor]; unchanged ].
  rewrite (getResizeHost_run c d ed wrapper Hw).
  cbv [deref ret throw].
  destruct (parentElement (elem d wrapper)) as [widget|]; [ | cbn [fst snd this dom editor]; unchanged ].
  destruct (isSameNode widget _); [ cbn [fst snd this dom editor]; unchanged | ].
  destruct (match getResizeHost (options c) with
            | Some f => f (Some widget)
            | None => Some widget
            end) as [host|]; [ | cbn [fst snd this dom editor]; unchanged ].
  cbv [modify_dom modify]. cbn [this dom editor fst snd].
  split; [ intros H; exfalso; apply H; reflexivity | ].
  split; [ reflexivity | split; [ reflexivity | right ] ].
  exists wrapper. eexists. split; [ reflexivity | ].
  rewrite !set_style_set_style. reflexivity.
Qed.

End Lifecycle.

(** ** Moves, and the end of a drag *)

Section Moves.
Context {browser : Dom.Browser} {imports : ResizeContext.Imports}.
Import Js Dom WidgetResizer.

(** One call of the [mousemove] listener during a drag. *)
Lemma mouseMoveListener_run (p : WidgetResizer.t) (data : DomEventData) (i : nat)
      (c : ResizeContext.t) (wrapper : ElemId) :
  activeContext p = Some i ->
  contexts p !! i = Some c ->
  ResizeContext.domResizeWrapper c = Some wrapper ->
  exists c' d',
    mouseMoveListener data p
    = (Normal tt, mk (<[i := c']> (contexts p)) (Some i) (mouseMove p) d' (editor p))
    /\ ResizeContext.resizeStrategy c'
       = ResizeContext.resizeStrategy c ++ [ResizeContext.StrategyUpdateSize data]
    /\ ResizeContext.domResizeWrapper c' = Some wrapper.
Proof.
  intros Hactive Hc Hw.
  eexists _, _. split.
  - unfold mouseMoveListener. cbv [bind gets]. rewrite Hactive.
    rewrite (call_run i _ _ c) by exact Hc.
    rewrite (context_updateSize_run c (dom p) (editor p) data wrapper Hw).
    cbn [fst snd ResizeContext.this ResizeContext.dom ResizeContext.editor].
    rewrite Hactive. reflexivity.
  - split; [ reflexivity | exact Hw ].
Qed.

(** A firing of [mousemove] during a drag: the listener runs once per
    subscription. *)
Lemma fire_mouseMoveListener_run (subscriptions : nat) (p : WidgetResizer.t)
      (data : DomEventData) (i : nat) (c : ResizeContext.t) (wrapper : ElemId) :
  activeContext p = Some i ->
  contexts p !! i = Some c ->
  ResizeContext.domResizeWrapper c = Some wrapper ->
  exists c' d',
    fire subscriptions (mouseMoveListener data) p
    = (Normal tt, mk (<[i := c']> (contexts p)) (Some i) (mouseMove p) d' (editor p))
    /\ ResizeContext.resizeStrategy c'
       = ResizeContext.resizeStrategy c
         ++ replicate subscriptions (ResizeContext.StrategyUpdateSize data)
    /\ ResizeContext.domResizeWrapper c' = Some wrapper.
Proof.
  revert p c. induction subscriptions as [| n IH]; intros p c Hactive Hc Hw; cbn [fire].
  - exists c, (dom p). split; [ | split; [ cbn; rewrite app_nil_r; reflexivity | exact Hw ] ].
    rewrite (list_insert_id _ _ _ Hc), <- Hactive. destruct p. reflexivity.
  - destruct (mouseMoveListener_run p data i c wrapper Hactive Hc Hw) as (c1 & d1 & Hone & Hlog & Hw1).
    assert (Hi : i < length (contexts p)) by (apply lookup_lt_Some in Hc; exact Hc).
    unfold bind. rewrite Hone.
    destruct (IH (mk (<[i := c1]> (contexts p)) (Some i) (mouseMove p) d1 (editor p)) c1)
      as (c' & d' & Hrest & Hlog' & Hw').
    + reflexivity.
    + cbn [contexts]. apply list_lookup_insert_eq. exact Hi.
    + exact Hw1.
    + exists c', d'. rewrite Hrest. cbn [contexts mouseMove editor].
      rewrite list_insert_insert_eq.
      split; [ reflexivity | split; [ | exact Hw' ] ].
      rewrite Hlog', Hlog, <- app_assoc. reflexivity.
Qed.

Lemma mousemove_step (p : WidgetResizer.t) (data : DomEventData) (i : nat)
      (c : ResizeContext.t) (wrapper : ElemId) :
  activeContext p = Some i ->
  contexts p !! i = Some c ->
  ResizeContext.domResizeWrapper c = Some wrapper ->
  exists c' d',
    step p (MouseMove data) = mk (<[i := c']> (contexts p)) (Some i) (mouseMove p) d' (editor p)
    /\ ResizeContext.resizeStrategy c'
       = ResizeContext.resizeStrategy c
         ++ replicate (mouseMove p) (ResizeContext.StrategyUpdateSize data)
    /\ ResizeContext.domResizeWrapper c' = Some wrapper.
Proof.
  intros Hactive Hc Hw.
  destruct (fire_mouseMoveListener_run (mouseMove p) p data i c wrapper Hactive Hc Hw)
    as (c' & d' & Hfire & Hlog & Hw').
  exists c', d'. split; [ | split; [ exact Hlog | exact Hw' ] ].
  unfold step. cbn [dispatch]. cbv [bind gets]. rewrite Hfire. reflexivity.
Qed.

(** X11: during a drag every [mousemove] is forwarded to the active
    context, in the order of arrival, once per subscription of the
    listener: after any number of moves the strategy of the active context
    has received, for each move in turn, as many [updateSize] calls as there
    are subscriptions, one per [mousedown] on a handle since the last
    [mouseup] of a drag; the context stays active, the subscriptions are
    kept, the other contexts and the model untouched. *)
Theorem moves_forwarded_in_order (datas : list DomEventData) (p : WidgetResizer.t) (i : nat)
      (c : ResizeContext.t) (wrapper : ElemId) :
  activeContext p = Some i ->
  contexts p !! i = Some c ->
  ResizeContext.domResizeWrapper c = Some wrapper ->
  let p' := run p (MouseMove <$> datas) in
  activeContext p' = Some i
  /\ mouseMove p' = mouseMove p
  /\ editor p' = editor p
  /\ (forall j, j <> i -> contexts p' !! j = contexts p !! j)
  /\ exists c',
      contexts p' !! i = Some c'
      /\ ResizeContext.resizeStrategy c'
         = ResizeContext.resizeStrategy c
           ++ flat_map (fun data => replicate (mouseMove p) (ResizeContext.StrategyUpdateSize data))
                       datas.
Proof.
  revert p c. induction datas as [| data datas IH]; intros p c Hactive Hc Hw p'.
  - subst p'. cbn. repeat split; try assumption.
    exists c. rewrite app_nil_r. split; [ exact Hc | reflexivity ].
  - subst p'. cbn [fmap list_fmap run fold_left flat_map].
    destruct (mousemove_step p data i c wrapper Hactive Hc Hw) as (c1 & d1 & Hstep & Hlog & Hw1).
    assert (Hi : i < length (contexts p)) by (apply lookup_lt_Some in Hc; exact Hc).
    destruct (IH (step p (MouseMove data)) c1) as (Ha & Hm & He & Hothers & c' & Hc' & Hlog').
    + rewrite Hstep. reflexivity.
    + rewrite Hstep. cbn [contexts]. apply list_lookup_insert_eq. exact Hi.
    + exact Hw1.
    + unfold run in *. split; [ exact Ha | split; [ | split; [ | split ] ] ].
      * rewrite Hm, Hstep. reflexivity.
      * rewrite He, Hstep. reflexivity.
      * intros j Hj. rewrite (Hothers j Hj), Hstep. cbn [contexts].
        apply list_lookup_insert_ne. congruence.
      * exists c'. split; [ exact Hc' | ].
        rewrite Hlog', Hlog, <- app_assoc. rewrite Hstep. reflexivity.
Qed.

(** X12: a [mouseup] while the active context has no shadow (it was
    destroyed during the drag) throws out of [commit]: the [mousemove]
    listener is unsubscribed, but nothing is handed to the model and
    [activeContext] keeps referring to that context. *)
Theorem mouseup_without_shadow (p : WidgetResizer.t) (i : nat) (c : ResizeContext.t) :
  activeContext p = Some i ->
  contexts p !! i = Some c ->
  ResizeContext.domResizeShadow c = None ->
  fst (finishResizing p) = Throw TypeError
  /\ step p MouseUp = stopListening p
  /\ activeContext (step p MouseUp) = Some i.
Proof.
  intros Hactive Hc Hs.
  assert (Hrun : finishResizing p = (Throw TypeError, stopListening p)).
  { rewrite (finishResizing_run p i Hactive).
    rewrite (call_run i _ _ c) by exact Hc.
    cbn [dom editor contexts set_mouseMove listenTo stopListening].
    rewrite (commit_unrendered c (dom p) (editor p) Hs).
    cbn [fst snd ResizeContext.this ResizeContext.dom ResizeContext.editor].
    rewrite (list_insert_id _ _ _ Hc). reflexivity. }
  unfold step. cbn [dispatch]. rewrite Hrun.
  split; [ reflexivity | split; [ reflexivity | exact Hactive ] ].
Qed.

(** X13: [layoutChanged] skips the contexts whose overlay is not rendered
    or not mounted: when no context has a wrapper with a parent element,
    the listener completes and changes nothing. *)
Theorem layoutChanged_skips_unmounted (p : WidgetResizer.t) :
  (forall i c wrapper,
      contexts p !! i = Some c ->
      ResizeContext.domResizeWrapper c = Some wrapper ->
      parentElement (elem (dom p) wrapper) = None) ->
  layoutChanged p = (Normal tt, p).
Proof.
  intros Hunmounted. unfold layoutChanged. cbv [bind get].
  generalize (length (contexts p)). generalize 0.
  intros index count. revert index.
  induction count as [| count IH]; intros index; cbn [redraw_contexts]; [ reflexivity | ].
  cbv [bind get].
  destruct (contexts p !! index) as [c|] eqn:Hc; [ | apply IH ].
  destruct (ResizeContext.domResizeWrapper c) as [wrapper|] eqn:Hw; [ | apply IH ].
  rewrite (Hunmounted index c wrapper Hc Hw). cbn. apply IH.
Qed.

End Moves.

(** ** Rendering the handles, and hitting them *)

Section Lineages.
Import Js Dom.

Lemma lineage_ancestors (d : Dom.t) (node : ElemId) (l : list ElemId) :
  Lineage d node l ->
  forall fuel nodes, length l <= fuel -> ancestors_from fuel d node nodes = l ++ nodes.
Proof.
  induction 1 as [node Hroot | node parent l Hparent Hl IH]; intros fuel nodes Hfuel.
  - destruct fuel as [| fuel]; [ cbn in Hfuel; lia | ].
    cbn [ancestors_from]. rewrite Hroot. reflexivity.
  - rewrite length_app in Hfuel. cbn in Hfuel.
    destruct fuel as [| fuel]; [ lia | ].
    cbn [ancestors_from]. rewrite Hparent.
    rewrite IH by lia. rewrite <- app_assoc. reflexivity.
Qed.

Lemma lineage_last (d : Dom.t) (node : ElemId) (l : list ElemId) :
  Lineage d node l -> In node l.
Proof.
  destruct 1; [ left; reflexivity | apply in_or_app; right; left; reflexivity ].
Qed.

Lemma lineage_agree (d d' : Dom.t) (node : ElemId) (l : list ElemId) :
  Lineage d node l ->
  (forall x, In x l -> elem d' x = elem d x) ->
  Lineage d' node l.
Proof.
  induction 1 as [node Hroot | node parent l Hparent Hl IH]; intros Hagree.
  - apply Lineage_root. rewrite Hagree by (left; reflexivity). exact Hroot.
  - apply (Lineage_child d' node parent).
    + rewrite Hagree by (apply in_or_app; right; left; reflexivity). exact Hparent.
    + apply IH. intros x Hx. apply Hagree. apply in_or_app. left. exact Hx.
Qed.

Lemma stored_nodup_length (d : Dom.t) (l : list ElemId) :
  NoDup l -> (forall x : ElemId, In x l -> is_Some (d !! x)) -> length l <= size d.
Proof.
  intros Hnodup Hstored.
  assert (Hsub : l ⊆+ elements (dom d)).
  { apply NoDup_submseteq; [ exact Hnodup | ].
    intros x Hx. apply elem_of_elements, elem_of_dom, Hstored, list_elem_of_In, Hx. }
  apply submseteq_length in Hsub.
  change (length (elements (dom d))) with (size (dom d)) in Hsub.
  rewrite size_dom in Hsub. exact Hsub.
Qed.

Lemma ancestors_from_lineage (d : Dom.t) (fuel : nat) (node : ElemId) (nodes : list ElemId) :
  (exists l, Lineage d node l /\ ancestors_from fuel d node nodes = l ++ nodes)
  \/ (length (ancestors_from fuel d node nodes) = fuel + length nodes
      /\ forall x : ElemId, In x (ancestors_from fuel d node nodes) -> In x nodes \/ is_Some (d !! x)).
Proof.
  revert node nodes. induction fuel as [| fuel IH]; intros node nodes; cbn [ancestors_from].
  - right. split; [ reflexivity | ]. intros x Hx. left. exact Hx.
  - destruct (parentElement (elem d node)) as [parent|] eqn:Hparent.
    + destruct (IH parent (node :: nodes)) as [(l & Hl & Hrun) | [Hlen Hin]].
      * left. exists (l ++ [node]). split; [ exact (Lineage_child d node parent l Hparent Hl) | ].
        rewrite Hrun, <- app_assoc. reflexivity.
      * right. split; [ rewrite Hlen; cbn; lia | ].
        intros x Hx. destruct (Hin x Hx) as [[<- | Hacc] | Hstored];
          [ | left; exact Hacc | right; exact Hstored ].
        right. unfold elem in Hparent.
        destruct (d !! node); [ eauto | discriminate Hparent ].
    + left. exists [node]. split; [ exact (Lineage_root d node Hparent) | reflexivity ].
Qed.

(** Where the parent chain of a node has no cycle, [getAncestors] lists
    the whole of it. *)
Lemma getAncestors_lineage (d : Dom.t) (node : ElemId) :
  NoDup (getAncestors d node) -> Lineage d node (getAncestors d node).
Proof.
  intros Hnodup. unfold getAncestors in *.
  destruct (ancestors_from_lineage d (S (size d)) node []) as [(l & Hl & Hrun) | [Hlen Hin]].
  - rewrite Hrun, app_nil_r. exact Hl.
  - exfalso.
    assert (Hle : length (ancestors_from (S (size d)) d node []) <= size d).
    { apply stored_nodup_length; [ exact Hnodup | ].
      intros x Hx. destruct (Hin x Hx) as [[] | Hstored]. exact Hstored. }
    rewrite Hlen in Hle. cbn in Hle. lia.
Qed.

(** The ancestors of a new child are those of its parent, and the child. *)
Lemma getAncestors_new_child (d d' : Dom.t) (parent child : ElemId) :
  NoDup (getAncestors d parent) ->
  (forall x : ElemId, In x (getAncestors d parent) -> is_Some (d !! x)) ->
  (forall (x : ElemId) e, d !! x = Some e -> d' !! x = Some e) ->
  parentElement (elem d' child) = Some parent ->
  getAncestors d' child = getAncestors d parent ++ [child].
Proof.
  intros Hnodup Hstored Hkept Hchild.
  assert (Hagree : forall x, In x (getAncestors d parent) -> elem d' x = elem d x).
  { intros x Hx. destruct (Hstored x Hx) as [e He].
    unfold elem. rewrite He, (Hkept x e He). reflexivity. }
  pose proof (lineage_agree d d' parent _ (getAncestors_lineage d parent Hnodup) Hagree) as Hl.
  pose proof (Lineage_child d' child parent _ Hchild Hl) as Hl'.
  assert (Hlen : length (getAncestors d parent ++ [child]) <= S (size d')).
  { rewrite length_app. change (length [child]) with 1.
    assert (length (getAncestors d parent) <= size d'); [ | lia ].
    apply stored_nodup_length; [ exact Hnodup | ].
    intros x Hx. destruct (Hstored x Hx) as [e He]. exists e. exact (Hkept x e He). }
  unfold getAncestors at 1.
  rewrite (lineage_ancestors d' child _ Hl' _ [] Hlen).
  apply app_nil_r.
Qed.

End Lineages.

Section Rendering.
Context {browser : Dom.Browser} {imports : ResizeContext.Imports}.
Import Js Dom ResizeContext.

(** A new element with a class attribute, appended to [parent]. *)
Lemma append_new (c : ResizeContext.t) (d : Dom.t) (ed : Engine.Editor) (parent : ElemId)
      (attribute : string) :
  is_Some (d !! parent) ->
  let h := fresh (base.dom d) in
  d !! h = None
  /\ (do element <- create_element;
      do _ <- modify_dom (setClass element attribute);
      do _ <- modify_dom (appendChild parent element);
      ret element) (mkState c d ed)
     = (Normal h,
        mkState c (<[h := mkElement (tokens_of_class attribute)
                                    (Some parent) Style.empty (inDocument (elem d parent))]> d) ed).
Proof.
  intros Hparent h.
  assert (Hfresh : d !! h = None).
  { apply not_elem_of_dom. apply is_fresh. }
  split; [ exact Hfresh | ].
  assert (Hne : h <> parent).
  { intros ->. rewrite Hfresh in Hparent. destruct Hparent as [e He]. discriminate He. }
  cbv [bind create_element createElement modify_dom modify ret]. cbn [this dom editor].
  fold h. f_equal. f_equal.
  unfold appendChild, setClass, set_classList.
  assert (Hparent' : forall f, elem (update h f (<[h := blank]> d)) parent = elem d parent).
  { intros f. rewrite elem_update_ne by exact Hne.
    unfold elem. rewrite lookup_insert_ne by exact Hne. reflexivity. }
  assert (Hblank : elem (<[h := blank]> d) h = blank).
  { unfold elem. rewrite lookup_insert_eq. reflexivity. }
  rewrite Hparent'. unfold update at 1. rewrite elem_update_eq.
  unfold update. rewrite Hblank. cbn [classList parentElement style inDocument blank].
  rewrite !insert_insert_eq. reflexivity.
Qed.

Lemma appendShadowElement_run (c : ResizeContext.t) (d : Dom.t) (ed : Engine.Editor)
      (domElement : ElemId) :
  is_Some (d !! domElement) ->
  let shadow := fresh (base.dom d) in
  d !! shadow = None
  /\ _appendShadowElement domElement (mkState c d ed)
     = (Normal shadow,
        mkState c (<[shadow := mkElement ["ck"; "ck-widget__resizer-shadow"]
                                         (Some domElement) Style.empty
                                         (inDocument (elem d domElement))]> d) ed).
Proof.
  intros Hparent. exact (append_new c d ed domElement "ck ck-widget__resizer-shadow" Hparent).
Qed.

Lemma append_resizers_spec (c : ResizeContext.t) (ed : Engine.Editor) (shadow : ElemId)
      (positions : list string) :
  forall d,
    is_Some (d !! shadow) ->
    exists d' handles,
      append_resizers positions shadow (mkState c d ed) = (Normal tt, mkState c d' ed)
      /\ Forall2 (fun h position =>
                    d !! h = None
                    /\ d' !! h = Some (mkElement (tokens_of_class (resizer_class_attribute position))
                                                 (Some shadow) Style.empty
                                                 (inDocument (elem d shadow))))
                 handles positions
      /\ NoDup handles
      /\ (forall (x : ElemId) e, d !! x = Some e -> d' !! x = Some e)
      /\ (forall x : ElemId, is_Some (d' !! x) -> is_Some (d !! x) \/ In x handles).
Proof.
  induction positions as [| position positions IH]; intros d Hshadow.
  - exists d, []. cbn. repeat split; auto; constructor.
  - destruct (append_new c d ed shadow (resizer_class_attribute position) Hshadow) as [Hfresh Hone].
    set (h := fresh (base.dom d)) in *.
    set (d1 := <[h := mkElement (tokens_of_class (resizer_class_attribute position))
                                (Some shadow) Style.empty (inDocument (elem d shadow))]> d) in *.
    assert (Hne : h <> shadow).
    { intros Heq. rewrite Heq in Hfresh. rewrite Hfresh in Hshadow.
      destruct Hshadow as [e He]. discriminate He. }
    assert (Hshadow1 : is_Some (d1 !! shadow)).
    { unfold d1. rewrite lookup_insert_ne by exact Hne. exact Hshadow. }
    assert (Hsame : elem d1 shadow = elem d shadow).
    { unfold elem, d1. rewrite lookup_insert_ne by exact Hne. reflexivity. }
    destruct (IH d1 Hshadow1) as (d' & handles & Hrun & Hall & Hnodup & Hkept & Honly).
    exists d', (h :: handles).
    assert (Hstep : append_resizers (position :: positions) shadow (mkState c d ed)
                    = append_resizers positions shadow (mkState c d1 ed)).
    { cbn [append_resizers].
      change (append_resizers (position :: positions) shadow)
        with (append_resizers (position :: positions) shadow).
      revert Hone. cbv [bind ret]. cbn [this dom editor].
      destruct (create_element (mkState c d ed)) as [[resizer | e] s0]; [ | discriminate ].
      destruct (modify_dom (setClass resizer (resizer_class_attribute position)) s0)
        as [[[] | e] s1]; [ | discriminate ].
      destruct (modify_dom (appendChild shadow resizer) s1) as [[[] | e] s2]; [ | discriminate ].
      intros [= _ ->]. reflexivity. }
    rewrite Hstep, Hrun. split; [ reflexivity | ].
    split; [ | split; [ | split ] ].
    + constructor.
      * split; [ exact Hfresh | ]. apply Hkept. unfold d1. apply lookup_insert_eq.
      * eapply Forall2_impl; [ exact Hall | ].
        intros h' position' [Hnew Hthere]. cbn beta in *. rewrite Hsame in Hthere.
        split; [ | exact Hthere ].
        unfold d1 in Hnew. apply lookup_insert_None in Hnew. tauto.
    + constructor; [ | exact Hnodup ].
      intros Hin. apply list_elem_of_In in Hin.
      assert (Hnew : d1 !! h = None).
      { clear -Hall Hin. induction Hall as [| h' position' hs ps [Hnew _] _ IH'].
        - destruct Hin.
        - destruct Hin as [<- | Hin]; [ exact Hnew | exact (IH' Hin) ]. }
      unfold d1 in Hnew. rewrite lookup_insert_eq in Hnew. discriminate Hnew.
    + intros x e He. apply Hkept. unfold d1.
      rewrite lookup_insert_ne; [ exact He | ]. intros <-. rewrite Hfresh in He. discriminate He.
    + intros x Hx. destruct (Honly x Hx) as [Hd1 | Hin]; [ | right; right; exact Hin ].
      unfold d1 in Hd1. destruct (decide (h = x)) as [<- | Hneq].
      * right. left. reflexivity.
      * rewrite lookup_insert_ne in Hd1 by exact Hneq. left. exact Hd1.
Qed.

(** X14: [_appendResizers] renders one new element per position, in the
    order of the table, under the element it is given: each is a child of
    that element, carries the handle class and the class of its position,
    and has no inline style; the four are distinct, the elements that
    existed are untouched, and nothing else is created. *)
Theorem appendResizers_renders_four_handles (c : ResizeContext.t) (d : Dom.t)
      (ed : Engine.Editor) (shadow : ElemId) :
  is_Some (d !! shadow) ->
  exists d' handles,
    _appendResizers shadow (mkState c d ed) = (Normal tt, mkState c d' ed)
    /\ Forall2 (fun h position =>
                  d !! h = None
                  /\ parentElement (elem d' h) = Some shadow
                  /\ classList (elem d' h) = ["ck-widget__resizer"; _getResizerClass position]
                  /\ style (elem d' h) = Style.empty
                  /\ WidgetResizer.isResizeHandler (elem d' h) = true
                  /\ _getResizerPosition (elem d' h) = Some position)
               handles resizerPositions
    /\ NoDup handles
    /\ (forall (x : ElemId) e, d !! x = Some e -> d' !! x = Some e)
    /\ size d' = size d + 4.
Proof.
  intros Hshadow.
  destruct (append_resizers_spec c ed shadow resizerPositions d Hshadow)
    as (d' & handles & Hrun & Hall & Hnodup & Hkept & Honly).
  exists d', handles. split; [ exact Hrun | ].
  split; [ | split; [ exact Hnodup | split; [ exact Hkept | ] ] ].
  - unfold resizerPositions in *.
    repeat match goal with
           | H : Forall2 _ _ (_ :: _) |- _ => inversion H; subst; clear H
           | H : Forall2 _ _ [] |- _ => inversion H; subst; clear H
           end.
    repeat constructor;
      match goal with
      | H : _ /\ d' !! ?h = Some _ |- context [elem d' ?h] =>
          destruct H as [Hnew Hthere]; unfold elem; rewrite ?Hthere; try exact Hnew; reflexivity
      | H : ?P /\ _ |- ?P => exact (proj1 H)
      end.
  - assert (Hdom : base.dom d' = base.dom d ∪ list_to_set handles).
    { apply set_eq. intros x. rewrite elem_of_union, !elem_of_dom, elem_of_list_to_set.
      split.
      - intros Hx. destruct (Honly x Hx) as [H | H]; [ left; exact H | right ].
        apply list_elem_of_In. exact H.
      - intros [[e He] | Hx]; [ exists e; exact (Hkept x e He) | ].
        apply list_elem_of_In in Hx.
        clear -Hall Hx. induction Hall as [| h position hs ps [_ Hthere] _ IH].
        + destruct Hx.
        + destruct Hx as [<- | Hx]; [ eauto | exact (IH Hx) ]. }
    rewrite <- !size_dom, Hdom. rewrite size_union.
    + rewrite size_list_to_set by exact Hnodup.
      f_equal. apply Forall2_length in Hall. exact Hall.
    + intros x Hx Hh. apply elem_of_dom in Hx. apply elem_of_list_to_set, list_elem_of_In in Hh.
      clear -Hall Hx Hh. induction Hall as [| h position hs ps [Hnew _] _ IH].
      * destruct Hh.
      * destruct Hh as [<- | Hh]; [ | exact (IH Hh) ].
        destruct Hx as [e He]. pose proof (eq_trans (eq_sym He) Hnew) as Hbad. discriminate Hbad.
Qed.

End Rendering.

Section RenderedRouting.
Context {browser : Dom.Browser} {imports : ResizeContext.Imports}.
Import Js Dom WidgetResizer.

Lemma filter_agree {A} (f g : A -> bool) (l : list A) :
  (forall x, In x l -> f x = g x) -> List.filter f l = List.filter g l.
Proof.
  induction l as [| a l IH]; intros H; [ reflexivity | ].
  cbn. rewrite (H a) by (left; reflexivity).
  rewrite IH by (intros x Hx; apply H; right; exact Hx). reflexivity.
Qed.

Lemma Forall2_In_r {A B} (P : A -> B -> Prop) (l : list A) (k : list B) :
  Forall2 P l k -> Forall2 (fun x y => P x y /\ In y k) l k.
Proof.
  induction 1 as [| x y l k Hxy _ IH]; constructor.
  - split; [ exact Hxy | left; reflexivity ].
  - eapply Forall2_impl; [ exact IH | ].
    intros a b [Hab Hin]. split; [ exact Hab | right; exact Hin ].
Qed.

(** A new child that is no resizer wrapper itself is looked up by the same
    wrapper as its parent. *)
Lemma new_child_wrapper (d d' : Dom.t) (parent child : ElemId) (e : Element) :
  NoDup (getAncestors d parent) ->
  (forall x : ElemId, In x (getAncestors d parent) -> is_Some (d !! x)) ->
  (forall (x : ElemId) e', d !! x = Some e' -> d' !! x = Some e') ->
  d' !! child = Some e ->
  parentElement e = Some parent ->
  contains (classList e) "ck-widget__resizer-wrapper" = false ->
  getAncestors d' child = getAncestors d parent ++ [child]
  /\ wrapper_of d' child = wrapper_of d parent.
Proof.
  intros Hnodup Hstored Hkept Hchild Hparent Hnowrapper.
  assert (Helem : elem d' child = e) by (unfold elem; rewrite Hchild; reflexivity).
  assert (Hl : getAncestors d' child = getAncestors d parent ++ [child]).
  { apply (getAncestors_new_child d d' parent child Hnodup Hstored Hkept).
    rewrite Helem. exact Hparent. }
  split; [ exact Hl | ].
  unfold wrapper_of. rewrite Hl, List.filter_app. cbn [List.filter].
  rewrite Helem, Hnowrapper, app_nil_r.
  f_equal. apply filter_agree. intros x Hx.
  destruct (Hstored x Hx) as [e' He']. unfold elem. rewrite He', (Hkept x e' He'). reflexivity.
Qed.

(** The handles rendered under a shadow are hit like the shadow. *)
Lemma rendered_handles_are_routed (p : WidgetResizer.t) (k i : nat) (c : ResizeContext.t)
      (shadow : ElemId) :
  contexts p !! k = Some c ->
  is_Some (dom p !! shadow) ->
  NoDup (getAncestors (dom p) shadow) ->
  (forall x : ElemId, In x (getAncestors (dom p) shadow) -> is_Some (dom p !! x)) ->
  context_by_wrapper (wrapper_of (dom p) shadow) (contexts p) 0 = Normal (Some i) ->
  let p' := snd (call k (ResizeContext._appendResizers shadow) p) in
  exists handles,
    Forall2 (fun h position =>
               dom p !! h = None
               /\ parentElement (elem (dom p') h) = Some shadow
               /\ ResizeContext._getResizerPosition (elem (dom p') h) = Some position
               /\ resizeHandler_of (dom p') h = Some h
               /\ fst (_getContextByHandler h p') = Normal (Some i)
               /\ forall data, target data = h ->
                               activeContext (step p' (MouseDown data)) = Some i)
            handles ResizeContext.resizerPositions.
Proof.
  intros Hc Hshadow Hnodup Hstored Hroute p'.
  destruct (append_resizers_spec c (editor p) shadow ResizeContext.resizerPositions (dom p) Hshadow)
    as (d' & handles & Hrun & Hall & _ & Hkept & _).
  assert (Hp' : p' = mk (contexts p) (activeContext p) (mouseMove p) d' (editor p)).
  { unfold p'. rewrite (call_run k _ _ c) by exact Hc.
    unfold ResizeContext._appendResizers. rewrite Hrun.
    cbn [snd ResizeContext.this ResizeContext.dom ResizeContext.editor].
    rewrite (list_insert_id _ _ _ Hc). reflexivity. }
  exists handles.
  apply Forall2_In_r in Hall.
  eapply Forall2_impl; [ exact Hall | ].
  intros h position [[Hnew Hthere] Hposition]. cbn beta.
  assert (Helem : elem d' h
                  = mkElement (tokens_of_class (ResizeContext.resizer_class_attribute position))
                              (Some shadow) Style.empty (inDocument (elem (dom p) shadow))).
  { unfold elem. rewrite Hthere. reflexivity. }
  assert (Hfacts : isResizeHandler (elem d' h) = true
                   /\ contains (classList (elem d' h)) "ck-widget__resizer-wrapper" = false
                   /\ ResizeContext._getResizerPosition (elem d' h) = Some position).
  { rewrite Helem. cbn in Hposition.
    destruct Hposition as [<- | [<- | [<- | [<- | []]]]]; repeat split; reflexivity. }
  destruct Hfacts as (Hhandle & Hnowrapper & Hpos).
  destruct (new_child_wrapper (dom p) d' shadow h _ Hnodup Hstored Hkept Hthere eq_refl)
    as [_ Hwrapper].
  { rewrite <- Helem. exact Hnowrapper. }
  assert (Hhit : resizeHandler_of d' h = Some h).
  { unfold resizeHandler_of. rewrite Hhandle. reflexivity. }
  rewrite Hp'. cbn [dom].
  split; [ exact Hnew | split; [ rewrite Helem; reflexivity | ] ].
  split; [ exact Hpos | split; [ exact Hhit | ] ].
  assert (Hfound : context_by_wrapper (wrapper_of d' h) (contexts p) 0 = Normal (Some i)).
  { rewrite Hwrapper. exact Hroute. }
  split.
  - rewrite getContextByHandler_run. cbn [fst dom contexts]. exact Hfound.
  - intros data Htarget. unfold step. cbn [dispatch].
    rewrite (mousedown_hit data _ h (Some i)); [ | cbn [dom]; rewrite Htarget; exact Hhit | exact Hfound ].
    rewrite (proj1 (call_frame i (ResizeContext.begin h) _)). reflexivity.
Qed.

(** X15: the overlay that the render callback builds under a wrapper with
    [_appendShadowElement] and [_appendResizers] is wired to the plugin:
    where a [mousedown] on the wrapper would be routed to a context, a
    [mousedown] on each of the four handles is taken to hit that handle and
    makes that context the active one, and each handle is recognised with
    the position it was rendered for. *)
Theorem overlay_skeleton_is_routed (p : WidgetResizer.t) (k i : nat) (c : ResizeContext.t)
      (wrapper : ElemId) :
  contexts p !! k = Some c ->
  is_Some (dom p !! wrapper) ->
  NoDup (getAncestors (dom p) wrapper) ->
  (forall x : ElemId, In x (getAncestors (dom p) wrapper) -> is_Some (dom p !! x)) ->
  fst (_getContextByHandler wrapper p) = Normal (Some i) ->
  let p' := snd (call k (do shadow <- ResizeContext._appendShadowElement wrapper;
                         ResizeContext._appendResizers shadow) p) in
  exists shadow handles,
    dom p !! shadow = None
    /\ parentElement (elem (dom p') shadow) = Some wrapper
    /\ Forall2 (fun h position =>
                  parentElement (elem (dom p') h) = Some shadow
                  /\ ResizeContext._getResizerPosition (elem (dom p') h) = Some position
                  /\ resizeHandler_of (dom p') h = Some h
                  /\ fst (_getContextByHandler h p') = Normal (Some i)
                  /\ forall data, target data = h ->
                                  activeContext (step p' (MouseDown data)) = Some i)
               handles ResizeContext.resizerPositions.
Proof.
  intros Hc Hwrapper Hnodup Hstored Hroute p'.
  rewrite getContextByHandler_run in Hroute. cbn [fst] in Hroute.
  destruct (appendShadowElement_run c (dom p) (editor p) wrapper Hwrapper) as [Hfresh Hshadow].
  set (shadow := fresh (base.dom (dom p))) in *.
  set (e := mkElement ["ck"; "ck-widget__resizer-shadow"] (Some wrapper) Style.empty
                      (inDocument (elem (dom p) wrapper))) in *.
  set (d1 := <[shadow := e]> (dom p)) in *.
  set (p1 := mk (contexts p) (activeContext p) (mouseMove p) d1 (editor p)).
  assert (Hkept : forall (x : ElemId) e', dom p !! x = Some e' -> d1 !! x = Some e').
  { intros x e' He'. unfold d1. rewrite lookup_insert_ne; [ exact He' | ].
    intros <-. pose proof (eq_trans (eq_sym He') Hfresh) as Hbad. discriminate Hbad. }
  assert (Hthere : d1 !! shadow = Some e) by (unfold d1; apply lookup_insert_eq).
  destruct (new_child_wrapper (dom p) d1 wrapper shadow e Hnodup Hstored Hkept Hthere eq_refl eq_refl)
    as [Hl Hw].
  assert (Hp' : p' = snd (call k (ResizeContext._appendResizers shadow) p1)).
  { unfold p'. rewrite !(call_run k _ _ c) by exact Hc.
    unfold bind. rewrite Hshadow. reflexivity. }
  destruct (rendered_handles_are_routed p1 k i c shadow) as (handles & Hall).
  - exact Hc.
  - exists e. exact Hthere.
  - change (dom p1) with d1. rewrite Hl. apply NoDup_app. split; [ exact Hnodup | split ].
    + intros x Hx Hin. apply list_elem_of_singleton in Hin. subst x.
      apply list_elem_of_In in Hx. destruct (Hstored shadow Hx) as [e' He'].
      pose proof (eq_trans (eq_sym He') Hfresh) as Hbad. discriminate Hbad.
    + apply NoDup_singleton.
  - change (dom p1) with d1. rewrite Hl. intros x Hx. apply in_app_or in Hx as [Hx | [<- | []]].
    + destruct (Hstored x Hx) as [e' He']. exists e'. exact (Hkept x e' He').
    + exists e. exact Hthere.
  - change (dom p1) with d1. change (contexts p1) with (contexts p). rewrite Hw. exact Hroute.
  - exists shadow, handles. split; [ exact Hfresh | ].
    rewrite Hp'.
    split.
    + rewrite (call_run k _ _ c) by exact Hc. cbn [snd dom].
      destruct (append_resizers_spec c (editor p1) shadow ResizeContext.resizerPositions d1
                  (ex_intro _ e Hthere)) as (d2 & hs & Hrun & _ & _ & Hkept2 & _).
      unfold ResizeContext._appendResizers. cbn [dom editor p1] in *. rewrite Hrun.
      cbn [snd ResizeContext.dom]. unfold elem. rewrite (Hkept2 shadow e Hthere). reflexivity.
    + eapply Forall2_impl; [ exact Hall | ].
      intros h position (_ & Hparent & Hrest). split; [ exact Hparent | exact Hrest ].
Qed.

End RenderedRouting.

(** ** The resizer: moves, and how a drag ends *)

Section ResizerDrag.
Context {browser : Dom.Browser} {imports : Resizer.Imports}.
Import Js Dom Resizer.

Lemma resizer_getResizeHost_null (r : Resizer.t) (d : Dom.t) (ed : Engine.Editor) :
  _domResizeWrapper r = None ->
  _getResizeHost (mkState r d ed) = (Throw TypeError, mkState r d ed).
Proof.
  intros Hw. unfold _getResizeHost. cbv [bind gets deref ret throw].
  cbn [this dom]. rewrite Hw. reflexivity.
Qed.

(** A move throws before it has written anything, or has all it needs. *)
Lemma resizer_updateSize_cases (r : Resizer.t) (d : Dom.t) (ed : Engine.Editor)
      (data : DomEventData) :
  let host_of (wrapper : ElemId) :=
    match getResizeHost (_options r) with
    | Some f => f (parentElement (elem d wrapper))
    | None => parentElement (elem d wrapper)
    end in
  (updateSize data (mkState r d ed) = (Throw TypeError, mkState r d ed)
   /\ (_domResizeWrapper r = None
       \/ state r = None
       \/ exists wrapper, _domResizeWrapper r = Some wrapper /\ host_of wrapper = None))
  \/ (exists wrapper host st,
        _domResizeWrapper r = Some wrapper /\ host_of wrapper = Some host /\ state r = Some st).
Proof.
  intros host_of.
  destruct (_domResizeWrapper r) as [wrapper|] eqn:Hw.
  - destruct (host_of wrapper) as [host|] eqn:Hhost.
    + destruct (state r) as [st|] eqn:Hst.
      * right. exists wrapper, host, st.
        split; [ reflexivity | split; [ exact Hhost | reflexivity ] ].
      * left. split; [ | right; left; reflexivity ].
        unfold updateSize. unfold bind at 1.
        rewrite (resizer_getResizeHost_run r d ed wrapper Hw).
        cbv [bind gets deref ret throw]. cbn [this dom editor]. rewrite Hst. reflexivity.
    + left. split; [ | right; right; exists wrapper; split; [ reflexivity | exact Hhost ] ].
      unfold updateSize. unfold bind at 1.
      rewrite (resizer_getResizeHost_run r d ed wrapper Hw).
      fold (host_of wrapper). rewrite Hhost.
      cbv [bind gets deref ret throw]. cbn [this dom editor].
      destruct (state r); reflexivity.
  - left. split; [ | left; reflexivity ].
    unfold updateSize. unfold bind at 1.
    rewrite (resizer_getResizeHost_null r d ed Hw). reflexivity.
Qed.

(** X16: a move handed to a resizer either throws a [TypeError] with
    nothing changed at all, which is the case exactly when the overlay has
    not been rendered, no resize is in progress, or there is no resize
    host; or it completes, and then outside the overlay's wrapper the
    document differs from the one before in only the width the host's
    style asks for, the wrapper keeps its left and top, and the model is
    never written. *)
Theorem resizer_updateSize_atomic_and_local (s : State) (data : DomEventData) :
  let s' := snd (updateSize data s) in
  let host_of (wrapper : ElemId) :=
    match getResizeHost (_options (this s)) with
    | Some f => f (parentElement (elem (dom s) wrapper))
    | None => parentElement (elem (dom s) wrapper)
    end in
  editor s' = editor s
  /\ ((fst (updateSize data s) = Throw TypeError
       /\ s' = s
       /\ (_domResizeWrapper (this s) = None
           \/ state (this s) = None
           \/ exists wrapper, _domResizeWrapper (this s) = Some wrapper /\ host_of wrapper = None))
      \/ (fst (updateSize data s) = Normal tt
          /\ exists wrapper host st,
              _domResizeWrapper (this s) = Some wrapper
              /\ host_of wrapper = Some host
              /\ state (this s) = Some st
              /\ (forall x : ElemId, x <> wrapper ->
                    elem (dom s') x = elem (requested st data host (dom s)) x)
              /\ Style.left (style (elem (dom s') wrapper))
                 = Style.left (style (elem (requested st data host (dom s)) wrapper))
              /\ Style.top (style (elem (dom s') wrapper))
                 = Style.top (style (elem (requested st data host (dom s)) wrapper)))).
Proof.
  destruct s as [r d ed]. intros s' host_of. cbn [this dom editor] in *.
  destruct (resizer_updateSize_cases r d ed data)
    as [[Hrun Hwhy] | (wrapper & host & st & Hw & Hhost & Hst)].
  - unfold s'. rewrite Hrun. split; [ reflexivity | left ].
    split; [ reflexivity | split; [ reflexivity | exact Hwhy ] ].
  - pose proof (updateSize_run r d ed data wrapper host st Hw Hhost Hst) as Hrun.
    cbv zeta in Hrun. unfold s'. rewrite Hrun. cbn [fst snd dom editor].
    split; [ reflexivity | right ]. split; [ reflexivity | ].
    exists wrapper, host, st.
    split; [ exact Hw | split; [ exact Hhost | split; [ exact Hst | ] ] ].
    rewrite set_style_set_style.
    split; [ | split ].
    + intros x Hx. apply elem_set_style_ne. intros Heq. apply Hx. symmetry. exact Heq.
    + rewrite style_set_style_eq. reflexivity.
    + rewrite style_set_style_eq. reflexivity.
Qed.

Lemma resizer_cancel_run (r : Resizer.t) (d : Dom.t) (ed : Engine.Editor)
      (shadow : ElemId) (view : SizeView.t) :
  _domResizeShadow r = Some shadow ->
  sizeUi r = Some view ->
  cancel (mkState r d ed)
  = (Normal tt,
     mkState (set_sizeUi (Some (SizeView.mk false (SizeView.label view) false)) r)
             (set_style shadow (fun _ => Style.empty) d) ed).
Proof.
  intros Hs Hview. unfold cancel, _dismissShadow, _cleanup.
  cbv [bind gets deref ret throw modify_dom modify_this modify]. cbn [this dom editor].
  rewrite Hs. cbn [this dom editor]. rewrite Hview. reflexivity.
Qed.

Lemma resizer_cancel_completes (r : Resizer.t) (d : Dom.t) (ed : Engine.Editor) :
  fst (cancel (mkState r d ed)) = Normal tt ->
  exists shadow view, _domResizeShadow r = Some shadow /\ sizeUi r = Some view.
Proof.
  unfold cancel, _dismissShadow, _cleanup.
  cbv [bind gets deref ret throw modify_dom modify_this modify]. cbn [this dom editor].
  destruct (_domResizeShadow r) as [shadow|]; cbn [this dom editor fst]; [ | discriminate ].
  destruct (sizeUi r) as [view|]; cbn [fst]; [ | discriminate ].
  intros _. exists shadow, view. split; reflexivity.
Qed.

(** Neither [redraw] nor the host lookup reads the size label. *)
Lemma resizer_redraw_ignores_label (r : Resizer.t) (d : Dom.t) (ed : Engine.Editor)
      (v : option SizeView.t) :
  redraw (mkState (set_sizeUi v r) d ed)
  = (fst (redraw (mkState r d ed)),
     mkState (set_sizeUi v (this (snd (redraw (mkState r d ed)))))
             (dom (snd (redraw (mkState r d ed))))
             (editor (snd (redraw (mkState r d ed))))).
Proof.
  assert (Hopts : _options (set_sizeUi v r) = _options r) by reflexivity.
  assert (Hwr : _domResizeWrapper (set_sizeUi v r) = _domResizeWrapper r) by reflexivity.
  unfold redraw. cbv [bind gets ret]. cbn [this dom]. rewrite Hwr.
  destruct (existsInDom d (_domResizeWrapper r)); [ | reflexivity ].
  destruct (_domResizeWrapper r) as [wrapper|] eqn:Hw; cbv [deref ret throw]; [ | reflexivity ].
  rewrite (resizer_getResizeHost_run r d ed wrapper Hw).
  rewrite (resizer_getResizeHost_run (set_sizeUi v r) d ed wrapper Hw), Hopts.
  destruct (match getResizeHost (_options r) with
            | Some f => f (parentElement (elem d wrapper))
            | None => parentElement (elem d wrapper)
            end) as [host|]; [ | reflexivity ].
  cbv [modify_dom modify]. cbn [this dom editor].
  destruct (parentElement (elem d wrapper)) as [widget|]; [ | reflexivity ].
  destruct (ResizeContext.isSameNode widget (Some host)); reflexivity.
Qed.

(** X17: [cancel] of a resizer completes exactly when the shadow and the
    size label exist.  It then leaves the label hidden and unbound with its
    text kept, keeps the resize state, and clears the inline style of the
    shadow; a move handed to the resizer afterwards does not bring the
    label back or change its text. *)
Theorem resizer_cancel_unbinds_label (s : State) (data : DomEventData) :
  let s1 := snd (cancel s) in
  (fst (cancel s) = Normal tt
   <-> is_Some (_domResizeShadow (this s)) /\ is_Some (sizeUi (this s)))
  /\ (fst (cancel s) = Normal tt ->
      exists shadow view,
        _domResizeShadow (this s) = Some shadow
        /\ sizeUi (this s) = Some view
        /\ sizeUi (this s1) = Some (SizeView.mk false (SizeView.label view) false)
        /\ state (this s1) = state (this s)
        /\ style (elem (dom s1) shadow) = Style.empty
        /\ sizeUi (this (snd (updateSize data s1))) = sizeUi (this s1)).
Proof.
  destruct s as [r d ed]. intros s1. cbn [this dom editor] in *.
  assert (Hdone : fst (cancel (mkState r d ed)) = Normal tt ->
                  exists shadow view,
                    _domResizeShadow r = Some shadow /\ sizeUi r = Some view
                    /\ s1 = mkState (set_sizeUi (Some (SizeView.mk false (SizeView.label view) false)) r)
                                    (set_style shadow (fun _ => Style.empty) d) ed).
  { intros H. destruct (resizer_cancel_completes r d ed H) as (shadow & view & Hs & Hview).
    exists shadow, view. split; [ exact Hs | split; [ exact Hview | ] ].
    unfold s1. rewrite (resizer_cancel_run r d ed shadow view Hs Hview). reflexivity. }
  split.
  - split.
    + intros H. destruct (Hdone H) as (shadow & view & Hs & Hview & _).
      rewrite Hs, Hview. split; eexists; reflexivity.
    + intros [[shadow Hs] [view Hview]].
      rewrite (resizer_cancel_run r d ed shadow view Hs Hview). reflexivity.
  - intros H. destruct (Hdone H) as (shadow & view & Hs & Hview & Hs1).
    exists shadow, view. rewrite Hs1. cbn [this dom editor set_sizeUi sizeUi state].
    split; [ exact Hs | split; [ exact Hview | split; [ reflexivity | split; [ reflexivity | ] ] ] ].
    split; [ rewrite style_set_style_eq; reflexivity | ].
    pose (r1 := set_sizeUi (Some (SizeView.mk false (SizeView.label view) false)) r).
    pose (d1 := set_style shadow (fun _ => Style.empty) d).
    change (sizeUi (this (snd (updateSize data (mkState r1 d1 ed)))) = sizeUi r1).
    destruct (resizer_updateSize_cases r1 d1 ed data)
      as [[Hsame _] | (wrapper & host & st & Hw & Hhost & Hst)].
    + rewrite Hsame. reflexivity.
    + rewrite (updateSize_run r1 d1 ed data wrapper host st Hw Hhost Hst).
      cbn [snd this]. reflexivity.
Qed.

(** X18: a [commit] of a resizer that completes is a [cancel] followed by
    a [redraw], both completing, and one change handed to the model: the
    resizer and the document are left as [cancel] and [redraw] leave them,
    and the width handed to the model is the one the shadow had before its
    style was cleared. *)
Theorem resizer_commit_is_cancel_redraw_write (s : State) :
  fst (commit s) = Normal tt ->
  exists shadow,
    _domResizeShadow (this s) = Some shadow
    /\ fst (cancel s) = Normal tt
    /\ fst (redraw (snd (cancel s))) = Normal tt
    /\ snd (commit s)
       = mkState (this (snd (redraw (snd (cancel s)))))
                 (dom (snd (redraw (snd (cancel s)))))
                 (Engine.change [resizer_width_write (this s) (dom s) shadow] (editor s)).
Proof.
  destruct s as [r d ed]. cbn [this dom editor]. intros Hdone.
  destruct (_domResizeShadow r) as [shadow|] eqn:Hs;
    [ | rewrite (resizer_commit_unrendered r d ed Hs) in Hdone; discriminate Hdone ].
  exists shadow. split; [ reflexivity | ].
  rewrite (resizer_commit_run r d ed shadow Hs) in Hdone |- *.
  pose proof (resizer_redraw_frame (mkState r (set_style shadow (fun _ => Style.empty) d) ed))
    as [Hthis Hed].
  destruct (redraw (mkState r (set_style shadow (fun _ => Style.empty) d) ed))
    as [[[] | e] s2] eqn:Hredraw; cbn [fst snd this editor] in *; [ | discriminate Hdone ].
  rewrite Hthis in *.
  destruct (sizeUi r) as [view|] eqn:Hview; [ | discriminate Hdone ].
  rewrite (resizer_cancel_run r d ed shadow view Hs Hview). cbn [fst snd].
  rewrite resizer_redraw_ignores_label, Hredraw. cbn [fst snd this dom editor].
  split; [ reflexivity | split; [ reflexivity | ] ].
  rewrite Hthis, Hed. reflexivity.
Qed.

End ResizerDrag.

(** ** The further properties, on the page *)

Section FurtherOnThePage.
Import Js Dom Page.

(** On the page: a drag on the first widget, a move, the release, a layout
    change and a press on the second widget leave both contexts bound as
    they were. *)
Lemma listeners_keep_registry_witness :
  let events := [ WidgetResizer.MouseDown (mouse 16 0 0); WidgetResizer.MouseMove (mouse 16 300 200);
                  WidgetResizer.MouseUp; WidgetResizer.LayoutChanged;
                  WidgetResizer.MouseDown (mouse 24 0 0) ] in
  registry (WidgetResizer.run plugin events) = registry plugin
  /\ active_registered (WidgetResizer.run plugin events).
Proof.
  intros events. apply (listeners_keep_registry events plugin). exact I.
Defined.

(** On the page: with only the second widget registered, a press on a
    handle of the first widget subscribes the [mousemove] listener with no
    context active, and the release does not unsubscribe it. *)
Lemma orphan_handle_leaves_listener_witness :
  let p := WidgetResizer.mk [context 20 200] None 0 document editor in
  let p1 := WidgetResizer.step p (WidgetResizer.MouseDown (mouse 14 0 0)) in
  WidgetResizer.mouseMove p1 = 1
  /\ WidgetResizer.activeContext p1 = None
  /\ WidgetResizer.mouseMove (WidgetResizer.step p1 WidgetResizer.MouseUp) = 1.
Proof.
  intros p p1.
  destruct (orphan_handle_leaves_listener p (mouse 14 0 0) 14) as (Hp1 & Hup & _);
    [ vm_compute; reflexivity | vm_compute; reflexivity | ].
  fold p1 in Hp1, Hup. rewrite Hup, Hp1. repeat split; reflexivity.
Defined.

(** On the page: a drag of the bottom-right handle of the first widget
    that is begun and cancelled leaves the document as it was. *)
Lemma begin_cancel_restores_witness :
  exists s1 c2,
    ResizeContext.begin 16 (ResizeContext.mkState (context 10 100) document editor) = (Normal tt, s1)
    /\ ResizeContext.cancel s1
       = (Normal tt, ResizeContext.mkState c2 (set_style 13 (fun _ => Style.empty) document) editor)
    /\ ResizeContext.resizeStrategy c2
       = [ResizeContext.StrategyBegin 16; ResizeContext.StrategyCancel].
Proof.
  destruct (begin_cancel_restores (context 10 100) document editor 16 12 13 11 "bottom-right")
    as (s1 & c2 & d2 & Hbegin & Hcancel & Hd2 & _ & _ & _ & _ & Hstrategy & _);
    [ reflexivity | reflexivity | reflexivity | reflexivity | reflexivity | ].
  exists s1, c2. rewrite <- Hd2. split; [ exact Hbegin | split; [ exact Hcancel | exact Hstrategy ] ].
Defined.

(** On the page: the context of the first widget, destroyed, cannot begin
    another drag. *)
Lemma destroy_disables_context_witness :
  exists c1,
    ResizeContext.destroy (ResizeContext.mkState (context 10 100) document editor)
    = (Normal tt, ResizeContext.mkState c1 (dismissed 13 document) editor)
    /\ ResizeContext.domResizeWrapper c1 = Some 12
    /\ fst (ResizeContext.begin 16 (ResizeContext.mkState c1 (dismissed 13 document) editor))
       = Throw TypeError.
Proof.
  destruct (destroy_disables_context (context 10 100) document editor 13)
    as (c1 & Hrun & _ & Hwrapper & _ & Hdead); [ reflexivity | ].
  exists c1. split; [ exact Hrun | split; [ exact Hwrapper | ] ].
  destruct (Hdead (dismissed 13 document)) as (_ & _ & _ & Hbegin).
  rewrite (Hbegin 16). reflexivity.
Defined.

(** On the page: two moves during a drag on the first widget reach the
    strategy of its context after the [begin], in their order; after a
    second press on the handle with no release in between, a move reaches
    it twice. *)
Lemma moves_forwarded_in_order_witness :
  let p1 := WidgetResizer.step plugin (WidgetResizer.MouseDown (mouse 16 0 0)) in
  let moves := [mouse 16 300 200; mouse 16 310 205] in
  let p' := WidgetResizer.run p1 (WidgetResizer.MouseMove <$> moves) in
  let p2 := WidgetResizer.step p1 (WidgetResizer.MouseDown (mouse 16 0 0)) in
  let p'' := WidgetResizer.run p2 (WidgetResizer.MouseMove <$> [mouse 16 300 200]) in
  WidgetResizer.activeContext p' = Some 0
  /\ ResizeContext.resizeStrategy <$> WidgetResizer.contexts p' !! 0
     = Some [ ResizeContext.StrategyBegin 16;
              ResizeContext.StrategyUpdateSize (mouse 16 300 200);
              ResizeContext.StrategyUpdateSize (mouse 16 310 205) ]
  /\ ResizeContext.resizeStrategy <$> WidgetResizer.contexts p'' !! 0
     = Some [ ResizeContext.StrategyBegin 16;
              ResizeContext.StrategyBegin 16;
              ResizeContext.StrategyUpdateSize (mouse 16 300 200);
              ResizeContext.StrategyUpdateSize (mouse 16 300 200) ].
Proof.
  intros p1 moves p' p2 p''.
  destruct (moves_forwarded_in_order moves p1 0
              (begun (context 10 100) document 16 11 "bottom-right" "top-left") 12)
    as (Hactive & _ & _ & _ & c' & Hc' & Hstrategy);
    [ reflexivity | vm_compute; reflexivity | reflexivity | ].
  destruct (moves_forwarded_in_order [mouse 16 300 200] p2 0
              (default (context 10 100) (WidgetResizer.contexts p2 !! 0)) 12)
    as (_ & _ & _ & _ & c'' & Hc'' & Hstrategy'');
    [ reflexivity | vm_compute; reflexivity | reflexivity | ].
  fold p' in Hactive, Hc'. fold p'' in Hc''.
  split; [ exact Hactive | split ].
  - rewrite Hc'. cbn [fmap option_fmap option_map]. rewrite Hstrategy. reflexivity.
  - rewrite Hc''. cbn [fmap option_fmap option_map]. rewrite Hstrategy''. reflexivity.
Defined.

(** On the page: the context of the first widget is destroyed during its
    drag; the release hands the model nothing and the context stays the
    active one. *)
Lemma mouseup_without_shadow_witness :
  let p1 := WidgetResizer.step plugin (WidgetResizer.MouseDown (mouse 16 0 0)) in
  let p2 := snd (WidgetResizer.call 0 ResizeContext.destroy p1) in
  let p3 := WidgetResizer.step p2 WidgetResizer.MouseUp in
  WidgetResizer.activeContext p3 = Some 0
  /\ WidgetResizer.mouseMove p3 = 0
  /\ WidgetResizer.editor p3 = editor.
Proof.
  intros p1 p2 p3.
  destruct (mouseup_without_shadow p2 0 (default (context 10 100) (WidgetResizer.contexts p2 !! 0)))
    as (_ & Hstep & Hactive);
    [ reflexivity | vm_compute; reflexivity | vm_compute; reflexivity | ].
  fold p3 in Hstep, Hactive. split; [ exact Hactive | ].
  rewrite Hstep. split; reflexivity.
Defined.

(** A plugin whose context has a wrapper that is mounted nowhere: a layout
    change completes and changes nothing. *)
Lemma layoutChanged_skips_unmounted_witness :
  let p := WidgetResizer.mk [context 10 100] None 0 (∅ : Dom.t) editor in
  WidgetResizer.layoutChanged p = (Normal tt, p).
Proof.
  intros p. apply (layoutChanged_skips_unmounted p).
  intros i c wrapper _ _. reflexivity.
Defined.

(** On the page: four more handles rendered under the shadow of the first
    widget make a document of twenty elements. *)
Lemma appendResizers_renders_four_handles_witness :
  exists d',
    ResizeContext._appendResizers 13 (ResizeContext.mkState (context 10 100) document editor)
    = (Normal tt, ResizeContext.mkState (context 10 100) d' editor)
    /\ size d' = 20.
Proof.
  destruct (appendResizers_renders_four_handles (context 10 100) document editor 13)
    as (d' & handles & Hrun & _ & _ & _ & Hsize);
    [ exists (mkElement ["ck"; "ck-widget__resizer-shadow"] (Some 12) Style.empty true);
      vm_compute; reflexivity | ].
  exists d'. split; [ exact Hrun | ]. rewrite Hsize. vm_compute. reflexivity.
Defined.

(** On the page: an overlay built again under the wrapper of the first
    widget has four handles, and a press on any of them starts a drag of
    the first context. *)
Lemma overlay_skeleton_is_routed_witness :
  let p' := snd (WidgetResizer.call 0
                   (do shadow <- ResizeContext._appendShadowElement 12;
                    ResizeContext._appendResizers shadow) plugin) in
  exists handles,
    length handles = 4
    /\ Forall (fun h => WidgetResizer.activeContext
                          (WidgetResizer.step p' (WidgetResizer.MouseDown (mouse h 0 0))) = Some 0)
              handles.
Proof.
  intros p'.
  destruct (overlay_skeleton_is_routed plugin 0 0 (context 10 100) 12)
    as (shadow & handles & _ & _ & Hall).
  - reflexivity.
  - exists (mkElement ["ck"; "ck-widget__resizer-wrapper"] (Some 10) Style.empty true).
    vm_compute. reflexivity.
  - apply (bool_decide_unpack _). vm_compute. reflexivity.
  - intros x Hx. vm_compute in Hx. destruct Hx as [<- | [<- | []]]; eexists; vm_compute; reflexivity.
  - vm_compute. reflexivity.
  - fold p' in Hall. exists handles. split.
    + rewrite (Forall2_length _ _ _ Hall). reflexivity.
    + clear -Hall. induction Hall as [| h position handles positions Hh _ IH]; constructor.
      * destruct Hh as (_ & _ & _ & _ & Hdown). apply Hdown. reflexivity.
      * exact IH.
Defined.

(** On the page: the resizer of the first widget commits; the model gets
    the width in pixels and the label is hidden. *)
Lemma resizer_commit_is_cancel_redraw_write_witness :
  let s := Resizer.mkState resizer document editor in
  Engine.writes (Resizer.editor (snd (Resizer.commit s)))
  = [Engine.mkSetAttribute "width" (Engine.PxValue 100) (Some 1)]
  /\ fst (Resizer.cancel s) = Normal tt.
Proof.
  intros s.
  destruct (resizer_commit_is_cancel_redraw_write s) as (shadow & Hshadow & Hcancel & _ & Hend);
    [ vm_compute; reflexivity | ].
  split; [ | exact Hcancel ].
  rewrite Hend. injection Hshadow as <-. vm_compute. reflexivity.
Defined.

(** On the page: [begin] completes on a handle of the first widget, and
    throws on its image, which carries the class of no position. *)
Lemma begin_completes_iff_witness :
  fst (ResizeContext.begin 16 (ResizeContext.mkState (context 10 100) document editor)) = Normal tt
  /\ fst (ResizeContext.begin 11 (ResizeContext.mkState (context 10 100) document editor))
     <> Normal tt.
Proof.
  split.
  - apply (begin_completes_iff (context 10 100) document editor 16).
    exists 12, 13, 11, "bottom-right". repeat split; reflexivity.
  - intros H. apply (begin_completes_iff (context 10 100) document editor 11) in H.
    destruct H as (wrapper & shadow & host & p & _ & _ & _ & Hp). vm_compute in Hp. discriminate Hp.
Defined.

(** On the page: a move handed to the resizer of the first widget
    completes and leaves the second widget and the model alone. *)
Lemma resizer_updateSize_atomic_and_local_witness :
  let s' := snd (Resizer.updateSize (mouse 16 700 500) (Resizer.mkState resizer document editor)) in
  Resizer.editor s' = editor
  /\ elem (Resizer.dom s') 21 = elem document 21.
Proof.
  intros s'.
  destruct (resizer_updateSize_atomic_and_local (Resizer.mkState resizer document editor)
              (mouse 16 700 500)) as [Heditor Hcases].
  fold s' in Heditor, Hcases. split; [ exact Heditor | ].
  destruct Hcases as [(Hthrow & _) | (_ & wrapper & host & st & Hw & Hhost & _ & Hrest & _)].
  - vm_compute in Hthrow. discriminate Hthrow.
  - injection Hw as <-. injection Hhost as <-. rewrite (Hrest 21) by discriminate.
    apply elem_set_style_ne. discriminate.
Defined.

(** On the page: the resizer of the first widget is cancelled in the middle
    of a drag; its label is hidden and a later move does not show it. *)
Lemma resizer_cancel_unbinds_label_witness :
  let s1 := snd (Resizer.cancel (Resizer.mkState resizer document editor)) in
  Resizer.SizeView.isVisible
    <$> Resizer.sizeUi (Resizer.this (snd (Resizer.updateSize (mouse 16 700 500) s1)))
  = Some false.
Proof.
  intros s1.
  destruct (resizer_cancel_unbinds_label (Resizer.mkState resizer document editor)
              (mouse 16 700 500)) as [Hiff Hdone].
  destruct Hdone as (shadow & view & _ & _ & Hlabel & _ & _ & Hafter);
    [ apply Hiff; split; eexists; reflexivity | ].
  fold s1 in Hlabel, Hafter. rewrite Hafter, Hlabel. reflexivity.
Defined.

End FurtherOnThePage.
